(** * RuPing standalone installer and uninstaller

    A shallow embedding of [installer/installer.py] and
    [installer/uninstaller.py], and the properties of the install and
    uninstall runs that their specification states.

    The operating system is an explicit [World] (directories, the machine-wide
    PATH value of the registry, the console) that every operation threads
    through a small state-and-exception monad; what a run cannot decide by
    itself (is the process elevated, does the registry key open, do the
    listeners of a broadcast answer) is read from an [Env]. *)

From Stdlib Require Import Ascii String.
From stdpp Require Import gmap strings list fin_maps pretty.

Open Scope string_scope.
Open Scope list_scope.
Open Scope Z_scope.

Set Warnings "-register-all".

(** ** Python string operations used by the two programs *)

Module PyStr.

(** [s.split(sep)] for a one-character separator: never returns the empty
    list, and [""] splits to [[""]]. *)
Fixpoint split (sep : ascii) (s : string) : list string :=
  match s with
  | EmptyString => [EmptyString]
  | String c t =>
      if Ascii.eqb c sep then EmptyString :: split sep t
      else match split sep t with
           | [] => [String c EmptyString]
           | h :: r => String c h :: r
           end
  end.

(** [sep.join(l)] *)
Fixpoint join (sep : string) (l : list string) : string :=
  match l with
  | [] => EmptyString
  | [x] => x
  | x :: r => x +:+ sep +:+ join sep r
  end.

(** [needle in hay] on strings: substring test. *)
Fixpoint contains (needle hay : string) : bool :=
  String.prefix needle hay
  || match hay with
     | EmptyString => false
     | String _ t => contains needle t
     end.

(** [s.endswith(suf)] *)
Definition endswith (s suf : string) : bool :=
  let n := String.length s in
  let k := String.length suf in
  (k <=? n)%nat && String.eqb (String.substring (n - k) k s) suf.

(** ASCII part of [str.isspace]: the strings are byte strings, and the
    white space beyond ASCII (U+0085, U+00A0 and others) is not known to
    [strip]. *)
Definition isspace (c : ascii) : bool :=
  let n := nat_of_ascii c in
  ((9 <=? n) && (n <=? 13) || (28 <=? n) && (n <=? 32))%nat.

Fixpoint lstrip (s : string) : string :=
  match s with
  | EmptyString => EmptyString
  | String c t => if isspace c then lstrip t else s
  end.

(** Drops the trailing white space: a character is kept when something
    that is kept follows it. *)
Fixpoint rstrip (s : string) : string :=
  match s with
  | EmptyString => EmptyString
  | String c t =>
      match rstrip t with
      | EmptyString => if isspace c then EmptyString else String c EmptyString
      | r => String c r
      end
  end.

Definition strip (s : string) : string := rstrip (lstrip s).

Definition lower_ascii (c : ascii) : ascii :=
  let n := nat_of_ascii c in
  if ((65 <=? n) && (n <=? 90))%nat then ascii_of_nat (n + 32) else c.

Fixpoint lower (s : string) : string :=
  match s with
  | EmptyString => EmptyString
  | String c t => String (lower_ascii c) (lower t)
  end.

End PyStr.

(** ** The machine the programs run on *)

(** What a directory holds under a name: a regular file with its contents, or
    something that is not one (a sub-directory), which [exists()] reports,
    [unlink()] and [open()] refuse, and [copy2] copies into. The hierarchy of
    directories is not tracked: a directory is known by its path string. *)
Inductive node : Type :=
| File (data : string)
| SubDir.

#[global] Instance node_eq_dec : EqDecision node.
Proof. solve_decision. Defined.

Inductive event : Type :=
| Print (line : string)
| Prompt (text : string)
| SendMessageW (hwnd msg : Z) (lparam : string)
| SendMessageTimeoutW (hwnd msg : Z) (lparam : string) (flags timeout_ms : Z).

Record World : Type := mkWorld {
  fs : gmap string (gmap string node);   (* existing directories and their entries *)
  reg_path : option string;              (* the PATH value of the machine environment key *)
  stdin : list string;                   (* the lines the user will type *)
  trace : list event                     (* console output and broadcasts, oldest first *)
}.

Inductive listeners : Type := Responsive | Unresponsive.

(** A JSON document as Python sees it once loaded; an object is the list of
    its members, each key once. *)
Inductive json : Type :=
| JNull
| JBool (b : bool)
| JNum (n : Z)
| JStr (s : string)
| JArr (items : list json)
| JObj (members : list (string * json)).

Fixpoint dict_get (k : string) (members : list (string * json)) : option json :=
  match members with
  | [] => None
  | (k', v) :: rest => if decide (k' = k) then Some v else dict_get k rest
  end.

Record Env : Type := mkEnv {
  admin_probe : option bool;       (* IsUserAnAdmin(); None when the probe raises *)
  meipass : option string;         (* sys._MEIPASS, when running from a bundle *)
  argv0_dir : option string;       (* Path(sys.argv[0]).resolve().parent; None when argv is empty *)
  cwd : string;                    (* where a relative Path(filename) is looked up *)
  cwd_release : string;            (* Path("../target/release") *)
  script_dir : string;             (* Path(__file__).parent *)
  script_release : string;         (* Path(__file__).parent.parent / "target" / "release" *)
  PROGRAMFILES : option string;
  LOCALAPPDATA : option string;
  PROGRAMDATA : option string;
  creatable : string -> bool;      (* mkdir(parents=True) of a missing directory succeeds *)
  reg_access : bool;               (* OpenKey(..., KEY_ALL_ACCESS) succeeds *)
  user32_ok : bool;                (* the user32 entry points can be called *)
  windows : listeners;             (* do the top-level windows answer a broadcast *)
  json_dump : json -> string;      (* json.dump(v, f, indent=2), the text written *)
  json_load : string -> option json;        (* json.load(f); None when it raises *)
  b64decode : string -> option string       (* base64.b64decode; None when it raises *)
}.

(** A path below a directory: the directory's string and the entry's name. *)
Definition path : Type := string * string.

Definition entry (w : World) (p : path) : option node :=
  fs w !! p.1 ≫= (λ d, d !! p.2).

Definition set_fs (f : gmap string (gmap string node)) (w : World) : World :=
  {| fs := f; reg_path := reg_path w; stdin := stdin w; trace := trace w |}.
Definition set_reg_path (v : option string) (w : World) : World :=
  {| fs := fs w; reg_path := v; stdin := stdin w; trace := trace w |}.
Definition set_stdin (l : list string) (w : World) : World :=
  {| fs := fs w; reg_path := reg_path w; stdin := l; trace := trace w |}.
Definition emit (e : event) (w : World) : World :=
  {| fs := fs w; reg_path := reg_path w; stdin := stdin w; trace := trace w ++ [e] |}.

(** How a call ends: it returns, a Python exception propagates out of it,
    [sys.exit] unwinds the run, or it blocks for ever inside a system call. *)
Inductive outcome (A : Type) : Type :=
| Ret (a : A)
| Raise
| Exit (code : Z)
| Hang.
Arguments Ret {A} a.
Arguments Raise {A}.
Arguments Exit {A} code.
Arguments Hang {A}.

Definition M (A : Type) : Type := World -> outcome A * World.

Definition ret {A} (a : A) : M A := fun w => (Ret a, w).

Definition bind {A B} (m : M A) (k : A -> M B) : M B :=
  fun w =>
    match m w with
    | (Ret a, w') => k a w'
    | (Raise, w') => (Raise, w')
    | (Exit c, w') => (Exit c, w')
    | (Hang, w') => (Hang, w')
    end.

Definition raise {A} : M A := fun w => (Raise, w).

(** [try: m except Exception: h]. [SystemExit] is not an [Exception]. *)
Definition try_except {A} (m h : M A) : M A :=
  fun w =>
    match m w with
    | (Raise, w') => h w'
    | r => r
    end.

Declare Scope run_scope.
Delimit Scope run_scope with run.
Notation "x <- m ;; k" := (bind m (fun x => k))
  (at level 100, m at next level, k at level 200, right associativity) : run_scope.
Notation "m ;; k" := (bind m (fun _ => k))
  (at level 100, k at level 200, right associativity) : run_scope.
Open Scope run_scope.

Definition when (b : bool) (m : M unit) : M unit := if b then m else ret tt.

(** *** Console *)

Definition print (line : string) : M unit := fun w => (Ret tt, emit (Print line) w).

(** [input(prompt)]: end of input raises [EOFError]. *)
Definition input (prompt : string) : M string :=
  fun w =>
    let w1 := emit (Prompt prompt) w in
    match stdin w1 with
    | [] => (Raise, w1)
    | l :: rest => (Ret l, set_stdin rest w1)
    end.

(** *** Files *)

(** [Path(s)], as far as the programs depend on it: the empty string is the
    current directory. The string is taken to be spelled as pathlib prints
    it, with backslashes and without a trailing separator. *)
Definition Path (s : string) : string := if decide (s = "") then "." else s.

(** [Path(a) / b] for a plain name [b]. *)
Definition path_join (a b : string) : string :=
  if decide (a = "" \/ a = ".") then b
  else if PyStr.endswith a "\" || PyStr.endswith a ":" then a +:+ b
  else a +:+ "\" +:+ b.

Definition dir_exists (d : string) : M bool :=
  fun w => (Ret (bool_decide (is_Some (fs w !! d))), w).

Definition path_exists (p : path) : M bool :=
  fun w => (Ret (bool_decide (is_Some (entry w p))), w).

(** [d.mkdir(parents=True, exist_ok=True)]. The missing ancestors it creates
    and the entry a new directory makes in its parent are not tracked: what
    is said below about directories that come and go is said about regular
    files. *)
Definition mkdir_p (env : Env) (d : string) : M unit :=
  fun w =>
    match fs w !! d with
    | Some _ => (Ret tt, w)
    | None => if creatable env d then (Ret tt, set_fs (<[d := ∅]> (fs w)) w)
              else (Raise, w)
    end.

(** [open(p, 'w').write(data)] *)
Definition write_file (p : path) (data : string) : M unit :=
  fun w =>
    match fs w !! p.1 with
    | None => (Raise, w)
    | Some d =>
        match d !! p.2 with
        | Some SubDir => (Raise, w)
        | _ => (Ret tt, set_fs (<[p.1 := <[p.2 := File data]> d]> (fs w)) w)
        end
    end.

(** [open(p, 'r').read()] *)
Definition read_file (p : path) : M string :=
  fun w =>
    match entry w p with
    | Some (File data) => (Ret data, w)
    | _ => (Raise, w)
    end.

(** [shutil.copy2(src, dst)]: the source must be a regular file other than
    the destination; a destination that is a directory receives the copy
    inside it, which leaves the entries tracked here as they are. *)
Definition copy2 (src dst : path) : M unit :=
  fun w =>
    match entry w src with
    | Some (File data) =>
        if decide (src = dst) then (Raise, w)
        else
          match fs w !! dst.1 with
          | None => (Raise, w)
          | Some d =>
              match d !! dst.2 with
              | Some SubDir => (Ret tt, w)
              | _ => (Ret tt, set_fs (<[dst.1 := <[dst.2 := File data]> d]> (fs w)) w)
              end
          end
    | _ => (Raise, w)
    end.

(** [p.unlink()]. A regular file is taken to be deletable; Windows refuses
    for the image of a running program. *)
Definition unlink (p : path) : M unit :=
  fun w =>
    match fs w !! p.1 with
    | None => (Raise, w)
    | Some d =>
        match d !! p.2 with
        | Some (File _) => (Ret tt, set_fs (<[p.1 := delete p.2 d]> (fs w)) w)
        | _ => (Raise, w)
        end
    end.

(** [any(d.iterdir())] *)
Definition any_iterdir (d : string) : M bool :=
  fun w =>
    match fs w !! d with
    | None => (Raise, w)
    | Some m => (Ret (negb (bool_decide (m = ∅))), w)
    end.

(** [d.rmdir()] *)
Definition rmdir (d : string) : M unit :=
  fun w =>
    match fs w !! d with
    | Some m => if decide (m = ∅) then (Ret tt, set_fs (delete d (fs w)) w) else (Raise, w)
    | None => (Raise, w)
    end.

(** *** Registry and broadcasts *)

Definition HWND_BROADCAST : Z := 0xFFFF.
Definition WM_SETTINGCHANGE : Z := 0x001A.
Definition SMTO_ABORTIFHUNG : Z := 0x0002.

(** [winreg.OpenKey(HKEY_LOCAL_MACHINE, ...Environment, 0, KEY_ALL_ACCESS)] *)
Definition OpenKey (env : Env) : M unit :=
  fun w => if reg_access env then (Ret tt, w) else (Raise, w).

(** [winreg.QueryValueEx(key, "PATH")] *)
Definition QueryValueEx : M string :=
  fun w => match reg_path w with Some v => (Ret v, w) | None => (Raise, w) end.

(** [winreg.SetValueEx(key, "PATH", 0, REG_EXPAND_SZ, v)] *)
Definition SetValueEx (v : string) : M unit :=
  fun w => (Ret tt, set_reg_path (Some v) w).

(** [SendMessageW] returns once every addressed window has processed the
    message: with a window that does not answer, it never returns. *)
Definition send_message (env : Env) (hwnd msg : Z) (lparam : string) : M unit :=
  fun w =>
    if user32_ok env then
      let w1 := emit (SendMessageW hwnd msg lparam) w in
      match windows env with
      | Responsive => (Ret tt, w1)
      | Unresponsive => (Hang, w1)
      end
    else (Raise, w).

(** [SendMessageTimeoutW] gives up on a window after [timeout_ms]; its
    result reports that, and the caller below does not read it. *)
Definition send_message_timeout (env : Env) (hwnd msg : Z) (lparam : string)
    (flags timeout_ms : Z) : M Z :=
  fun w =>
    if user32_ok env then
      let w1 := emit (SendMessageTimeoutW hwnd msg lparam flags timeout_ms) w in
      match windows env with
      | Responsive => (Ret 1, w1)
      | Unresponsive => (Ret 0, w1)
      end
    else (Raise, w).

(** ** installer.py *)

Definition dquote : string := String (ascii_of_nat 34) EmptyString.
Definition nl : string := String (ascii_of_nat 10) EmptyString.

Definition cmd_launcher : string :=
  "@echo off" +:+ nl +:+ dquote +:+ "%~dp0ruping.exe" +:+ dquote +:+ " %*" +:+ nl.

Definition EMBEDDED_FILES : gmap string string :=
  list_to_map [
    ("ruping.exe", "");
    ("uninstaller.py", "");
    ("ruping.cmd", cmd_launcher);
    ("rustping.cmd", cmd_launcher);
    ("rping.cmd", cmd_launcher)
  ].

Definition app_name : string := "RuPing".
Definition exe_name : string := "ruping.exe".
Definition aliases : list string := ["ruping"; "rustping"; "rping"].
Definition install_info_file : string := "install_info.json".

Definition program_files (env : Env) : string :=
  default "C:\Program Files" (PROGRAMFILES env).

Definition default_install_path (env : Env) : string :=
  path_join (Path (program_files env)) app_name.

Definition is_admin (env : Env) : bool :=
  match admin_probe env with
  | Some b => b
  | None => false
  end.

(** [who] is the word the message names the program with. *)
Definition require_admin (env : Env) (who : string) : M unit :=
  if negb (is_admin env) then
    print "ERROR: Administrator privileges required.";;
    print ("Please run this " +:+ who +:+ " as administrator.");;
    (fun w => (Exit 1, w))
  else ret tt.

(** The candidates of the local search, in the order they are tried. *)
Definition local_paths (env : Env) (filename : string) : list path :=
  let is_exe := PyStr.endswith filename ".exe" in
  [ (cwd env, filename);
    if is_exe then (cwd_release env, filename) else (cwd env, filename);
    (script_dir env, filename);
    if is_exe then (script_release env, filename) else (cwd env, filename) ].

(** The loop over the local candidates; [return False] when it runs out. *)
Fixpoint copy_first_local (env : Env) (candidates : list path) (target : path) : M bool :=
  match candidates with
  | [] => ret false
  | local_path :: rest =>
      found <- path_exists local_path;;
      if found then
        try_except
          (mkdir_p env target.1;;
           copy2 local_path target;;
           ret true)
          (copy_first_local env rest target)
      else copy_first_local env rest target
  end.

(** [extract_embedded_file(filename, target_path)]; the [debug] tracing is
    left out. *)
Definition extract_embedded_file (env : Env) (filename : string) (target : path) : M bool :=
  let fallback : M bool :=
    match EMBEDDED_FILES !! filename with
    | None => copy_first_local env (local_paths env filename) target
    | Some content =>
        if decide (content = "") then ret false
        else
          try_except
            (mkdir_p env target.1;;
             (if PyStr.endswith filename ".exe" then
                (* the file is opened for writing before the content is decoded *)
                match b64decode env content with
                | Some bytes => write_file target bytes
                | None => write_file target "";; raise
                end
              else write_file target content);;
             ret true)
            (ret false)
    end in
  match meipass env with
  | Some bundle_dir =>
      let bundled_path := (Path bundle_dir, filename) in
      bundled <- path_exists bundled_path;;
      if bundled then
        try_except
          (mkdir_p env target.1;;
           copy2 bundled_path target;;
           copied <- path_exists target;;
           ret copied)
          (ret false)
      else fallback
  | None => fallback
  end.

Definition add_to_path (env : Env) (path_to_add : string) : M bool :=
  try_except
    (OpenKey env;;
     current_path <- QueryValueEx;;
     if negb (PyStr.contains path_to_add current_path) then
       let new_path := current_path +:+ ";" +:+ path_to_add in
       SetValueEx new_path;;
       send_message env HWND_BROADCAST WM_SETTINGCHANGE "Environment";;
       print ("Added " +:+ path_to_add +:+ " to system PATH");;
       ret true
     else
       print (path_to_add +:+ " is already in system PATH");;
       ret true)
    (print "Failed to add to PATH: ";;
     ret false).

Definition start_menu_of (programdata : string) : string :=
  path_join (path_join (path_join (path_join (Path programdata) "Microsoft") "Windows")
                       "Start Menu") "Programs".

(** [os.environ['PROGRAMDATA']] raises when the variable is not set. *)
Definition start_menu (env : Env) : M string :=
  match PROGRAMDATA env with
  | Some p => ret (start_menu_of p)
  | None => raise
  end.

Definition url_content (install_dir : string) : string :=
  "[InternetShortcut]" +:+ nl +:+
  "URL=file:///" +:+ path_join install_dir exe_name +:+ nl +:+
  "IconFile=" +:+ path_join install_dir exe_name +:+ nl +:+
  "IconIndex=0" +:+ nl.

Definition create_start_menu_shortcut (env : Env) (install_dir : string) : M bool :=
  try_except
    (menu <- start_menu env;;
     write_file (menu, "RuPing.url") (url_content install_dir);;
     print "Created start menu shortcut";;
     ret true)
    (print "Warning: Failed to create start menu shortcut: ";;
     ret false).

Definition installed_files : list string :=
  [exe_name; "ruping-uninstaller.exe"; install_info_file]
  ++ map (fun alias => alias +:+ ".cmd") aliases.

Definition install_info (install_dir : string) : json :=
  JObj [ ("install_path", JStr install_dir);
         ("version", JStr "0.1.0");
         ("aliases", JArr (map JStr aliases));
         ("installed_files", JArr (map JStr installed_files)) ].

Definition save_install_info (env : Env) (install_dir : string) : M unit :=
  let info_path := (install_dir, install_info_file) in
  try_except
    (write_file info_path (json_dump env (install_info install_dir));;
     print ("Saved installation info to " +:+ path_join install_dir install_info_file))
    (print "Warning: Failed to save installation info: ").

Definition files_to_extract (install_dir : string) : list (string * path) :=
  [ (exe_name, (install_dir, exe_name));
    ("ruping-uninstaller.exe", (install_dir, "ruping-uninstaller.exe")) ]
  ++ map (fun alias => (alias +:+ ".cmd", (install_dir, alias +:+ ".cmd"))) aliases.

(** The extraction loop of [install]; false when it left through
    [return False]. *)
Fixpoint extract_all (env : Env) (silent : bool) (files : list (string * path)) : M bool :=
  match files with
  | [] => ret true
  | (filename, target_path) :: rest =>
      ok <- extract_embedded_file env filename target_path;;
      if negb ok then
        print ("ERROR: Failed to extract " +:+ filename);;
        ret false
      else
        when (negb silent) (print ("Extracted: " +:+ filename));;
        extract_all env silent rest
  end.

(** [if install_path:] is false for [None] and for the empty string. *)
Definition install_dir_of (env : Env) (install_path : option string) : string :=
  match install_path with
  | Some p => if decide (p = "") then default_install_path env else Path p
  | None => default_install_path env
  end.

Fixpoint print_all (lines : list string) : M unit :=
  match lines with
  | [] => ret tt
  | l :: rest => print l;; print_all rest
  end.

Definition install (env : Env) (install_path : option string) (no_path silent : bool) : M bool :=
  require_admin env "installer";;
  when (negb silent)
    (print_all ["RuPing Standalone Installer"; "==========================="; ""]);;
  let install_dir := install_dir_of env install_path in
  when (negb silent) (print ("Installing to: " +:+ install_dir));;
  created <- try_except
               (mkdir_p env install_dir;; ret true)
               (print "ERROR: Failed to create installation directory: ";; ret false);;
  if negb created then ret false
  else
    extracted <- extract_all env silent (files_to_extract install_dir);;
    if negb extracted then ret false
    else
      (if negb no_path then add_to_path env install_dir;; ret tt else ret tt);;
      create_start_menu_shortcut env install_dir;;
      save_install_info env install_dir;;
      when (negb silent)
        (print_all
           (["";
             "Installation completed successfully!";
             "";
             "Available commands:"]
            ++ map (fun alias => "  " +:+ alias +:+ " 8.8.8.8              # Basic ping") aliases
            ++ ["";
                "Important notes:";
                "- RuPing requires administrator privileges to run";
                "- Please restart your command prompt to use the new commands";
                "- Use 'ruping --help' to see all available options";
                "";
                "To uninstall:";
                "  " +:+ dquote +:+ path_join install_dir "ruping-uninstaller.exe" +:+ dquote]));;
      ret true.

(** ** uninstaller.py *)

Definition remove_from_path (env : Env) (path_to_remove : string) : M bool :=
  try_except
    (OpenKey env;;
     current_path <- QueryValueEx;;
     let paths := PyStr.split ";" current_path in
     let new_paths := filter (fun p => p <> path_to_remove) paths in
     let new_path := PyStr.join ";" new_paths in
     SetValueEx new_path;;
     try_except
       (send_message_timeout env HWND_BROADCAST WM_SETTINGCHANGE "Environment"
                             SMTO_ABORTIFHUNG 3000;;
        ret tt)
       (print "Warning: Failed to broadcast environment change (non-fatal): ");;
     print ("Removed " +:+ path_to_remove +:+ " from system PATH");;
     ret true)
    (print "Failed to remove from PATH: ";;
     ret false).

Definition shortcuts : list string := ["RuPing.lnk"; "RuPing.url"].

(** The loop of [remove_start_menu_shortcut], with its flag. *)
Fixpoint remove_shortcuts (menu : string) (names : list string) (removed : bool) : M bool :=
  match names with
  | [] => ret removed
  | shortcut :: rest =>
      found <- path_exists (menu, shortcut);;
      if found then
        unlink (menu, shortcut);;
        print ("Removed start menu shortcut: " +:+ shortcut);;
        remove_shortcuts menu rest true
      else remove_shortcuts menu rest removed
  end.

Definition remove_start_menu_shortcut (env : Env) : M bool :=
  try_except
    (menu <- start_menu env;;
     remove_shortcuts menu shortcuts false)
    (print "Warning: Failed to remove start menu shortcut: ";;
     ret false).

(** A loaded ledger: the members of the JSON object. *)
Definition ledger : Type := list (string * json).

Definition current_dir (env : Env) : string :=
  match meipass env, argv0_dir env with
  | Some _, Some exe_dir => exe_dir
  | _, _ => script_dir env
  end.

Definition possible_paths (env : Env) : list string :=
  [ path_join (Path (program_files env)) app_name;
    path_join (Path (default "" (LOCALAPPDATA env))) app_name;
    path_join (Path "C:") app_name ].

(** The loop over the common installation locations. *)
Fixpoint probe_paths (candidates : list string) : M (option string) :=
  match candidates with
  | [] => ret None
  | p :: rest =>
      there <- dir_exists p;;
      has_exe <- path_exists (p, "ruping.exe");;
      if there && has_exe then ret (Some p) else probe_paths rest
  end.

(** What [find_installation] does once the ledger gave nothing. *)
Definition find_by_heuristics (env : Env) : M (option string * option ledger) :=
  here <- path_exists (current_dir env, "ruping.exe");;
  if here then ret (Some (current_dir env), None)
  else
    found <- probe_paths (possible_paths env);;
    ret (found, None).

(** The [try] block of [find_installation]: [json.load], then
    [Path(info['install_path'])]. *)
Definition read_ledger (env : Env) (info_file : path) : M (string * ledger) :=
  text <- read_file info_file;;
  match json_load env text with
  | Some (JObj info) =>
      match dict_get "install_path" info with
      | Some (JStr p) => ret (Path p, info)
      | _ => raise
      end
  | _ => raise
  end.

Definition find_installation (env : Env) : M (option string * option ledger) :=
  let info_file := (current_dir env, install_info_file) in
  present <- path_exists info_file;;
  from_ledger <-
    (if present then
       try_except
         (r <- read_ledger env info_file;; ret (Some r))
         (print "Warning: Failed to read installation info: ";; ret None)
     else ret None);;
  match from_ledger with
  | Some (install_dir, info) => ret (Some install_dir, Some info)
  | None => find_by_heuristics env
  end.

(** Lines 140-157 of [uninstall]: the directory and the ledger the run goes
    on with, or [None] where the function returns [False]. [exists()] is
    taken as the test for a directory; it is also true of a path that names
    a regular file. *)
Definition locate_installation (env : Env) (install_path : option string) (silent : bool)
  : M (option (string * option ledger)) :=
  found <-
    match install_path with
    | Some p => if decide (p = "") then find_installation env else ret (Some (Path p), None)
    | None => find_installation env
    end;;
  let '(install_dir, install_info) := found in
  usable <-
    match install_dir with
    | None => ret false
    | Some d => dir_exists d
    end;;
  if negb usable then
    print "ERROR: RuPing installation not found.";;
    if negb silent then
      typed <- input "Please enter the installation directory (or press Enter to cancel): ";;
      let custom_path := PyStr.strip typed in
      valid <- (if decide (custom_path = "") then ret false
                else dir_exists (Path custom_path));;
      if valid then ret (Some (Path custom_path, install_info))
      else
        print "Uninstall cancelled.";;
        ret None
    else ret None
  else
    match install_dir with
    | Some d => ret (Some (d, install_info))
    | None => ret None
    end.

Definition is_yes (answer : string) : bool :=
  bool_decide (PyStr.lower (PyStr.strip answer) ∈ ["y"; "yes"]).

(** Lines 159-164: true when the run goes on. *)
Definition confirm_uninstall (install_dir : string) (silent : bool) : M bool :=
  if negb silent then
    print ("Found RuPing installation at: " +:+ install_dir);;
    confirm <- input "Are you sure you want to uninstall RuPing? (y/N): ";;
    if negb (is_yes confirm) then
      print "Uninstall cancelled.";;
      ret false
    else ret true
  else ret true.

Definition default_files : list string :=
  [ "ruping.exe"; "ruping.cmd"; "rustping.cmd"; "rping.cmd";
    "uninstaller.py"; "install_info.json" ].

(** Lines 173-185. A dictionary is true when it is not empty. *)
Definition files_to_remove (install_info : option ledger) : json :=
  match install_info with
  | Some (m :: info) =>
      match dict_get "installed_files" (m :: info) with
      | Some listed => listed
      | None => JArr (map JStr default_files)
      end
  | _ => JArr (map JStr default_files)
  end.

(** What a [for] loop over a loaded JSON value runs through; [None] when the
    value cannot be iterated. *)
Definition py_iter (v : json) : option (list json) :=
  match v with
  | JArr items => Some items
  | JStr s => Some (map (fun c => JStr (String c EmptyString)) (list_ascii_of_string s))
  | JObj members => Some (map (fun kv => JStr kv.1) members)
  | _ => None
  end.

(** The deletion loop, with its counter; joining a path with something that
    is not a string raises. [install_dir / filename] is taken to be the entry
    [filename] of the directory, which it is for a plain name: one that is
    not absolute and has no separator and no dot component. *)
Fixpoint remove_files (silent : bool) (install_dir : string) (files : list json)
    (removed_files : nat) : M nat :=
  match files with
  | [] => ret removed_files
  | JStr filename :: rest =>
      let file_path := (install_dir, filename) in
      found <- path_exists file_path;;
      if found then
        deleted <- try_except
                     (unlink file_path;;
                      when (negb silent) (print ("Removed: " +:+ filename));;
                      ret true)
                     (print ("Warning: Failed to remove " +:+ filename +:+ ": ");;
                      ret false);;
        remove_files silent install_dir rest
                     (if deleted then S removed_files else removed_files)
      else remove_files silent install_dir rest removed_files
  | _ :: _ => raise
  end.

(** Lines 199-209. *)
Definition remove_dir_if_empty (silent : bool) (install_dir : string) : M unit :=
  try_except
    (occupied <- any_iterdir install_dir;;
     if negb occupied then
       rmdir install_dir;;
       when (negb silent) (print ("Removed installation directory: " +:+ install_dir))
     else
       when (negb silent)
         (print ("Installation directory not empty, keeping: " +:+ install_dir)))
    (print "Warning: Failed to remove installation directory: ").

(** Lines 133-157: the gate, the banner and the search for the installation. *)
Definition uninstall_prelude (env : Env) (install_path : option string) (silent : bool)
  : M (option (string * option ledger)) :=
  require_admin env "uninstaller";;
  when (negb silent)
    (print_all ["RuPing Standalone Uninstaller"; "============================="; ""]);;
  locate_installation env install_path silent.

(** Lines 166-217: what a confirmed run does to the machine. *)
Definition uninstall_apply (env : Env) (silent : bool) (install_dir : string)
    (install_info : option ledger) : M bool :=
  remove_from_path env install_dir;;
  remove_start_menu_shortcut env;;
  files <- match py_iter (files_to_remove install_info) with
           | Some l => ret l
           | None => raise
           end;;
  removed_files <- remove_files silent install_dir files 0%nat;;
  remove_dir_if_empty silent install_dir;;
  when (negb silent)
    (print_all [""; "RuPing has been successfully uninstalled!";
                "Removed " +:+ pretty removed_files +:+ " files.";
                "Please restart your command prompt to update PATH changes."]);;
  ret true.

Definition uninstall (env : Env) (install_path : option string) (silent : bool) : M bool :=
  located <- uninstall_prelude env install_path silent;;
  match located with
  | None => ret false
  | Some (install_dir, install_info) =>
      confirmed <- confirm_uninstall install_dir silent;;
      if negb confirmed then ret false
      else uninstall_apply env silent install_dir install_info
  end.

(** ** What a run leaves as it is *)

(** [m] never leaves a world that is not [R]-related to the one it started
    in, however it ends. *)
Definition preserves (R : World -> World -> Prop) {A} (m : M A) : Prop :=
  forall w, R w (m w).2.

(** A relation between the worlds before and after that the console cannot
    break. *)
Class Frame (R : World -> World -> Prop) : Prop := {
  frame_refl : forall w, R w w;
  frame_trans : forall w1 w2 w3, R w1 w2 -> R w2 w3 -> R w1 w3;
  frame_emit : forall w e, R w (emit e w);
  frame_stdin : forall w l, R w (set_stdin l w)
}.

(** ... and that does not look at the registry. *)
Class FilesOnly (R : World -> World -> Prop) : Prop :=
  files_only : forall w v, R w (set_reg_path v w).

(** Neither the files nor the PATH value changed. *)
Definition untouched (w w' : World) : Prop :=
  fs w' = fs w /\ reg_path w' = reg_path w.

(** Every entry that was there is still there. *)
Definition grows (w w' : World) : Prop :=
  forall p, is_Some (entry w p) -> is_Some (entry w' p).

(** Entries went away at most: none appeared, none changed. *)
Definition shrinks (w w' : World) : Prop :=
  forall p, entry w' p = None \/ entry w' p = entry w p.

(** Entries under a name outside [names] are as they were. *)
Definition keeps (names : list string) (w w' : World) : Prop :=
  forall p, p.2 ∉ names -> entry w' p = entry w p.

(** ** How a run can end *)

(** [m] returns or raises: it neither exits nor blocks. *)
Definition ends {A} (m : M A) : Prop :=
  forall w, (exists a w', m w = (Ret a, w')) \/ (exists w', m w = (Raise, w')).

(** [m] returns, whatever the world. *)
Definition returns {A} (m : M A) : Prop :=
  forall w, exists a w', m w = (Ret a, w').

(** [m] only looks at the directories: it returns, leaves the world as it
    is, and returns the same in every world with the same directories. *)
Definition reads {A} (m : M A) : Prop :=
  forall w, exists a, forall w', fs w' = fs w -> m w' = (Ret a, w').

(** The entry is not a regular file. *)
Definition not_file (w : World) (p : path) : Prop :=
  forall data, entry w p <> Some (File data).

(** ** Segments of a PATH value *)

(** [sep] does not occur in [s]. *)
Fixpoint free_of (sep : ascii) (s : string) : Prop :=
  match s with
  | EmptyString => True
  | String c t => c <> sep /\ free_of sep t
  end.

(** What [remove_from_path] makes of a PATH value. *)
Definition without (dir s : string) : string :=
  PyStr.join ";" (filter (fun p => p <> dir) (PyStr.split ";" s)).

(** ** Preconditions of the extraction *)

(** The target can be written: its directory is there or can be made, and
    the target is not a directory. *)
Definition writable (env : Env) (w : World) (target : path) : Prop :=
  (is_Some (fs w !! target.1) \/ creatable env target.1 = true)
  /\ entry w target <> Some SubDir.

(** The bundle, if the run has one, has nothing under [name]. *)
Definition bundle_miss (env : Env) (w : World) (name : string) : Prop :=
  match meipass env with
  | Some bundle_dir => entry w (Path bundle_dir, name) = None
  | None => True
  end.

(** A ledger that lists no files, or no ledger. *)
Definition unlisted (info : option ledger) : Prop :=
  match info with
  | Some members => dict_get "installed_files" members = None
  | None => True
  end.

(** ** A machine to run the programs on *)

Module Scenario.

(** A compact rendering without escapes, in the place of [json.dump]. *)
Fixpoint render (v : json) : string :=
  match v with
  | JNull => "null"
  | JBool b => if b then "true" else "false"
  | JNum n => pretty n
  | JStr s => dquote +:+ s +:+ dquote
  | JArr items => "[" +:+ PyStr.join ", " (map render items) +:+ "]"
  | JObj members =>
      "{" +:+ PyStr.join ", "
                (map (fun kv => match kv with
                                | (k, v') => dquote +:+ k +:+ dquote +:+ ": " +:+ render v'
                                end) members)
          +:+ "}"
  end.

Definition root : string := "C:\RuPing".
Definition bundle : string := "C:\Temp\_MEI1".
Definition menu : string := start_menu_of "C:\ProgramData".

(** Reads back the one document the scenario writes. *)
Definition parse (text : string) : option json :=
  if decide (text = render (install_info root)) then Some (install_info root) else None.

(** The installer, run elevated from its bundle. *)
Definition setup : Env := {|
  admin_probe := Some true;
  meipass := Some bundle;
  argv0_dir := Some "C:\Downloads";
  cwd := "C:\Downloads";
  cwd_release := "C:\target\release";
  script_dir := bundle;
  script_release := "C:\Temp\target\release";
  PROGRAMFILES := Some "C:\Program Files";
  LOCALAPPDATA := Some "C:\Users\me\AppData\Local";
  PROGRAMDATA := Some "C:\ProgramData";
  creatable := fun _ => true;
  reg_access := true;
  user32_ok := true;
  windows := Responsive;
  json_dump := render;
  json_load := parse;
  b64decode := fun _ => None
|}.

(** The deployed uninstaller, run elevated from the installation. *)
Definition remover : Env := {|
  admin_probe := Some true;
  meipass := Some "C:\Temp\_MEI2";
  argv0_dir := Some root;
  cwd := "C:\Users\me";
  cwd_release := "C:\target\release";
  script_dir := "C:\Temp\_MEI2";
  script_release := "C:\Temp\target\release";
  PROGRAMFILES := Some "C:\Program Files";
  LOCALAPPDATA := Some "C:\Users\me\AppData\Local";
  PROGRAMDATA := Some "C:\ProgramData";
  creatable := fun _ => true;
  reg_access := true;
  user32_ok := true;
  windows := Responsive;
  json_dump := render;
  json_load := parse;
  b64decode := fun _ => None
|}.

(** The same programs without elevation, and with a window that hangs. *)
Definition unprivileged (env : Env) : Env := {|
  admin_probe := None;
  meipass := meipass env; argv0_dir := argv0_dir env; cwd := cwd env;
  cwd_release := cwd_release env; script_dir := script_dir env;
  script_release := script_release env; PROGRAMFILES := PROGRAMFILES env;
  LOCALAPPDATA := LOCALAPPDATA env; PROGRAMDATA := PROGRAMDATA env;
  creatable := creatable env; reg_access := reg_access env; user32_ok := user32_ok env;
  windows := windows env; json_dump := json_dump env; json_load := json_load env;
  b64decode := b64decode env
|}.

Definition with_hung_window (env : Env) : Env := {|
  admin_probe := admin_probe env;
  meipass := meipass env; argv0_dir := argv0_dir env; cwd := cwd env;
  cwd_release := cwd_release env; script_dir := script_dir env;
  script_release := script_release env; PROGRAMFILES := PROGRAMFILES env;
  LOCALAPPDATA := LOCALAPPDATA env; PROGRAMDATA := PROGRAMDATA env;
  creatable := creatable env; reg_access := reg_access env; user32_ok := user32_ok env;
  windows := Unresponsive; json_dump := json_dump env; json_load := json_load env;
  b64decode := b64decode env
|}.

(** Before the installation: the bundle holds the two executables, and a
    launcher script of the user's lies next to the installer. *)
Definition fresh : World := {|
  fs := {[ bundle := {[ "ruping.exe" := File "MZ ruping";
                        "ruping-uninstaller.exe" := File "MZ uninstaller" ]};
           "C:\Downloads" := {[ "ruping.cmd" := File "@echo local" ]};
           menu := ∅ ]};
  reg_path := Some "C:\Windows;C:\Windows\System32";
  stdin := [];
  trace := []
|}.

(** After a silent installation to [root]. *)
Definition installed : World := (install setup (Some root) false true fresh).2.

(** The user types [line]. *)
Definition typing (line : string) (w : World) : World := set_stdin [line] w.

(** The installation with its ledger overwritten by something that is not
    JSON. *)
Definition damaged : World :=
  set_fs (<[root := <[install_info_file := File "{ not json"]> (default ∅ (fs installed !! root))]>
            (fs installed)) installed.

(** A machine whose PATH has an entry that only contains the directory. *)
Definition lookalike : World := {|
  fs := ∅;
  reg_path := Some "C:\Windows;C:\RuPing-old\bin";
  stdin := [];
  trace := []
|}.

End Scenario.

(** ** The entry points *)

(** [sys.exit(code)] *)
Definition exit {A} (code : Z) : M A := fun w => (Exit code, w).

(** [main()] of installer.py for parsed arguments. [sys.exit] passes the
    [except Exception] clause; an interrupt from the keyboard is not
    modelled. *)
Definition installer_main (env : Env) (install_path : option string) (no_path silent : bool)
  : M unit :=
  try_except
    (success <- install env install_path no_path silent;;
     when (negb silent) (input (nl +:+ "Press Enter to exit...");; ret tt);;
     exit (if success then 0 else 1))
    (print "ERROR: Installation failed: ";;
     exit 1).

(** [main()] of uninstaller.py for parsed arguments. *)
Definition uninstaller_main (env : Env) (install_path : option string) (silent : bool)
  : M unit :=
  try_except
    (success <- uninstall env install_path silent;;
     when (negb silent) (input (nl +:+ "Press Enter to exit...");; ret tt);;
     exit (if success then 0 else 1))
    (print "ERROR: Uninstall failed: ";;
     exit 1).

(** ** More relations between the worlds before and after *)

(** A relation that does not look at the files. *)
Class IgnoresFiles (R : World -> World -> Prop) : Prop :=
  ignores_files : forall w f, R w (set_fs f w).

(** The PATH value is as it was. *)
Definition same_path (w w' : World) : Prop := reg_path w' = reg_path w.

(** The PATH value is as it was, and so is every entry outside [d]. *)
Definition confined (d : string) (w w' : World) : Prop :=
  reg_path w' = reg_path w /\ forall p, p.1 <> d -> entry w' p = entry w p.

(** Nothing is left for [add_to_path] to write: the key does not open, or
    has no PATH value, or the value contains [d]. *)
Definition settled (env : Env) (d : string) (v : option string) : Prop :=
  reg_access env = false \/ v = None \/ exists s, v = Some s /\ PyStr.contains d s = true.

(** From a settled PATH value on, the value stays. *)
Definition stays_settled (env : Env) (d : string) (w w' : World) : Prop :=
  settled env d (reg_path w) -> reg_path w' = reg_path w.

(** [m] never blocks. *)
Definition halts {A} (m : M A) : Prop := forall w, (m w).1 <> Hang.

(** The user is not asked: the input is as it was and no prompt was shown. *)
Definition unasked (w w' : World) : Prop :=
  stdin w' = stdin w
  /\ forall text, Prompt text ∈ trace w' -> Prompt text ∈ trace w.

(** The names a deletion list can reach: its strings. *)
Fixpoint listed_names (files : list json) : list string :=
  match files with
  | [] => []
  | JStr n :: rest => n :: listed_names rest
  | _ :: rest => listed_names rest
  end.

(** The names the deletion loop of a run with this ledger can reach. *)
Definition deletable (info : option ledger) : list string :=
  match py_iter (files_to_remove info) with
  | Some files => listed_names files
  | None => []
  end.

(** Only the entries [allowed] names may have changed. *)
Definition spares (allowed : path -> Prop) (w w' : World) : Prop :=
  forall p, ~ allowed p -> entry w' p = entry w p.

(** What uninstall may delete, once it has found [d] with the ledger [info]:
    the names its list gives, in [d], and the two shortcuts, in the start
    menu. *)
Definition uninstall_reach (env : Env) (d : string) (info : option ledger) (p : path) : Prop :=
  (p.1 = d /\ p.2 ∈ deletable info)
  \/ (exists programdata, PROGRAMDATA env = Some programdata
        /\ p.1 = start_menu_of programdata /\ p.2 ∈ shortcuts).

(** Every directory other than [d] is as it was, with all its entries. *)
Definition dir_confined (d : string) (w w' : World) : Prop :=
  forall d', d' <> d -> fs w' !! d' = fs w !! d'.

(** The directory [d] holds nothing but regular files under names of
    [names]. *)
Definition tidy (d : string) (names : list string) (w : World) : Prop :=
  forall n x, entry w (d, n) = Some x -> n ∈ names /\ exists data, x = File data.

(** A tidy directory stays tidy. *)
Definition keeps_tidy (d : string) (names : list string) (w w' : World) : Prop :=
  tidy d names w -> tidy d names w'.

(** The entries of a directory once the names are deleted, in their order. *)
Definition delete_all (names : list string) (entries : gmap string node) : gmap string node :=
  foldl (fun m n => delete n m) entries names.

(** ** What the directories stand for *)

(** The same regular file, or none, is at [p] in both worlds. Creating a
    directory, its missing ancestors included, and removing an empty one
    change no regular file. *)
Definition same_file (w w' : World) (p : path) : Prop :=
  forall data, entry w' p = Some (File data) <-> entry w p = Some (File data).

(** The paths there is something at: the directories and their entries. *)
Definition occupied (w : World) : list string :=
  map_to_list (fs w) ≫=
    (fun dm => dm.1 :: map (fun nx => path_join dm.1 nx.1) (map_to_list dm.2)).




(** A name that [install_dir / name] keeps inside [install_dir]: not empty,
    not a dot name, and without a separator or a drive colon. *)
Definition plain_name (n : string) : bool :=
  negb (bool_decide (n ∈ [""; "."; ".."]))
  && forallb (fun c => negb (bool_decide (c ∈ ["\"; "/"; ":"]%char)))
             (list_ascii_of_string n).

(** The program is not an executable image inside [d]: it runs as a script,
    or from another directory. Windows refuses to delete the image of a
    running program. *)
Definition runs_elsewhere (env : Env) (d : string) : Prop :=
  meipass env = None \/ current_dir env <> d.

(** ** build_exe.py *)

Module Build.

(** Where the relative paths of the build script lead from the directory it
    runs in. *)
Record Layout : Type := mkLayout {
  here : string;             (* Path(".") *)
  parent_release : string;   (* Path("../target/release") *)
  own_release : string       (* Path("target/release") *)
}.

Definition possible_paths (l : Layout) : list path :=
  [ (parent_release l, "ruping.exe");
    (own_release l, "ruping.exe");
    (here l, "ruping.exe") ].

(** The search loop of [prepare_installer_resources]: the first candidate
    that exists. *)
Fixpoint first_existing (candidates : list path) : M (option path) :=
  match candidates with
  | [] => ret None
  | p :: rest =>
      found <- path_exists p;;
      if found then ret (Some p) else first_existing rest
  end.

(** A [Path] is true whatever it names, so [if not ruping_exe_path] is the
    test for [None]. *)
Definition prepare_installer_resources (l : Layout) : M bool :=
  ruping_exe_path <- first_existing (possible_paths l);;
  match ruping_exe_path with
  | None =>
      print "ERROR: ruping.exe not found. Please build it first with 'cargo build --release'";;
      ret false
  | Some p =>
      print ("Found ruping.exe at: " +:+ path_join p.1 p.2);;
      copy2 p (here l, "ruping.exe");;
      print "Copied ruping.exe to installer directory";;
      ret true
  end.

End Build.

(** ** More machines *)

Module Cases.

(** The same program when user32 cannot be called. *)
Definition no_user32 (env : Env) : Env := {|
  admin_probe := admin_probe env;
  meipass := meipass env; argv0_dir := argv0_dir env; cwd := cwd env;
  cwd_release := cwd_release env; script_dir := script_dir env;
  script_release := script_release env; PROGRAMFILES := PROGRAMFILES env;
  LOCALAPPDATA := LOCALAPPDATA env; PROGRAMDATA := PROGRAMDATA env;
  creatable := creatable env; reg_access := reg_access env; user32_ok := false;
  windows := windows env; json_dump := json_dump env; json_load := json_load env;
  b64decode := b64decode env
|}.

(** The same program run as a script, outside a bundle. *)
Definition as_script (env : Env) : Env := {|
  admin_probe := admin_probe env;
  meipass := None; argv0_dir := argv0_dir env; cwd := cwd env;
  cwd_release := cwd_release env; script_dir := script_dir env;
  script_release := script_release env; PROGRAMFILES := PROGRAMFILES env;
  LOCALAPPDATA := LOCALAPPDATA env; PROGRAMDATA := PROGRAMDATA env;
  creatable := creatable env; reg_access := reg_access env; user32_ok := user32_ok env;
  windows := windows env; json_dump := json_dump env; json_load := json_load env;
  b64decode := b64decode env
|}.

(** The script's directory with a built ruping.exe next to the script. *)
Definition checkout : World := {|
  fs := {[ "C:\Downloads" := {[ "ruping.exe" := File "MZ ruping";
                                "ruping-uninstaller.exe" := File "MZ uninstaller" ]};
           Scenario.menu := ∅ ]};
  reg_path := Some "C:\Windows;C:\Windows\System32";
  stdin := [];
  trace := []
|}.



(** The installation, its ledger giving a number for the file list. *)
Definition odd_ledger : json :=
  JObj [ ("install_path", JStr Scenario.root); ("installed_files", JNum 6) ].

Definition parse_odd (text : string) : option json :=
  if decide (text = Scenario.render odd_ledger) then Some odd_ledger else Scenario.parse text.

Definition odd : World :=
  set_fs (<[Scenario.root :=
              <[install_info_file := File (Scenario.render odd_ledger)]>
                (default ∅ (fs Scenario.installed !! Scenario.root))]>
            (fs Scenario.installed)) Scenario.installed.

(** The uninstaller with another JSON reader. *)
Definition reading (load : string -> option json) (env : Env) : Env := {|
  admin_probe := admin_probe env;
  meipass := meipass env; argv0_dir := argv0_dir env; cwd := cwd env;
  cwd_release := cwd_release env; script_dir := script_dir env;
  script_release := script_release env; PROGRAMFILES := PROGRAMFILES env;
  LOCALAPPDATA := LOCALAPPDATA env; PROGRAMDATA := PROGRAMDATA env;
  creatable := creatable env; reg_access := reg_access env; user32_ok := user32_ok env;
  windows := windows env; json_dump := json_dump env; json_load := load;
  b64decode := b64decode env
|}.

(** The installer's directory in a checkout, and the two places a release
    build can be in. *)
Definition tree : Build.Layout := {|
  Build.here := "C:\src\installer";
  Build.parent_release := "C:\src\target\release";
  Build.own_release := "C:\src\installer\target\release"
|}.

(** A checkout with a release build, and a stale copy next to the script. *)
Definition built : World := {|
  fs := {[ "C:\src\installer" := {[ "ruping.exe" := File "MZ stale" ]};
           "C:\src\target\release" := {[ "ruping.exe" := File "MZ ruping" ]} ]};
  reg_path := None;
  stdin := [];
  trace := []
|}.

(** The same checkout before the release build. *)
Definition unbuilt : World := {|
  fs := {[ "C:\src\installer" := {[ "ruping.exe" := File "MZ stale" ]} ]};
  reg_path := None;
  stdin := [];
  trace := []
|}.

(** A bundle that was built without the uninstaller. *)
Definition half_bundle : World := {|
  fs := {[ Scenario.bundle := {[ "ruping.exe" := File "MZ ruping" ]};
           Scenario.menu := ∅ ]};
  reg_path := Some "C:\Windows;C:\Windows\System32";
  stdin := [];
  trace := []
|}.

(** uninstaller.py run as a script that lies in the installation
    directory. *)
Definition source_remover : Env := {|
  admin_probe := Some true;
  meipass := None;
  argv0_dir := Some Scenario.root;
  cwd := "C:\Users\me";
  cwd_release := "C:\target\release";
  script_dir := Scenario.root;
  script_release := "C:\target\release";
  PROGRAMFILES := Some "C:\Program Files";
  LOCALAPPDATA := Some "C:\Users\me\AppData\Local";
  PROGRAMDATA := Some "C:\ProgramData";
  creatable := fun _ => true;
  reg_access := true;
  user32_ok := true;
  windows := Responsive;
  json_dump := Scenario.render;
  json_load := Scenario.parse;
  b64decode := fun _ => None
|}.

(** The installation with uninstaller.py copied into it. *)
Definition with_script : World :=
  set_fs (<[Scenario.root :=
              <["uninstaller.py" := File "#!/usr/bin/env python3"]>
                (default ∅ (fs Scenario.installed !! Scenario.root))]>
            (fs Scenario.installed)) Scenario.installed.

End Cases.

(** * Properties *)

(** Membership in a list of literals, and its negation, by evaluation. *)
Ltac by_listing :=
  match goal with |- ?P => apply (bool_decide_unpack P) end; vm_compute; exact I.

(** ** The string operations on examples *)

Example split_ex : PyStr.split ";" "C:\A;;C:\B;" = ["C:\A"; ""; "C:\B"; ""].
Proof. reflexivity. Qed.
Example join_ex : PyStr.join ";" ["C:\A"; ""; "C:\B"; ""] = "C:\A;;C:\B;".
Proof. reflexivity. Qed.
Example contains_ex : PyStr.contains "RuPing" "C:\RuPing2" = true /\ PyStr.contains "" "" = true
  /\ PyStr.contains "ab" "a;b" = false.
Proof. repeat split. Qed.
Example endswith_ex : PyStr.endswith "ruping.exe" ".exe" = true /\ PyStr.endswith "exe" ".exe" = false.
Proof. split; reflexivity. Qed.
Example strip_ex : PyStr.lower (PyStr.strip "  YeS
 ") = "yes".
Proof. reflexivity. Qed.

(** ** The monad *)

Lemma bind_ret_eq {A B} (m : M A) (k : A -> M B) w a w' :
  m w = (Ret a, w') -> bind m k w = k a w'.
Proof. unfold bind. by intros ->. Qed.

Lemma bind_ret_l {A B} (a : A) (k : A -> M B) : bind (ret a) k = k a.
Proof. reflexivity. Qed.

Lemma bind_exit_eq {A B} (m : M A) (k : A -> M B) w c w' :
  m w = (Exit c, w') -> bind m k w = (Exit c, w').
Proof. unfold bind. by intros ->. Qed.

Lemma bind_inv_ret {A B} (m : M A) (k : A -> M B) w b w2 :
  bind m k w = (Ret b, w2) -> exists a w1, m w = (Ret a, w1) /\ k a w1 = (Ret b, w2).
Proof.
  unfold bind. destruct (m w) as [[a| |c|] w1]; intros H; try discriminate.
  by exists a, w1.
Qed.

Section Preservation.
Context {R : World -> World -> Prop} `{!Frame R}.

Lemma preserves_ret {A} (a : A) : preserves R (ret a).
Proof. intros w. apply frame_refl. Qed.

Lemma preserves_raise {A} : preserves R (@raise A).
Proof. intros w. apply frame_refl. Qed.

Lemma preserves_bind {A B} (m : M A) (k : A -> M B) :
  preserves R m -> (forall a, preserves R (k a)) -> preserves R (bind m k).
Proof.
  intros Hm Hk w. unfold bind. specialize (Hm w).
  destruct (m w) as [[a| |c|] w1]; simpl in *; try done.
  eapply frame_trans; [exact Hm|apply Hk].
Qed.

Lemma preserves_try_except {A} (m h : M A) :
  preserves R m -> preserves R h -> preserves R (try_except m h).
Proof.
  intros Hm Hh w. unfold try_except. specialize (Hm w).
  destruct (m w) as [[a| |c|] w1]; simpl in *; try done.
  eapply frame_trans; [exact Hm|apply Hh].
Qed.

Lemma preserves_when (b : bool) (m : M unit) : preserves R m -> preserves R (when b m).
Proof. intros Hm. destruct b; [done|apply preserves_ret]. Qed.

Lemma preserves_print line : preserves R (print line).
Proof. intros w. apply frame_emit. Qed.

Lemma preserves_print_all lines : preserves R (print_all lines).
Proof.
  induction lines; simpl; [apply preserves_ret|].
  apply preserves_bind; [apply preserves_print|done].
Qed.

Lemma preserves_input prompt : preserves R (input prompt).
Proof.
  intros w. unfold input. simpl. destruct (stdin w); simpl.
  - apply frame_emit.
  - eapply frame_trans; [apply frame_emit|apply frame_stdin].
Qed.

Lemma preserves_dir_exists d : preserves R (dir_exists d).
Proof. intros w. apply frame_refl. Qed.

Lemma preserves_path_exists p : preserves R (path_exists p).
Proof. intros w. apply frame_refl. Qed.

Lemma preserves_read_file p : preserves R (read_file p).
Proof. intros w. unfold read_file. repeat case_match; apply frame_refl. Qed.

Lemma preserves_any_iterdir d : preserves R (any_iterdir d).
Proof. intros w. unfold any_iterdir. case_match; apply frame_refl. Qed.

Lemma preserves_OpenKey env : preserves R (OpenKey env).
Proof. intros w. unfold OpenKey. case_match; apply frame_refl. Qed.

Lemma preserves_QueryValueEx : preserves R QueryValueEx.
Proof. intros w. unfold QueryValueEx. case_match; apply frame_refl. Qed.

Lemma preserves_send_message env h m l : preserves R (send_message env h m l).
Proof.
  intros w. unfold send_message. repeat case_match; simpl;
    solve [apply frame_refl | apply frame_emit].
Qed.

Lemma preserves_send_message_timeout env h m l f t :
  preserves R (send_message_timeout env h m l f t).
Proof.
  intros w. unfold send_message_timeout. repeat case_match; simpl;
    solve [apply frame_refl | apply frame_emit].
Qed.

Lemma preserves_exit : preserves R (fun w => (@Exit unit 1, w)).
Proof. intros w. apply frame_refl. Qed.

Lemma preserves_require_admin env who : preserves R (require_admin env who).
Proof.
  unfold require_admin. case_match; [|apply preserves_ret].
  repeat (apply preserves_bind; [apply preserves_print|intros _]).
  apply preserves_exit.
Qed.

Lemma preserves_start_menu env : preserves R (start_menu env).
Proof. unfold start_menu. case_match; [apply preserves_ret|apply preserves_raise]. Qed.

Lemma preserves_SetValueEx `{!FilesOnly R} v : preserves R (SetValueEx v).
Proof. intros w. apply files_only. Qed.

End Preservation.

Create HintDb frame discriminated.
#[export] Hint Resolve preserves_ret preserves_raise preserves_when preserves_print
  preserves_print_all preserves_input preserves_dir_exists preserves_path_exists
  preserves_read_file preserves_any_iterdir preserves_OpenKey preserves_QueryValueEx
  preserves_send_message preserves_send_message_timeout preserves_require_admin
  preserves_start_menu preserves_SetValueEx preserves_exit : frame.

(** Splits a program along its binds, handlers and branches, and closes the
    leaves with the lemmas of the [frame] database. *)
Ltac frame_step :=
  match goal with
  | |- preserves _ (bind _ _) => apply preserves_bind; [|intros ?]
  | |- preserves _ (try_except _ _) => apply preserves_try_except
  | |- preserves _ (when _ _) => apply preserves_when
  | |- preserves _ (if ?b then _ else _) => destruct b
  | |- preserves _ (match ?x with _ => _ end) => destruct x
  | |- preserves _ _ => solve [eauto with frame typeclass_instances]
  end.
Ltac frame := repeat frame_step.

(** ** Entries after an update of one directory *)

Lemma entry_emit w e p : entry (emit e w) p = entry w p.
Proof. done. Qed.

Lemma entry_set_dir w d (m : gmap string node) p :
  entry (set_fs (<[d := m]> (fs w)) w) p = if decide (p.1 = d) then m !! p.2 else entry w p.
Proof.
  unfold entry. simpl. case_decide as Hd.
  - subst d. by rewrite lookup_insert_eq.
  - by rewrite lookup_insert_ne.
Qed.

Lemma entry_delete_dir w d p :
  entry (set_fs (delete d (fs w)) w) p = if decide (p.1 = d) then None else entry w p.
Proof.
  unfold entry. simpl. case_decide as Hd.
  - subst d. by rewrite lookup_delete_eq.
  - by rewrite lookup_delete_ne.
Qed.

Lemma entry_in_dir w p (m : gmap string node) :
  fs w !! p.1 = Some m -> entry w p = m !! p.2.
Proof. unfold entry. by intros ->. Qed.

Lemma entry_no_dir w p : fs w !! p.1 = None -> entry w p = None.
Proof. unfold entry. by intros ->. Qed.

Lemma entry_dir_exists w p : is_Some (entry w p) -> is_Some (fs w !! p.1).
Proof. unfold entry. destruct (fs w !! p.1); [eauto|]. by intros [? ?]. Qed.

(** ** The four relations are frames *)

#[export] Instance untouched_frame : Frame untouched.
Proof.
  split; unfold untouched.
  - done.
  - intros w1 w2 w3 [-> ->] [-> ->]. done.
  - done.
  - done.
Qed.

#[export] Instance grows_frame : Frame grows.
Proof.
  split; unfold grows.
  - done.
  - intros w1 w2 w3 H12 H23 p Hp. auto.
  - done.
  - done.
Qed.

#[export] Instance grows_files : FilesOnly grows.
Proof. intros w v p. done. Qed.

#[export] Instance shrinks_frame : Frame shrinks.
Proof.
  split; unfold shrinks.
  - auto.
  - intros w1 w2 w3 H12 H23 p.
    destruct (H23 p) as [->| ->]; [by left|apply H12].
  - auto.
  - auto.
Qed.

#[export] Instance shrinks_files : FilesOnly shrinks.
Proof. intros w v p. by right. Qed.

#[export] Instance keeps_frame names : Frame (keeps names).
Proof.
  split; unfold keeps.
  - done.
  - intros w1 w2 w3 H12 H23 p Hp. rewrite H23 by done. auto.
  - done.
  - done.
Qed.

#[export] Instance keeps_files names : FilesOnly (keeps names).
Proof. intros w v p. done. Qed.

(** ** What the file operations preserve *)

Lemma mkdir_p_grows env d : preserves grows (mkdir_p env d).
Proof.
  intros w p. unfold mkdir_p. destruct (fs w !! d) eqn:Hd; simpl; [done|].
  destruct (creatable env d); simpl; [|done].
  rewrite entry_set_dir. case_decide as Hp; [|done].
  subst d. rewrite entry_no_dir by done. by intros [? ?].
Qed.

Lemma write_file_grows p data : preserves grows (write_file p data).
Proof.
  intros w q. unfold write_file. destruct (fs w !! p.1) as [m|] eqn:Hd; simpl; [|done].
  destruct (m !! p.2) as [[|]|] eqn:Hn; simpl; try done.
  all: rewrite entry_set_dir; case_decide as Hq; [|done].
  all: rewrite (entry_in_dir w q m) by congruence.
  all: destruct (decide (p.2 = q.2)) as [->|Hne];
    [rewrite lookup_insert_eq; eauto | by rewrite lookup_insert_ne].
Qed.

Lemma copy2_grows src dst : preserves grows (copy2 src dst).
Proof.
  intros w q. unfold copy2. destruct (entry w src) as [[data|]|]; simpl; try done.
  case_decide; simpl; [done|].
  destruct (fs w !! dst.1) as [m|] eqn:Hd; simpl; [|done].
  destruct (m !! dst.2) as [[|]|] eqn:Hn; simpl; try done.
  all: rewrite entry_set_dir; case_decide as Hq; [|done].
  all: rewrite (entry_in_dir w q m) by congruence.
  all: destruct (decide (dst.2 = q.2)) as [->|Hne];
    [rewrite lookup_insert_eq; eauto | by rewrite lookup_insert_ne].
Qed.

Lemma unlink_shrinks p : preserves shrinks (unlink p).
Proof.
  intros w q. unfold unlink. destruct (fs w !! p.1) as [m|] eqn:Hd; simpl; [|by right].
  destruct (m !! p.2) as [[|]|] eqn:Hn; simpl; try by right.
  rewrite entry_set_dir. case_decide as Hq; [|by right].
  rewrite (entry_in_dir w q m) by congruence.
  destruct (decide (p.2 = q.2)) as [->|Hne].
  - left. apply lookup_delete_eq.
  - right. by apply lookup_delete_ne.
Qed.

Lemma rmdir_shrinks d : preserves shrinks (rmdir d).
Proof.
  intros w q. unfold rmdir. destruct (fs w !! d) as [m|] eqn:Hd; simpl; [|by right].
  case_decide; simpl; [|by right].
  rewrite entry_delete_dir. case_decide; [by left|by right].
Qed.

Lemma unlink_keeps names p : p.2 ∈ names -> preserves (keeps names) (unlink p).
Proof.
  intros Hin w q Hq. unfold unlink. destruct (fs w !! p.1) as [m|] eqn:Hd; simpl; [|done].
  destruct (m !! p.2) as [[|]|] eqn:Hn; simpl; try done.
  rewrite entry_set_dir. case_decide as Hd'; [|done].
  rewrite (entry_in_dir w q m) by congruence.
  apply lookup_delete_ne. intros Heq. rewrite Heq in Hin. done.
Qed.

Lemma rmdir_keeps names d : preserves (keeps names) (rmdir d).
Proof.
  intros w q Hq. unfold rmdir. destruct (fs w !! d) as [m|] eqn:Hd; simpl; [|done].
  case_decide as Hm; simpl; [|done].
  rewrite entry_delete_dir. case_decide as Hd'; [|done].
  subst. rewrite (entry_in_dir w q ∅) by done. by rewrite lookup_empty.
Qed.

#[export] Hint Resolve mkdir_p_grows write_file_grows copy2_grows unlink_shrinks
  rmdir_shrinks rmdir_keeps : frame.

(** ** Runs that end, runs that return *)

Lemma returns_ends {A} (m : M A) : returns m -> ends m.
Proof. intros H w. left. apply H. Qed.

Lemma ends_raise {A} : ends (@raise A).
Proof. intros w. right. by exists w. Qed.

Lemma returns_ret {A} (a : A) : returns (ret a).
Proof. intros w. by exists a, w. Qed.

Lemma ends_bind {A B} (m : M A) (k : A -> M B) :
  ends m -> (forall a, ends (k a)) -> ends (bind m k).
Proof.
  intros Hm Hk w. unfold bind.
  destruct (Hm w) as [(a & w' & ->)|(w' & ->)]; [apply Hk|].
  right. by exists w'.
Qed.

Lemma returns_bind {A B} (m : M A) (k : A -> M B) :
  returns m -> (forall a, returns (k a)) -> returns (bind m k).
Proof.
  intros Hm Hk w. unfold bind.
  destruct (Hm w) as (a & w' & ->). apply Hk.
Qed.

Lemma returns_try_except {A} (m h : M A) : ends m -> returns h -> returns (try_except m h).
Proof.
  intros Hm Hh w. unfold try_except.
  destruct (Hm w) as [(a & w' & ->)|(w' & ->)]; [by exists a, w'|apply Hh].
Qed.

Lemma ends_try_except {A} (m h : M A) : ends m -> ends h -> ends (try_except m h).
Proof.
  intros Hm Hh w. unfold try_except.
  destruct (Hm w) as [(a & w' & ->)|(w' & ->)]; [left; by exists a, w'|apply Hh].
Qed.

Lemma returns_when b (m : M unit) : returns m -> returns (when b m).
Proof. destruct b; [done|intros _; apply returns_ret]. Qed.

Lemma returns_print line : returns (print line).
Proof. intros w. by eexists _, _. Qed.

Lemma returns_print_all lines : returns (print_all lines).
Proof.
  induction lines; simpl; [apply returns_ret|].
  apply returns_bind; [apply returns_print|done].
Qed.

Lemma returns_dir_exists d : returns (dir_exists d).
Proof. intros w. by eexists _, _. Qed.

Lemma returns_path_exists p : returns (path_exists p).
Proof. intros w. by eexists _, _. Qed.

Lemma returns_SetValueEx v : returns (SetValueEx v).
Proof. intros w. by eexists _, _. Qed.

Lemma ends_OpenKey env : ends (OpenKey env).
Proof. intros w. unfold OpenKey. case_match; first [left; by eexists _, _|right; by eexists]. Qed.

Lemma ends_QueryValueEx : ends QueryValueEx.
Proof. intros w. unfold QueryValueEx. case_match; first [left; by eexists _, _|right; by eexists]. Qed.

Lemma ends_send_message_timeout env h m l f t : ends (send_message_timeout env h m l f t).
Proof.
  intros w. unfold send_message_timeout.
  repeat case_match; first [left; by eexists _, _|right; by eexists].
Qed.

Lemma ends_unlink p : ends (unlink p).
Proof. intros w. unfold unlink. repeat case_match; first [left; by eexists _, _|right; by eexists]. Qed.

Lemma ends_rmdir d : ends (rmdir d).
Proof. intros w. unfold rmdir. repeat case_match; first [left; by eexists _, _|right; by eexists]. Qed.

Lemma ends_any_iterdir d : ends (any_iterdir d).
Proof. intros w. unfold any_iterdir. repeat case_match; first [left; by eexists _, _|right; by eexists]. Qed.

Lemma ends_start_menu env : ends (start_menu env).
Proof. intros w. unfold start_menu. case_match; first [left; by eexists _, _|right; by eexists]. Qed.

Create HintDb ending discriminated.
#[export] Hint Resolve returns_ret ends_raise returns_print returns_print_all returns_dir_exists
  returns_path_exists returns_SetValueEx ends_OpenKey ends_QueryValueEx
  ends_send_message_timeout ends_unlink ends_rmdir ends_any_iterdir ends_start_menu
  returns_when returns_ends : ending.

Ltac ending_step :=
  first
    [ apply returns_bind; [|intros ?]
    | apply ends_bind; [|intros ?]
    | apply returns_try_except
    | apply ends_try_except
    | apply returns_when
    | match goal with
      | |- returns (if ?b then _ else _) => destruct b
      | |- ends (if ?b then _ else _) => destruct b
      end
    | solve [eauto with ending] ].
Ltac ending := repeat ending_step.

Lemma remove_from_path_returns env d : returns (remove_from_path env d).
Proof. unfold remove_from_path. ending. Qed.

Lemma remove_shortcuts_ends menu names removed : ends (remove_shortcuts menu names removed).
Proof. revert removed. induction names; intros removed; simpl; ending. Qed.

Lemma remove_start_menu_shortcut_returns env : returns (remove_start_menu_shortcut env).
Proof.
  unfold remove_start_menu_shortcut.
  apply returns_try_except; [|ending].
  apply ends_bind; [ending|intros menu]. apply remove_shortcuts_ends.
Qed.

Lemma remove_files_returns silent d names k : returns (remove_files silent d (map JStr names) k).
Proof. revert k. induction names; intros k; simpl; ending. Qed.

Lemma remove_dir_if_empty_returns silent d : returns (remove_dir_if_empty silent d).
Proof. unfold remove_dir_if_empty. ending. Qed.

(** ** Reading runs *)

Lemma reads_ret {A} (a : A) : reads (ret a).
Proof. intros w. by exists a. Qed.

Lemma reads_bind {A B} (m : M A) (k : A -> M B) :
  reads m -> (forall a, reads (k a)) -> reads (bind m k).
Proof.
  intros Hm Hk w. destruct (Hm w) as [a Ha]. destruct (Hk a w) as [b Hb].
  exists b. intros w' Hw'. unfold bind. rewrite (Ha w' Hw'). by apply Hb.
Qed.

Lemma reads_dir_exists d : reads (dir_exists d).
Proof. intros w. eexists. intros w' Hw'. unfold dir_exists. by rewrite Hw'. Qed.

Lemma reads_path_exists p : reads (path_exists p).
Proof. intros w. eexists. intros w' Hw'. unfold path_exists, entry. by rewrite Hw'. Qed.

Lemma reads_probe_paths candidates : reads (probe_paths candidates).
Proof.
  induction candidates as [|c rest IH]; simpl; [apply reads_ret|].
  apply reads_bind; [apply reads_dir_exists|intros there].
  apply reads_bind; [apply reads_path_exists|intros has_exe].
  destruct (there && has_exe); [apply reads_ret|done].
Qed.

Lemma reads_find_by_heuristics env : reads (find_by_heuristics env).
Proof.
  unfold find_by_heuristics.
  apply reads_bind; [apply reads_path_exists|intros here].
  destruct here; [apply reads_ret|].
  apply reads_bind; [apply reads_probe_paths|intros ?; apply reads_ret].
Qed.

Lemma reads_same_fs {A} (m : M A) w w' : reads m -> fs w' = fs w -> (m w').1 = (m w).1 /\ (m w').2 = w'.
Proof.
  intros Hm Hfs. destruct (Hm w) as [a Ha].
  rewrite (Ha w' Hfs), (Ha w eq_refl). done.
Qed.

(** ** The PATH operations leave the files alone *)

Section Registry.
Context {R : World -> World -> Prop} `{!Frame R} `{!FilesOnly R}.

Lemma add_to_path_preserves env d : preserves R (add_to_path env d).
Proof. unfold add_to_path. frame. Qed.

Lemma remove_from_path_preserves env d : preserves R (remove_from_path env d).
Proof. unfold remove_from_path. frame. Qed.

End Registry.

#[export] Hint Resolve add_to_path_preserves remove_from_path_preserves : frame.

(** ** install only adds entries *)

Lemma copy_first_local_grows env candidates target :
  preserves grows (copy_first_local env candidates target).
Proof. induction candidates; simpl; frame. Qed.

Lemma extract_embedded_file_grows env filename target :
  preserves grows (extract_embedded_file env filename target).
Proof.
  pose proof (copy_first_local_grows env (local_paths env filename) target).
  unfold extract_embedded_file. frame.
Qed.

Lemma create_start_menu_shortcut_grows env d : preserves grows (create_start_menu_shortcut env d).
Proof. unfold create_start_menu_shortcut. frame. Qed.

Lemma save_install_info_grows env d : preserves grows (save_install_info env d).
Proof. unfold save_install_info. frame. Qed.

#[export] Hint Resolve extract_embedded_file_grows create_start_menu_shortcut_grows
  save_install_info_grows : frame.

Lemma extract_all_grows env silent files : preserves grows (extract_all env silent files).
Proof. induction files as [|[f t] rest IH]; simpl; frame. Qed.

#[export] Hint Resolve extract_all_grows : frame.


(** ** A successful extraction leaves its target in place *)

Lemma try_except_inv_ret {A} (m h : M A) w a w' :
  try_except m h w = (Ret a, w') ->
  m w = (Ret a, w') \/ exists w1, m w = (Raise, w1) /\ h w1 = (Ret a, w').
Proof.
  unfold try_except. destruct (m w) as [[b| |c|] w1]; intros H; try discriminate.
  - by left.
  - right. by exists w1.
Qed.

Lemma write_file_ret p data w w' :
  write_file p data w = (Ret tt, w') -> entry w' p = Some (File data).
Proof.
  unfold write_file. destruct (fs w !! p.1) as [m|]; [|done].
  destruct (m !! p.2) as [[|]|]; intros H; simplify_eq.
  all: rewrite entry_set_dir; rewrite decide_True by done; apply lookup_insert_eq.
Qed.

Lemma copy2_ret src dst w w' :
  copy2 src dst w = (Ret tt, w') -> is_Some (entry w' dst).
Proof.
  unfold copy2. destruct (entry w src) as [[data|]|]; try done.
  case_decide as Hsame; [done|].
  destruct (fs w !! dst.1) as [m|] eqn:Hd; [|done].
  destruct (m !! dst.2) as [[|]|] eqn:Hn; intros Hrun; simplify_eq.
  1,3: rewrite entry_set_dir; rewrite decide_True by done; rewrite lookup_insert_eq; eauto.
  rewrite (entry_in_dir _ _ m) by done. rewrite Hn. eauto.
Qed.

Lemma copy_first_local_true env candidates target w w' :
  copy_first_local env candidates target w = (Ret true, w') -> is_Some (entry w' target).
Proof.
  revert w. induction candidates as [|c rest IH]; intros w; simpl; [done|].
  intros H. apply bind_inv_ret in H; destruct H as (found & w1 & _ & H).
  destruct found; [|by eapply IH].
  apply try_except_inv_ret in H; destruct H as [H|(w2 & _ & H)]; [|by eapply IH].
  apply bind_inv_ret in H; destruct H as ([] & w2 & _ & H).
  apply bind_inv_ret in H; destruct H as ([] & w3 & Hcopy & H).
  unfold ret in H. simplify_eq. by eapply copy2_ret.
Qed.

Lemma extract_embedded_file_true env filename target w w' :
  extract_embedded_file env filename target w = (Ret true, w') -> is_Some (entry w' target).
Proof.
  assert (Hfallback : forall w,
    match EMBEDDED_FILES !! filename with
    | None => copy_first_local env (local_paths env filename) target
    | Some content =>
        if decide (content = "") then ret false
        else
          try_except
            (mkdir_p env target.1;;
             (if PyStr.endswith filename ".exe" then
                match b64decode env content with
                | Some bytes => write_file target bytes
                | None => write_file target "";; raise
                end
              else write_file target content);;
             ret true)
            (ret false)
    end w = (Ret true, w') -> is_Some (entry w' target)).
  { clear w. intros w. destruct (EMBEDDED_FILES !! filename) as [content|].
    - case_decide as Hempty; [done|]. intros H.
      apply try_except_inv_ret in H; destruct H as [H|(w1 & _ & H)]; [|done].
      apply bind_inv_ret in H; destruct H as ([] & w1 & _ & H).
      apply bind_inv_ret in H; destruct H as ([] & w2 & Hw & H).
      unfold ret in H. simplify_eq.
      destruct (PyStr.endswith filename ".exe").
      + destruct (b64decode env content).
        * apply write_file_ret in Hw. rewrite Hw. eauto.
        * apply bind_inv_ret in Hw; destruct Hw as (? & ? & _ & ?). done.
      + apply write_file_ret in Hw. rewrite Hw. eauto.
    - apply copy_first_local_true. }
  unfold extract_embedded_file. destruct (meipass env) as [bundle_dir|]; [|apply Hfallback].
  intros H. apply bind_inv_ret in H; destruct H as (bundled & w1 & Hb & H).
  unfold path_exists in Hb. simplify_eq.
  case_bool_decide as Hbundled; [|by eapply Hfallback].
  apply try_except_inv_ret in H; destruct H as [H|(w2 & _ & H)]; [|done].
  apply bind_inv_ret in H; destruct H as ([] & w2 & _ & H).
  apply bind_inv_ret in H; destruct H as ([] & w3 & _ & H).
  apply bind_inv_ret in H; destruct H as (copied & w4 & Hc & H).
  unfold path_exists in Hc. unfold ret in H. simplify_eq.
  by case_bool_decide as Hcopied.
Qed.

Lemma extract_all_true env silent files w w' :
  extract_all env silent files w = (Ret true, w') ->
  forall f t, (f, t) ∈ files -> is_Some (entry w' t).
Proof.
  revert w. induction files as [|[f0 t0] rest IH]; intros w H f t Hin.
  - by apply elem_of_nil in Hin.
  - simpl in H. apply bind_inv_ret in H; destruct H as (ok & w1 & Hx & H).
    destruct ok; simpl in H.
    + apply bind_inv_ret in H; destruct H as ([] & w2 & Hp & H).
      apply elem_of_cons in Hin as [Heq|Hin]; [|by eapply IH].
      injection Heq as -> ->. apply extract_embedded_file_true in Hx.
      pose proof (extract_all_grows env silent rest w2 t0) as Hg. rewrite H in Hg.
      apply Hg.
      pose proof (preserves_when (R:=grows) (negb silent) (print ("Extracted: " +:+ f0))
                    (preserves_print _) w1 t0) as Hg'.
      rewrite Hp in Hg'. by apply Hg'.
    + apply bind_inv_ret in H; destruct H as ([] & w2 & _ & H). done.
Qed.

(** After a successful install every required artifact is an entry of the
    installation directory. *)
Lemma install_true_deployed env install_path no_path silent w w' :
  install env install_path no_path silent w = (Ret true, w') ->
  forall f t, (f, t) ∈ files_to_extract (install_dir_of env install_path) ->
  is_Some (entry w' t).
Proof.
  unfold install. intros H f t Hin.
  apply bind_inv_ret in H; destruct H as ([] & w1 & _ & H).
  apply bind_inv_ret in H; destruct H as ([] & w2 & _ & H).
  apply bind_inv_ret in H; destruct H as ([] & w3 & _ & H).
  apply bind_inv_ret in H; destruct H as (created & w4 & _ & H).
  destruct created; [|done]. cbn [negb] in H.
  apply bind_inv_ret in H; destruct H as (extracted & w5 & Hx & H).
  destruct extracted; [|done]. cbn [negb] in H.
  pose proof (extract_all_true _ _ _ _ _ Hx f t Hin) as Hthere.
  revert H. generalize (install_dir_of env install_path). intros d H.
  match type of H with
  | ?m w5 = _ => assert (Hg : preserves grows m) by frame
  end.
  specialize (Hg w5 t). rewrite H in Hg. by apply Hg.
Qed.

(** ** Everything before the confirmation only looks *)

Section Looking.
Context {R : World -> World -> Prop} `{!Frame R}.

Lemma probe_paths_preserves candidates : preserves R (probe_paths candidates).
Proof. induction candidates; simpl; frame. Qed.

Lemma find_by_heuristics_preserves env : preserves R (find_by_heuristics env).
Proof.
  pose proof (probe_paths_preserves (possible_paths env)).
  unfold find_by_heuristics. frame.
Qed.

Lemma read_ledger_preserves env info_file : preserves R (read_ledger env info_file).
Proof. unfold read_ledger. frame. Qed.

Lemma find_installation_preserves env : preserves R (find_installation env).
Proof.
  pose proof (find_by_heuristics_preserves env).
  pose proof (read_ledger_preserves env (current_dir env, install_info_file)).
  unfold find_installation. frame.
Qed.

Lemma locate_installation_preserves env install_path silent :
  preserves R (locate_installation env install_path silent).
Proof.
  pose proof (find_installation_preserves env).
  unfold locate_installation. frame.
Qed.

Lemma uninstall_prelude_preserves env install_path silent :
  preserves R (uninstall_prelude env install_path silent).
Proof.
  pose proof (locate_installation_preserves env install_path silent).
  unfold uninstall_prelude. frame.
Qed.

Lemma confirm_uninstall_preserves d silent : preserves R (confirm_uninstall d silent).
Proof. unfold confirm_uninstall. frame. Qed.

End Looking.

#[export] Hint Resolve uninstall_prelude_preserves confirm_uninstall_preserves : frame.

(** ** The deletions of uninstall *)

Lemma remove_shortcuts_shrinks menu names removed :
  preserves shrinks (remove_shortcuts menu names removed).
Proof. revert removed. induction names; intros removed; simpl; frame. Qed.

Lemma remove_shortcuts_keeps kept menu names removed :
  names ⊆ kept -> preserves (keeps kept) (remove_shortcuts menu names removed).
Proof.
  revert removed. induction names as [|n rest IH]; intros removed Hsub; simpl; frame.
  all: first [ apply unlink_keeps; simpl; apply Hsub; by left
             | apply IH; intros x Hx; apply Hsub; by right ].
Qed.

Lemma remove_start_menu_shortcut_shrinks env : preserves shrinks (remove_start_menu_shortcut env).
Proof.
  pose proof (remove_shortcuts_shrinks).
  unfold remove_start_menu_shortcut.
  apply preserves_try_except; [|frame].
  apply preserves_bind; [frame|intros menu]. done.
Qed.

Lemma remove_start_menu_shortcut_keeps kept env :
  shortcuts ⊆ kept -> preserves (keeps kept) (remove_start_menu_shortcut env).
Proof.
  intros Hsub. unfold remove_start_menu_shortcut.
  apply preserves_try_except; [|frame].
  apply preserves_bind; [frame|intros menu]. by apply remove_shortcuts_keeps.
Qed.

Lemma remove_files_shrinks silent d files k : preserves shrinks (remove_files silent d files k).
Proof.
  revert k. induction files as [|f rest IH]; intros k; simpl; [frame|].
  destruct f; frame.
Qed.

Lemma remove_files_keeps kept silent d names k :
  names ⊆ kept -> preserves (keeps kept) (remove_files silent d (map JStr names) k).
Proof.
  revert k. induction names as [|n rest IH]; intros k Hsub; simpl; frame.
  all: first [ apply unlink_keeps; simpl; apply Hsub; by left
             | apply IH; intros x Hx; apply Hsub; by right ].
Qed.

Lemma remove_dir_if_empty_shrinks silent d : preserves shrinks (remove_dir_if_empty silent d).
Proof. unfold remove_dir_if_empty. frame. Qed.

Lemma remove_dir_if_empty_keeps kept silent d : preserves (keeps kept) (remove_dir_if_empty silent d).
Proof. unfold remove_dir_if_empty. frame. Qed.

#[export] Hint Resolve remove_start_menu_shortcut_shrinks remove_files_shrinks
  remove_dir_if_empty_shrinks remove_dir_if_empty_keeps : frame.

Lemma uninstall_apply_shrinks env silent d info : preserves shrinks (uninstall_apply env silent d info).
Proof. unfold uninstall_apply. frame. Qed.

Lemma files_to_remove_unlisted info :
  unlisted info -> files_to_remove info = JArr (map JStr default_files).
Proof.
  destruct info as [[|m members]|]; simpl; try done.
  unfold files_to_remove. by intros ->.
Qed.

Lemma uninstall_apply_keeps env silent d info :
  unlisted info ->
  preserves (keeps (default_files ++ shortcuts)) (uninstall_apply env silent d info).
Proof.
  intros Hun. unfold uninstall_apply. rewrite (files_to_remove_unlisted info Hun).
  cbn [py_iter].
  apply preserves_bind; [frame|intros _].
  apply preserves_bind; [apply remove_start_menu_shortcut_keeps; intros x Hx; apply elem_of_app; by right|intros _].
  rewrite bind_ret_l.
  apply preserves_bind; [|intros n; frame].
  apply remove_files_keeps. intros x Hx. apply elem_of_app. by left.
Qed.

(** ** The privilege gate *)

Lemma require_admin_denied env who w :
  is_admin env = false ->
  require_admin env who w
  = (Exit 1, emit (Print ("Please run this " +:+ who +:+ " as administrator."))
               (emit (Print "ERROR: Administrator privileges required.") w)).
Proof. intros H. unfold require_admin. rewrite H. reflexivity. Qed.

Lemma require_admin_granted env who w :
  is_admin env = true -> require_admin env who w = (Ret tt, w).
Proof. intros H. unfold require_admin. rewrite H. reflexivity. Qed.

(** C6: without elevated rights (the probe answers no, or raises), install
    and uninstall both end at once with exit code 1 after the two lines of
    the message, and neither the files nor the PATH value have changed. *)
Theorem not_elevated_changes_nothing env install_path no_path silent w :
  admin_probe env = None \/ admin_probe env = Some false ->
  (exists w', install env install_path no_path silent w = (Exit 1, w')
     /\ untouched w w'
     /\ trace w' = trace w ++ [Print "ERROR: Administrator privileges required.";
                               Print "Please run this installer as administrator."])
  /\ (exists w', uninstall env install_path silent w = (Exit 1, w')
     /\ untouched w w'
     /\ trace w' = trace w ++ [Print "ERROR: Administrator privileges required.";
                               Print "Please run this uninstaller as administrator."]).
Proof.
  intros Hprobe.
  assert (Hno : is_admin env = false).
  { unfold is_admin. by destruct Hprobe as [-> | ->]. }
  split.
  - eexists. split; [|split].
    + unfold install. apply bind_exit_eq. by apply require_admin_denied.
    + done.
    + simpl. by rewrite <- app_assoc.
  - eexists. split; [|split].
    + unfold uninstall, uninstall_prelude.
      apply bind_exit_eq. apply bind_exit_eq. by apply require_admin_denied.
    + done.
    + simpl. by rewrite <- app_assoc.
Qed.

Lemma not_elevated_witness :
  exists w', install (Scenario.unprivileged Scenario.setup) (Some Scenario.root) false true
               Scenario.fresh = (Exit 1, w')
             /\ untouched Scenario.fresh w'.
Proof.
  destruct (not_elevated_changes_nothing (Scenario.unprivileged Scenario.setup)
              (Some Scenario.root) false true Scenario.fresh) as [(w' & H1 & H2 & _) _].
  - left. reflexivity.
  - by exists w'.
Defined.

(** ** Declining the confirmation *)

Lemma input_line prompt w line rest :
  stdin w = line :: rest ->
  input prompt w = (Ret line, set_stdin rest (emit (Prompt prompt) w)).
Proof. intros H. unfold input. cbn [stdin emit]. by rewrite H. Qed.

Lemma confirm_uninstall_declined d w answer rest :
  stdin w = answer :: rest ->
  is_yes answer = false ->
  confirm_uninstall d false w
  = (Ret false,
     emit (Print "Uninstall cancelled.")
       (set_stdin rest
          (emit (Prompt "Are you sure you want to uninstall RuPing? (y/N): ")
             (emit (Print ("Found RuPing installation at: " +:+ d)) w)))).
Proof.
  intros Hin Hno. unfold confirm_uninstall. cbn [negb].
  rewrite (bind_ret_eq _ _ w tt (emit (Print ("Found RuPing installation at: " +:+ d)) w))
    by reflexivity.
  cbv beta.
  rewrite (bind_ret_eq _ _ _ _ _ (input_line _ (emit (Print ("Found RuPing installation at: " +:+ d)) w) answer rest Hin)).
  cbv beta. rewrite Hno. reflexivity.
Qed.

Lemma confirm_uninstall_accepted d w answer rest :
  stdin w = answer :: rest ->
  is_yes answer = true ->
  confirm_uninstall d false w
  = (Ret true,
     set_stdin rest
       (emit (Prompt "Are you sure you want to uninstall RuPing? (y/N): ")
          (emit (Print ("Found RuPing installation at: " +:+ d)) w))).
Proof.
  intros Hin Hyes. unfold confirm_uninstall. cbn [negb].
  rewrite (bind_ret_eq _ _ w tt (emit (Print ("Found RuPing installation at: " +:+ d)) w))
    by reflexivity.
  cbv beta.
  rewrite (bind_ret_eq _ _ _ _ _ (input_line _ (emit (Print ("Found RuPing installation at: " +:+ d)) w) answer rest Hin)).
  cbv beta. rewrite Hyes. reflexivity.
Qed.

(** C8: in a run that is not silent and has found an installation, the
    question is asked while nothing has changed yet, and an answer other than
    y or yes makes uninstall return false with the files (the shortcuts among
    them) and the PATH value as they were. *)
Theorem declined_uninstall_changes_nothing env install_path w d info w1 answer rest :
  uninstall_prelude env install_path false w = (Ret (Some (d, info)), w1) ->
  stdin w1 = answer :: rest ->
  is_yes answer = false ->
  untouched w w1
  /\ exists w', uninstall env install_path false w = (Ret false, w')
       /\ untouched w w'
       /\ trace w' = trace w1 ++ [Print ("Found RuPing installation at: " +:+ d);
                                  Prompt "Are you sure you want to uninstall RuPing? (y/N): ";
                                  Print "Uninstall cancelled."].
Proof.
  intros Hpre Hin Hno.
  assert (Hsame : untouched w w1).
  { pose proof (uninstall_prelude_preserves (R:=untouched) env install_path false w) as H.
    by rewrite Hpre in H. }
  split; [done|].
  unfold uninstall. rewrite (bind_ret_eq _ _ _ _ _ Hpre). cbv beta iota.
  rewrite (bind_ret_eq _ _ _ _ _ (confirm_uninstall_declined d w1 answer rest Hin Hno)).
  eexists. split; [reflexivity|]. split.
  - destruct Hsame as [Hfs Hreg]. by split.
  - cbn. by rewrite <- !app_assoc.
Qed.

Lemma declined_witness :
  exists w', uninstall Scenario.remover None false (Scenario.typing " No " Scenario.installed)
             = (Ret false, w')
             /\ untouched (Scenario.typing " No " Scenario.installed) w'.
Proof.
  destruct (declined_uninstall_changes_nothing Scenario.remover None
              (Scenario.typing " No " Scenario.installed) Scenario.root
              (Some [ ("install_path", JStr Scenario.root);
                      ("version", JStr "0.1.0");
                      ("aliases", JArr (map JStr aliases));
                      ("installed_files", JArr (map JStr installed_files)) ])
              (uninstall_prelude Scenario.remover None false
                 (Scenario.typing " No " Scenario.installed)).2
              " No " [])
    as (_ & w' & Hrun & Hsame & _).
  - vm_compute. reflexivity.
  - vm_compute. reflexivity.
  - vm_compute. reflexivity.
  - exists w'. split; [exact Hrun|exact Hsame].
Defined.

(** ** A ledger that cannot be read *)


Lemma find_installation_corrupt env w text :
  entry w (current_dir env, install_info_file) = Some (File text) ->
  json_load env text = None ->
  find_installation env w
  = find_by_heuristics env (emit (Print "Warning: Failed to read installation info: ") w).
Proof.
  intros Hfile Hbad. unfold find_installation.
  unfold bind at 1. unfold path_exists at 1. rewrite Hfile.
  rewrite bool_decide_eq_true_2 by eauto.
  unfold bind at 1. unfold try_except, read_ledger.
  unfold bind at 1. unfold bind at 1. unfold read_file. rewrite Hfile, Hbad.
  reflexivity.
Qed.

Lemma probe_paths_found candidates w d w0 :
  probe_paths candidates w = (Ret (Some d), w0) -> w0 = w /\ is_Some (entry w (d, "ruping.exe")).
Proof.
  induction candidates as [|c rest IH]; simpl; [done|].
  unfold bind at 1. unfold dir_exists at 1.
  unfold bind at 1. unfold path_exists at 1.
  destruct (bool_decide (is_Some (fs w !! c))); simpl; [|done].
  case_bool_decide as Hexe; simpl; [|done].
  unfold ret. intros [= <- <-]. done.
Qed.

Lemma find_by_heuristics_found env w d info w0 :
  find_by_heuristics env w = (Ret (Some d, info), w0) ->
  w0 = w /\ info = None /\ is_Some (entry w (d, "ruping.exe")).
Proof.
  unfold find_by_heuristics. unfold bind at 1. unfold path_exists at 1.
  case_bool_decide as Hhere.
  - unfold ret. intros [= <- <- <-]. done.
  - intros H. apply bind_inv_ret in H; destruct H as (found & w1 & Hprobe & H).
    unfold ret in H. injection H as -> <- <-.
    apply probe_paths_found in Hprobe as [-> Hexe]. done.
Qed.

Lemma find_by_heuristics_same_fs env w w' r w0 :
  find_by_heuristics env w = (Ret r, w0) -> fs w' = fs w ->
  find_by_heuristics env w' = (Ret r, w').
Proof.
  intros Hfind Hfs. destruct (reads_find_by_heuristics env w) as [a Ha].
  rewrite (Ha w eq_refl) in Hfind. injection Hfind as -> _. by apply Ha.
Qed.

(** ** Deleting the files of the default list *)

Lemma shrinks_not_file w w' p : shrinks w w' -> not_file w p -> not_file w' p.
Proof.
  intros Hs Hn data. destruct (Hs p) as [->| ->]; [done|apply Hn].
Qed.

Lemma unlink_outcome p w :
  (exists w', unlink p w = (Ret tt, w') /\ entry w' p = None)
  \/ (unlink p w = (Raise, w) /\ not_file w p).
Proof.
  unfold unlink, not_file. destruct (fs w !! p.1) as [m|] eqn:Hd.
  - destruct (m !! p.2) as [[data|]|] eqn:Hn.
    + left. eexists. split; [done|].
      rewrite entry_set_dir. rewrite decide_True by done. apply lookup_delete_eq.
    + right. split; [done|]. intros data. rewrite (entry_in_dir _ _ m) by done. by rewrite Hn.
    + right. split; [done|]. intros data. rewrite (entry_in_dir _ _ m) by done. by rewrite Hn.
  - right. split; [done|]. intros data. by rewrite entry_no_dir.
Qed.

Lemma remove_files_not_file silent d names k w n :
  n ∈ names -> not_file (remove_files silent d (map JStr names) k w).2 (d, n).
Proof.
  revert k w. induction names as [|n0 rest IH]; intros k w Hin.
  - by apply elem_of_nil in Hin.
  - cbn [map remove_files]. unfold bind at 1. unfold path_exists at 1.
    case_bool_decide as Hfound.
    + unfold bind at 1. unfold try_except.
      destruct (unlink_outcome (d, n0) w) as [(w1 & Hrun & Hgone)|[Hrun Hnot]].
      * unfold bind at 1. rewrite Hrun.
        destruct (returns_when (negb silent) (print ("Removed: " +:+ n0))
                    (returns_print _) w1) as ([] & w2 & Hp).
        pose proof (preserves_when (R:=shrinks) (negb silent) (print ("Removed: " +:+ n0))
                      (preserves_print _) w1) as Hs. rewrite Hp in Hs. simpl in Hs.
        unfold bind at 1. rewrite Hp. unfold ret at 1.
        apply elem_of_cons in Hin as [->|Hin]; [|by apply IH].
        eapply shrinks_not_file; [apply remove_files_shrinks|].
        eapply shrinks_not_file; [exact Hs|]. intros data. by rewrite Hgone.
      * unfold bind at 1. rewrite Hrun. unfold bind at 1. cbn [print]. unfold ret at 1.
        apply elem_of_cons in Hin as [->|Hin]; [|by apply IH].
        eapply shrinks_not_file; [apply remove_files_shrinks|].
        intros data. rewrite entry_emit. apply Hnot.
    + apply elem_of_cons in Hin as [->|Hin]; [|by apply IH].
      eapply shrinks_not_file; [apply remove_files_shrinks|].
      intros data Hfile. apply Hfound. rewrite Hfile. eauto.
Qed.

(** With the default list, the steps after the confirmation all return, and
    no regular file of the list is left. *)
Lemma uninstall_apply_default env silent d info w :
  unlisted info ->
  exists w', uninstall_apply env silent d info w = (Ret true, w')
    /\ forall n, n ∈ default_files -> not_file w' (d, n).
Proof.
  intros Hun. unfold uninstall_apply. rewrite (files_to_remove_unlisted info Hun).
  cbn [py_iter].
  destruct (remove_from_path_returns env d w) as (b1 & w1 & H1).
  rewrite (bind_ret_eq _ _ _ _ _ H1). cbv beta.
  destruct (remove_start_menu_shortcut_returns env w1) as (b2 & w2 & H2).
  rewrite (bind_ret_eq _ _ _ _ _ H2). cbv beta.
  rewrite bind_ret_l.
  destruct (remove_files_returns silent d default_files 0%nat w2) as (r & w3 & H3).
  rewrite (bind_ret_eq _ _ _ _ _ H3). cbv beta.
  destruct (remove_dir_if_empty_returns silent d w3) as ([] & w4 & H4).
  rewrite (bind_ret_eq _ _ _ _ _ H4). cbv beta.
  match goal with
  | |- context [when (negb silent) ?m] =>
      destruct (returns_when (negb silent) m (returns_print_all _) w4) as ([] & w5 & H5);
      pose proof (preserves_when (R:=shrinks) (negb silent) m (preserves_print_all _) w4) as Hs5
  end.
  rewrite H5 in Hs5. simpl in Hs5.
  rewrite (bind_ret_eq _ _ _ _ _ H5). cbv beta.
  exists w5. split; [done|]. intros n Hn.
  eapply shrinks_not_file; [exact Hs5|].
  pose proof (remove_dir_if_empty_shrinks silent d w3) as Hs4. rewrite H4 in Hs4.
  eapply shrinks_not_file; [exact Hs4|].
  pose proof (remove_files_not_file silent d default_files 0%nat w2 n Hn) as Hnf.
  by rewrite H3 in Hnf.
Qed.

(** The banner changes the console only. *)
Lemma banner_run silent lines w :
  exists w', when (negb silent) (print_all lines) w = (Ret tt, w')
    /\ fs w' = fs w /\ reg_path w' = reg_path w /\ stdin w' = stdin w.
Proof.
  destruct silent; cbn [negb when]; [by exists w|].
  revert w. induction lines as [|l rest IH]; intros w; cbn [print_all].
  - by exists w.
  - destruct (IH (emit (Print l) w)) as (w' & Hrun & Hfs & Hreg & Hin).
    exists w'. split; [|done].
    by rewrite (bind_ret_eq _ _ w tt (emit (Print l) w)) by reflexivity.
Qed.

(** The search, when the ledger is unreadable and the heuristics find [d]. *)
Lemma uninstall_prelude_corrupt env silent w text d w0 :
  is_admin env = true ->
  entry w (current_dir env, install_info_file) = Some (File text) ->
  json_load env text = None ->
  find_by_heuristics env w = (Ret (Some d, None), w0) ->
  exists w1, uninstall_prelude env None silent w = (Ret (Some (d, None)), w1)
    /\ fs w1 = fs w /\ stdin w1 = stdin w.
Proof.
  intros Hadmin Hfile Hbad Hfind.
  unfold uninstall_prelude.
  rewrite (bind_ret_eq _ _ _ _ _ (require_admin_granted env _ w Hadmin)). cbv beta.
  destruct (banner_run silent
              ["RuPing Standalone Uninstaller"; "============================="; ""] w)
    as (wb & Hb & Hfs & _ & Hin).
  rewrite (bind_ret_eq _ _ _ _ _ Hb). cbv beta.
  unfold locate_installation.
  assert (Hfile' : entry wb (current_dir env, install_info_file) = Some (File text)).
  { unfold entry. rewrite Hfs. exact Hfile. }
  set (w1 := emit (Print "Warning: Failed to read installation info: ") wb).
  assert (Hfind' : find_by_heuristics env w1 = (Ret (Some d, None), w1)).
  { eapply find_by_heuristics_same_fs; [exact Hfind|]. by rewrite <- Hfs. }
  assert (Hloc : find_installation env wb = (Ret (Some d, None), w1)).
  { by rewrite (find_installation_corrupt env wb text Hfile' Hbad). }
  rewrite (bind_ret_eq _ _ _ _ _ Hloc). cbv beta iota.
  apply find_by_heuristics_found in Hfind as (_ & _ & Hexe).
  assert (Hdir : dir_exists d w1 = (Ret true, w1)).
  { unfold dir_exists. rewrite bool_decide_eq_true_2; [done|].
    apply entry_dir_exists in Hexe. simpl in Hexe. subst w1. cbn [fs emit].
    by rewrite Hfs. }
  rewrite (bind_ret_eq _ _ _ _ _ Hdir). cbv beta. cbn [negb].
  exists w1. by subst w1.
Qed.

(** C7: a ledger that is there but does not parse stops nothing. The search
    goes on with the heuristics, exactly as it does when the file is missing,
    after one warning line; and when they find a directory (one that holds
    the main executable), a run that is silent or confirmed returns true and
    leaves no regular file of the default list, which names the main
    executable and every launcher script. *)
Theorem corrupt_ledger_falls_back env silent w text d w0 :
  is_admin env = true ->
  entry w (current_dir env, install_info_file) = Some (File text) ->
  json_load env text = None ->
  find_by_heuristics env w = (Ret (Some d, None), w0) ->
  (silent = true \/ exists answer rest, stdin w = answer :: rest /\ is_yes answer = true) ->
  find_installation env w
  = find_by_heuristics env (emit (Print "Warning: Failed to read installation info: ") w)
  /\ is_Some (entry w (d, exe_name))
  /\ (exists w', uninstall env None silent w = (Ret true, w')
        /\ forall n, n ∈ default_files -> not_file w' (d, n))
  /\ exe_name ∈ default_files
  /\ (forall alias, alias ∈ aliases -> alias +:+ ".cmd" ∈ default_files).
Proof.
  intros Hadmin Hfile Hbad Hfind Hgo.
  split; [by apply (find_installation_corrupt env w text)|].
  split; [by apply find_by_heuristics_found in Hfind as (_ & _ & ?)|].
  split; [|split].
  - destruct (uninstall_prelude_corrupt env silent w text d w0 Hadmin Hfile Hbad Hfind)
      as (w1 & Hpre & Hfs & Hin).
    unfold uninstall. rewrite (bind_ret_eq _ _ _ _ _ Hpre). cbv beta iota.
    assert (Hconfirm : exists w2, confirm_uninstall d silent w1 = (Ret true, w2)).
    { destruct Hgo as [->|(answer & rest & Hstdin & Hyes)].
      - by exists w1.
      - destruct silent; [by exists w1|].
        eexists. apply (confirm_uninstall_accepted d w1 answer rest); [|done].
        by rewrite Hin. }
    destruct Hconfirm as (w2 & Hconfirm).
    rewrite (bind_ret_eq _ _ _ _ _ Hconfirm). cbv beta. cbn [negb].
    by apply uninstall_apply_default.
  - by_listing.
  - intros alias Halias. unfold aliases in Halias. unfold default_files.
    repeat (apply elem_of_cons in Halias as [->|Halias]); [by_listing..|].
    by apply elem_of_nil in Halias.
Qed.

Lemma corrupt_ledger_witness :
  exists w', uninstall Scenario.remover None true Scenario.damaged = (Ret true, w')
    /\ forall n, n ∈ default_files -> not_file w' (Scenario.root, n).
Proof.
  destruct (corrupt_ledger_falls_back Scenario.remover true Scenario.damaged
              "{ not json" Scenario.root Scenario.damaged) as (_ & _ & Hrun & _).
  - vm_compute. reflexivity.
  - vm_compute. reflexivity.
  - vm_compute. reflexivity.
  - vm_compute. reflexivity.
  - left. reflexivity.
  - exact Hrun.
Defined.

(** ** The uninstaller that the default list forgets *)

(** C9: install deploys the uninstaller as ruping-uninstaller.exe, and the
    default list names uninstaller.py instead. So after a successful install
    to [d], an uninstall that has found [d] without a ledger listing the
    files leaves that entry as it was, however the run ends: the directory
    is not empty after the deletions and is kept. *)
Theorem default_list_leaves_uninstaller
    env_i install_path no_path silent_i w0 w1 env_u path_u silent_u d info w1' :
  install env_i install_path no_path silent_i w0 = (Ret true, w1) ->
  d = install_dir_of env_i install_path ->
  uninstall_prelude env_u path_u silent_u w1 = (Ret (Some (d, info)), w1') ->
  unlisted info ->
  let w2 := (uninstall env_u path_u silent_u w1).2 in
  "uninstaller.py" ∈ default_files
  /\ ("ruping-uninstaller.exe" ∉ default_files)
  /\ is_Some (entry w1 (d, "ruping-uninstaller.exe"))
  /\ entry w2 (d, "ruping-uninstaller.exe") = entry w1 (d, "ruping-uninstaller.exe")
  /\ (exists entries, fs w2 !! d = Some entries /\ entries <> ∅).
Proof.
  intros Hinstall -> Hpre Hun w2.
  set (d := install_dir_of env_i install_path) in *.
  assert (Hthere : is_Some (entry w1 (d, "ruping-uninstaller.exe"))).
  { eapply (install_true_deployed _ _ _ _ _ _ Hinstall "ruping-uninstaller.exe").
    unfold files_to_extract. fold d. cbn [app]. apply list_elem_of_further, list_elem_of_here. }
  assert (Hkept : entry w2 (d, "ruping-uninstaller.exe")
                  = entry w1 (d, "ruping-uninstaller.exe")).
  { assert (Hk : keeps (default_files ++ shortcuts) w1 w2).
    { subst w2. unfold uninstall. rewrite (bind_ret_eq _ _ _ _ _ Hpre). cbv beta iota.
      eapply frame_trans.
      - pose proof (uninstall_prelude_preserves (R:=keeps (default_files ++ shortcuts))
                      env_u path_u silent_u w1) as H. rewrite Hpre in H. exact H.
      - pose proof (uninstall_apply_keeps env_u silent_u d info Hun).
        match goal with
        | |- keeps _ _ (?m w1').2 =>
            assert (Hm : preserves (keeps (default_files ++ shortcuts)) m) by frame
        end.
        apply Hm. }
    apply Hk. cbn [snd]. by_listing. }
  split; [by_listing|].
  split; [by_listing|].
  split; [done|]. split; [done|].
  rewrite <- Hkept in Hthere. destruct Hthere as [x Hx].
  unfold entry in Hx. cbn [fst snd] in Hx.
  destruct (fs w2 !! d) as [entries|]; [|done].
  exists entries. split; [done|]. intros ->. simpl in Hx. by rewrite lookup_empty in Hx.
Qed.

Lemma default_list_witness :
  entry (uninstall Scenario.remover (Some Scenario.root) true Scenario.installed).2
        (Scenario.root, "ruping-uninstaller.exe")
  = entry Scenario.installed (Scenario.root, "ruping-uninstaller.exe").
Proof.
  refine (proj1 (proj2 (proj2 (proj2
    (default_list_leaves_uninstaller Scenario.setup (Some Scenario.root) false true
       Scenario.fresh Scenario.installed Scenario.remover (Some Scenario.root) true
       Scenario.root None Scenario.installed _ _ _ _))))).
  - vm_compute. reflexivity.
  - reflexivity.
  - vm_compute. reflexivity.
  - exact I.
Defined.

(** ** Segments *)

Section Segments.
Variable sep : ascii.

Lemma split_not_nil (s : string) : PyStr.split sep s <> [].
Proof.
  destruct s as [|c t]; simpl; [done|].
  destruct (Ascii.eqb c sep); [done|].
  destruct (PyStr.split sep t); done.
Qed.

Lemma join_cons (x : string) (l : list string) :
  l <> [] ->
  PyStr.join (String sep "") (x :: l) = x +:+ String sep "" +:+ PyStr.join (String sep "") l.
Proof. destruct l; [done|]. reflexivity. Qed.

Lemma join_split (s : string) : PyStr.join (String sep "") (PyStr.split sep s) = s.
Proof.
  induction s as [|c t IH]; simpl; [done|].
  destruct (Ascii.eqb_spec c sep) as [->|Hne].
  - rewrite join_cons by apply split_not_nil. simpl. by rewrite IH.
  - pose proof (split_not_nil t) as Hnil.
    destruct (PyStr.split sep t) as [|h r]; [done|].
    destruct r as [|h' r'].
    + simpl in *. by rewrite IH.
    + rewrite join_cons by done. rewrite join_cons in IH by done.
      simpl. by rewrite <- IH.
Qed.

Lemma split_free (s : string) : Forall (free_of sep) (PyStr.split sep s).
Proof.
  induction s as [|c t IH]; simpl.
  - by repeat constructor.
  - destruct (Ascii.eqb_spec c sep) as [->|Hne].
    + constructor; [exact I|done].
    + pose proof (split_not_nil t) as Hnil.
      destruct (PyStr.split sep t) as [|h r]; [done|].
      inversion IH; subst. constructor; [|done]. by split.
Qed.

Lemma split_free_app (x rest : string) :
  free_of sep x -> PyStr.split sep (x +:+ String sep rest) = x :: PyStr.split sep rest.
Proof.
  induction x as [|c t IH]; simpl.
  - intros _. by rewrite Ascii.eqb_refl.
  - intros [Hne Hfree]. destruct (Ascii.eqb_spec c sep); [done|].
    by rewrite IH.
Qed.

Lemma split_free_id (x : string) : free_of sep x -> PyStr.split sep x = [x].
Proof.
  induction x as [|c t IH]; simpl; [done|].
  intros [Hne Hfree]. destruct (Ascii.eqb_spec c sep); [done|].
  by rewrite IH.
Qed.

Lemma split_join (l : list string) :
  l <> [] -> Forall (free_of sep) l -> PyStr.split sep (PyStr.join (String sep "") l) = l.
Proof.
  induction l as [|x r IH]; [done|].
  intros _ Hall. inversion Hall as [|? ? Hx Hr]; subst.
  destruct r as [|y r'].
  - simpl. by apply split_free_id.
  - rewrite join_cons by done.
    change (x +:+ String sep "" +:+ ?t) with (x +:+ String sep t).
    rewrite split_free_app by done. by rewrite IH.
Qed.

End Segments.

Lemma filter_all_id {A} (P : A -> Prop) `{!forall x, Decision (P x)} (l : list A) :
  Forall P l -> filter P l = l.
Proof.
  induction 1 as [|x l Hx Hl IH]; [done|].
  rewrite filter_cons_True by done. by rewrite IH.
Qed.

Lemma without_unrelated dir s :
  (forall seg, seg ∈ PyStr.split ";" s -> seg <> dir) -> without dir s = s.
Proof.
  intros Hno. unfold without.
  rewrite filter_all_id by (by apply Forall_forall).
  apply (join_split ";").
Qed.

Lemma without_segments dir s :
  filter (fun p => p <> dir) (PyStr.split ";" s) <> [] ->
  PyStr.split ";" (without dir s) = filter (fun p => p <> dir) (PyStr.split ";" s).
Proof.
  intros Hne. unfold without. apply (split_join ";"); [done|].
  apply Forall_forall. intros x Hx. apply list_elem_of_filter in Hx as [_ Hx].
  revert x Hx. apply Forall_forall. apply split_free.
Qed.

Lemma without_idempotent dir s : without dir (without dir s) = without dir s.
Proof.
  destruct (decide (filter (fun p => p <> dir) (PyStr.split ";" s) = [])) as [Hnil|Hne].
  - unfold without at 2 3. rewrite Hnil. cbn [PyStr.join].
    unfold without. cbn [PyStr.split]. rewrite filter_cons. case_decide; reflexivity.
  - unfold without at 1. rewrite (without_segments dir s Hne).
    rewrite filter_all_id; [done|].
    apply Forall_forall. intros x Hx. by apply list_elem_of_filter in Hx as [? _].
Qed.

(** ** remove_from_path *)

Lemma remove_from_path_run env dir w s :
  reg_access env = true ->
  reg_path w = Some s ->
  exists w', remove_from_path env dir w = (Ret true, w')
    /\ reg_path w' = Some (without dir s)
    /\ fs w' = fs w.
Proof.
  intros Hacc Hval. unfold remove_from_path, try_except, bind, OpenKey, QueryValueEx,
    SetValueEx, send_message_timeout, print, ret.
  rewrite Hacc, Hval. cbn.
  destruct (user32_ok env); [destruct (windows env)|]; cbn; eexists; done.
Qed.

(** C4: with the registry open and the PATH value [s], remove_from_path
    returns true and writes [s] split at the semicolons, without the segments
    equal to [dir], joined again: when a segment is left, the segments of the
    new value are the kept ones in their order, duplicates and empty ones
    included. The files are not touched. For C:\A;C:\B;C:\Target and
    C:\Target the new value is C:\A;C:\B. *)
Theorem remove_from_path_drops_equal_segments env dir w s :
  reg_access env = true ->
  reg_path w = Some s ->
  exists w', remove_from_path env dir w = (Ret true, w')
    /\ reg_path w'
       = Some (PyStr.join ";" (filter (fun p => p <> dir) (PyStr.split ";" s)))
    /\ (filter (fun p => p <> dir) (PyStr.split ";" s) <> [] ->
        forall v, reg_path w' = Some v ->
        PyStr.split ";" v = filter (fun p => p <> dir) (PyStr.split ";" s))
    /\ fs w' = fs w
    /\ (s = "C:\A;C:\B;C:\Target" -> dir = "C:\Target" -> reg_path w' = Some "C:\A;C:\B").
Proof.
  intros Hacc Hval.
  destruct (remove_from_path_run env dir w s Hacc Hval) as (w' & Hrun & Hreg & Hfs).
  exists w'. split; [done|]. split; [done|]. split; [|split; [done|]].
  - intros Hne v Hv. rewrite Hreg in Hv. injection Hv as <-. by apply without_segments.
  - intros -> ->. rewrite Hreg. reflexivity.
Qed.

Lemma remove_from_path_witness :
  exists w', remove_from_path Scenario.setup "C:\Target"
               (set_reg_path (Some "C:\A;C:\B;C:\Target") Scenario.fresh) = (Ret true, w')
    /\ reg_path w' = Some "C:\A;C:\B".
Proof.
  destruct (remove_from_path_drops_equal_segments Scenario.setup "C:\Target"
              (set_reg_path (Some "C:\A;C:\B;C:\Target") Scenario.fresh)
              "C:\A;C:\B;C:\Target") as (w' & Hrun & _ & _ & _ & Hex).
  - reflexivity.
  - reflexivity.
  - exists w'. split; [exact Hrun|]. by apply Hex.
Defined.

(** C10: when no segment of the PATH value [s] equals [dir],
    remove_from_path writes [s] back unchanged; and for any [s], running it a
    second time leaves the value the first run stored. *)
Theorem remove_from_path_idempotent env dir w s :
  reg_access env = true ->
  reg_path w = Some s ->
  let w1 := (remove_from_path env dir w).2 in
  let w2 := (remove_from_path env dir w1).2 in
  ((forall seg, seg ∈ PyStr.split ";" s -> seg <> dir) -> reg_path w1 = Some s)
  /\ reg_path w2 = reg_path w1.
Proof.
  intros Hacc Hval w1 w2.
  destruct (remove_from_path_run env dir w s Hacc Hval) as (w1' & Hrun1 & Hreg1 & _).
  assert (Hw1 : w1 = w1') by (subst w1; by rewrite Hrun1). 
  destruct (remove_from_path_run env dir w1 (without dir s) Hacc) as (w2' & Hrun2 & Hreg2 & _).
  { by rewrite Hw1. }
  assert (Hw2 : w2 = w2') by (subst w2; by rewrite Hrun2).
  split.
  - intros Hno. rewrite Hw1, Hreg1. by rewrite without_unrelated.
  - rewrite Hw2, Hreg2, Hw1, Hreg1. by rewrite without_idempotent.
Qed.

Lemma remove_from_path_idempotent_witness :
  reg_path (remove_from_path Scenario.setup Scenario.root Scenario.fresh).2
  = Some "C:\Windows;C:\Windows\System32".
Proof.
  refine (proj1 (remove_from_path_idempotent Scenario.setup Scenario.root Scenario.fresh
                   "C:\Windows;C:\Windows\System32" _ _) _).
  - reflexivity.
  - reflexivity.
  - vm_compute. intros seg Hseg Heq. subst seg.
    repeat (apply elem_of_cons in Hseg as [Hseg|Hseg]; [discriminate|]).
    by apply elem_of_nil in Hseg.
Defined.

(** ** Where an artifact is taken from *)

Lemma mkdir_p_run env d w :
  is_Some (fs w !! d) \/ creatable env d = true ->
  exists w1, mkdir_p env d w = (Ret tt, w1)
    /\ is_Some (fs w1 !! d)
    /\ forall p, entry w1 p = entry w p.
Proof.
  intros Hd. unfold mkdir_p. destruct (fs w !! d) as [m|] eqn:Hm.
  - exists w. rewrite Hm. eauto.
  - destruct Hd as [[? ?]| ->]; [done|].
    eexists. split; [done|]. split.
    + cbn. rewrite lookup_insert_eq. eauto.
    + intros p. rewrite entry_set_dir. case_decide as Hp; [|done].
      rewrite lookup_empty. subst d. by rewrite entry_no_dir.
Qed.

Lemma copy2_run src dst data w :
  entry w src = Some (File data) ->
  src <> dst ->
  is_Some (fs w !! dst.1) ->
  entry w dst <> Some SubDir ->
  exists w', copy2 src dst w = (Ret tt, w') /\ entry w' dst = Some (File data).
Proof.
  intros Hsrc Hne [m Hm] Hdst. unfold copy2. rewrite Hsrc.
  rewrite decide_False by done. rewrite Hm.
  rewrite (entry_in_dir _ _ m Hm) in Hdst.
  destruct (m !! dst.2) as [[old|]|]; [|done|].
  all: eexists; split; [done|].
  all: rewrite entry_set_dir; rewrite decide_True by done; apply lookup_insert_eq.
Qed.

Lemma write_file_run p data w :
  is_Some (fs w !! p.1) ->
  entry w p <> Some SubDir ->
  exists w', write_file p data w = (Ret tt, w') /\ entry w' p = Some (File data).
Proof.
  intros [m Hm] Hp. unfold write_file. rewrite Hm.
  rewrite (entry_in_dir _ _ m Hm) in Hp.
  destruct (m !! p.2) as [[old|]|]; [|done|].
  all: eexists; split; [done|].
  all: rewrite entry_set_dir; rewrite decide_True by done; apply lookup_insert_eq.
Qed.

(** Copying [src], a regular file, to a writable target. *)
Lemma copy_to_target env src target data w :
  writable env w target ->
  entry w src = Some (File data) ->
  src <> target ->
  exists w', (mkdir_p env target.1;; copy2 src target) w = (Ret tt, w')
    /\ entry w' target = Some (File data).
Proof.
  intros [Hdir Hnot] Hsrc Hne.
  destruct (mkdir_p_run env target.1 w Hdir) as (w1 & Hmk & Hthere & Hsame).
  rewrite (bind_ret_eq _ _ _ _ _ Hmk). cbv beta.
  apply copy2_run; [|done|done|]; by rewrite Hsame.
Qed.

Lemma copy_first_local_none env candidates target w :
  (forall c, c ∈ candidates -> entry w c = None) ->
  copy_first_local env candidates target w = (Ret false, w).
Proof.
  induction candidates as [|c rest IH]; intros Hnone; cbn [copy_first_local]; [done|].
  unfold bind at 1. unfold path_exists at 1.
  rewrite (Hnone c) by (by left).
  rewrite bool_decide_eq_false_2 by (by intros [? ?]).
  apply IH. intros c' Hc'. apply Hnone. by right.
Qed.

Lemma copy_first_local_first env pre c post target data w :
  writable env w target ->
  (forall c', c' ∈ pre -> entry w c' = None) ->
  entry w c = Some (File data) ->
  c <> target ->
  exists w', copy_first_local env (pre ++ c :: post) target w = (Ret true, w')
    /\ entry w' target = Some (File data).
Proof.
  intros Hw Hpre Hc Hne.
  induction pre as [|c0 pre IH]; cbn [app copy_first_local].
  - unfold bind at 1. unfold path_exists at 1. rewrite Hc.
    rewrite bool_decide_eq_true_2 by eauto.
    destruct (copy_to_target env c target data w Hw Hc Hne) as (w' & Hrun & Hdone).
    exists w'. split; [|done].
    unfold try_except.
    apply bind_inv_ret in Hrun; destruct Hrun as ([] & w1 & Hmk & Hcp).
    rewrite (bind_ret_eq _ _ _ _ _ Hmk). cbv beta.
    by rewrite (bind_ret_eq _ _ _ _ _ Hcp).
  - unfold bind at 1. unfold path_exists at 1.
    rewrite (Hpre c0) by (by left).
    rewrite bool_decide_eq_false_2 by (by intros [? ?]).
    apply IH. intros c' Hc'. apply Hpre. by right.
Qed.

(** The table has content for the launcher scripts only. *)
Lemma embedded_content_not_exe name content :
  EMBEDDED_FILES !! name = Some content -> content <> "" ->
  PyStr.endswith name ".exe" = false.
Proof.
  intros Hlook Hne. unfold EMBEDDED_FILES in Hlook.
  apply elem_of_list_to_map_2 in Hlook.
  repeat (apply elem_of_cons in Hlook as [Heq|Hlook];
          [injection Heq as -> ->; first [done | reflexivity]|]).
  by apply elem_of_nil in Hlook.
Qed.

(** What [extract_embedded_file] does once the bundle has been passed. *)
Lemma extract_after_bundle_miss env name target w :
  bundle_miss env w name ->
  extract_embedded_file env name target w
  = match EMBEDDED_FILES !! name with
    | None => copy_first_local env (local_paths env name) target w
    | Some content =>
        if decide (content = "") then (Ret false, w)
        else
          try_except
            (mkdir_p env target.1;;
             (if PyStr.endswith name ".exe" then
                match b64decode env content with
                | Some bytes => write_file target bytes
                | None => write_file target "";; raise
                end
              else write_file target content);;
             ret true)
            (ret false) w
    end.
Proof.
  unfold bundle_miss, extract_embedded_file. destruct (meipass env) as [b|].
  - intros Hmiss. unfold bind at 1. unfold path_exists at 1. rewrite Hmiss.
    rewrite bool_decide_eq_false_2 by (by intros [? ?]).
    destruct (EMBEDDED_FILES !! name); [|done]. by case_decide.
  - intros _. destruct (EMBEDDED_FILES !! name); [|done]. by case_decide.
Qed.

(** C3, as the code has it: for a target that can be written,
    (1) a regular file under the name in the bundle root is what is taken;
    (2) when the bundle has nothing under the name (or there is no bundle)
        and the embedded table has content for the name, that content is
        taken, whatever local files there are;
    (3) the local candidates are searched only for a name that is not a key
        of the table, and then in their order: the first one there is, a
        regular file, is taken, and when none is there the extraction fails
        and leaves the machine as it was;
    (4) when the bundle has nothing under the name and the table holds the
        name with empty content (ruping.exe, uninstaller.py), the extraction
        fails and leaves the machine as it was, whatever local files there
        are: they are not looked at. *)
Theorem extraction_order env name target w :
  writable env w target ->
  (forall b data,
      meipass env = Some b ->
      entry w (Path b, name) = Some (File data) ->
      (Path b, name) <> target ->
      exists w', extract_embedded_file env name target w = (Ret true, w')
        /\ entry w' target = Some (File data))
  /\ (forall content,
      bundle_miss env w name ->
      EMBEDDED_FILES !! name = Some content ->
      content <> "" ->
      exists w', extract_embedded_file env name target w = (Ret true, w')
        /\ entry w' target = Some (File content))
  /\ (bundle_miss env w name ->
      EMBEDDED_FILES !! name = None ->
      (forall pre c post data,
          local_paths env name = pre ++ c :: post ->
          (forall c', c' ∈ pre -> entry w c' = None) ->
          entry w c = Some (File data) ->
          c <> target ->
          exists w', extract_embedded_file env name target w = (Ret true, w')
            /\ entry w' target = Some (File data))
      /\ ((forall c, c ∈ local_paths env name -> entry w c = None) ->
          extract_embedded_file env name target w = (Ret false, w)))
  /\ (bundle_miss env w name ->
      EMBEDDED_FILES !! name = Some "" ->
      extract_embedded_file env name target w = (Ret false, w)).
Proof.
  intros Hw. split; [|split; [|split]].
  - intros b data Hb Hfile Hne. unfold extract_embedded_file. rewrite Hb.
    unfold bind at 1. unfold path_exists at 1. rewrite Hfile.
    rewrite bool_decide_eq_true_2 by eauto.
    destruct (copy_to_target env (Path b, name) target data w Hw Hfile Hne)
      as (w' & Hrun & Hdone).
    exists w'. split; [|done]. unfold try_except.
    apply bind_inv_ret in Hrun; destruct Hrun as ([] & w1 & Hmk & Hcp).
    rewrite (bind_ret_eq _ _ _ _ _ Hmk). cbv beta.
    rewrite (bind_ret_eq _ _ _ _ _ Hcp). cbv beta.
    unfold bind, path_exists, ret. rewrite Hdone.
    by rewrite bool_decide_eq_true_2 by eauto.
  - intros content Hmiss Hlook Hne.
    rewrite (extract_after_bundle_miss env name target w Hmiss), Hlook.
    rewrite decide_False by done.
    rewrite (embedded_content_not_exe name content Hlook Hne).
    destruct Hw as [Hdir Hnot].
    destruct (mkdir_p_run env target.1 w Hdir) as (w1 & Hmk & Hthere & Hsame).
    destruct (write_file_run target content w1 Hthere) as (w' & Hwr & Hdone).
    { by rewrite Hsame. }
    exists w'. split; [|done]. unfold try_except.
    rewrite (bind_ret_eq _ _ _ _ _ Hmk). cbv beta.
    by rewrite (bind_ret_eq _ _ _ _ _ Hwr).
  - intros Hmiss Hlook.
    rewrite (extract_after_bundle_miss env name target w Hmiss), Hlook.
    split.
    + intros pre c post data -> Hpre Hc Hne. by apply copy_first_local_first.
    + apply copy_first_local_none.
  - intros Hmiss Hlook.
    rewrite (extract_after_bundle_miss env name target w Hmiss), Hlook.
    by rewrite decide_True.
Qed.

Lemma extraction_order_witness :
  (exists w', extract_embedded_file Scenario.setup "ruping.exe"
                (Scenario.root, "ruping.exe") Scenario.fresh = (Ret true, w')
     /\ entry w' (Scenario.root, "ruping.exe") = Some (File "MZ ruping"))
  /\ (exists w', extract_embedded_file Scenario.setup "rping.cmd"
                (Scenario.root, "rping.cmd") Scenario.fresh = (Ret true, w')
     /\ entry w' (Scenario.root, "rping.cmd") = Some (File cmd_launcher))
  /\ extract_embedded_file (Cases.as_script Scenario.setup) "ruping.exe"
       (Scenario.root, "ruping.exe") Cases.checkout
     = (Ret false, Cases.checkout).
Proof.
  split; [|split].
  3:{ refine (proj2 (proj2 (proj2 (extraction_order (Cases.as_script Scenario.setup)
                       "ruping.exe" (Scenario.root, "ruping.exe") Cases.checkout _))) _ _).
      - split; [right; reflexivity|]. vm_compute. discriminate.
      - exact I.
      - vm_compute. reflexivity. }
  - refine (proj1 (extraction_order Scenario.setup "ruping.exe"
                     (Scenario.root, "ruping.exe") Scenario.fresh _)
                  Scenario.bundle "MZ ruping" _ _ _).
    + split; [right; reflexivity|]. vm_compute. discriminate.
    + reflexivity.
    + vm_compute. reflexivity.
    + vm_compute. discriminate.
  - refine (proj1 (proj2 (extraction_order Scenario.setup "rping.cmd"
                     (Scenario.root, "rping.cmd") Scenario.fresh _))
                  cmd_launcher _ _ _).
    + split; [right; reflexivity|]. vm_compute. discriminate.
    + vm_compute. reflexivity.
    + vm_compute. reflexivity.
    + vm_compute. discriminate.
Defined.

(** C3 as the specification states it fails, twice.
    The order: the bundle has no ruping.cmd, a local ruping.cmd exists and is
    the first local candidate, the embedded table has content for the name,
    and what is written is the content of the table, not that of the local
    file.
    The failure: run as a script, without a bundle, with ruping.exe as a
    regular file at the first local candidate, the extraction of ruping.exe
    fails although one of the three sources has the file, because the table
    holds the name with empty content; nothing is written. *)
Lemma local_file_loses_to_table :
  (bundle_miss Scenario.setup Scenario.fresh "ruping.cmd"
   /\ head (local_paths Scenario.setup "ruping.cmd") = Some ("C:\Downloads", "ruping.cmd")
   /\ entry Scenario.fresh ("C:\Downloads", "ruping.cmd") = Some (File "@echo local")
   /\ EMBEDDED_FILES !! "ruping.cmd" = Some cmd_launcher
   /\ cmd_launcher <> ""
   /\ exists w', extract_embedded_file Scenario.setup "ruping.cmd"
                   (Scenario.root, "ruping.cmd") Scenario.fresh = (Ret true, w')
        /\ entry w' (Scenario.root, "ruping.cmd") = Some (File cmd_launcher)
        /\ entry w' (Scenario.root, "ruping.cmd") <> Some (File "@echo local"))
  /\ (bundle_miss (Cases.as_script Scenario.setup) Cases.checkout "ruping.exe"
      /\ head (local_paths (Cases.as_script Scenario.setup) "ruping.exe")
         = Some ("C:\Downloads", "ruping.exe")
      /\ entry Cases.checkout ("C:\Downloads", "ruping.exe") = Some (File "MZ ruping")
      /\ writable (Cases.as_script Scenario.setup) Cases.checkout
                  (Scenario.root, "ruping.exe")
      /\ EMBEDDED_FILES !! "ruping.exe" = Some ""
      /\ extract_embedded_file (Cases.as_script Scenario.setup) "ruping.exe"
           (Scenario.root, "ruping.exe") Cases.checkout
         = (Ret false, Cases.checkout)).
Proof.
  split.
  - split; [vm_compute; reflexivity|].
    split; [vm_compute; reflexivity|].
    split; [vm_compute; reflexivity|].
    split; [vm_compute; reflexivity|].
    split; [vm_compute; discriminate|].
    eexists. split; [vm_compute; reflexivity|].
    split; [vm_compute; reflexivity|vm_compute; discriminate].
  - split; [exact I|].
    split; [vm_compute; reflexivity|].
    split; [vm_compute; reflexivity|].
    split; [split; [right; reflexivity|vm_compute; discriminate]|].
    split; [vm_compute; reflexivity|].
    vm_compute. reflexivity.
Qed.

(** ** What the code does where the specification asks for more *)

(** C2 at a failing input: the PATH value has the entry C:\RuPing-old\bin,
    which contains C:\RuPing; add_to_path takes the directory for present,
    returns true and writes nothing, and no segment of the value is the
    directory. *)
Theorem add_to_path_substring_hit :
  add_to_path Scenario.setup "C:\RuPing" Scenario.lookalike
  = (Ret true, emit (Print "C:\RuPing is already in system PATH") Scenario.lookalike)
  /\ reg_path Scenario.lookalike = Some "C:\Windows;C:\RuPing-old\bin"
  /\ PyStr.split ";" "C:\Windows;C:\RuPing-old\bin" = ["C:\Windows"; "C:\RuPing-old\bin"]
  /\ "C:\RuPing" ∉ PyStr.split ";" "C:\Windows;C:\RuPing-old\bin".
Proof.
  split; [vm_compute; reflexivity|].
  split; [reflexivity|]. split; [reflexivity|].
  cbn. intros Hin.
  repeat (apply elem_of_cons in Hin as [Hin|Hin]; [discriminate|]).
  by apply elem_of_nil in Hin.
Qed.

(** C5 at a failing input: with a window that does not answer, add_to_path
    broadcasts through SendMessageW, which has no timeout, and never returns,
    the new PATH value already written; remove_from_path on the same machine
    broadcasts through SendMessageTimeoutW with SMTO_ABORTIFHUNG and 3000 ms
    and returns true. *)
Theorem add_to_path_broadcast_unbounded :
  (exists w', add_to_path (Scenario.with_hung_window Scenario.setup) "C:\RuPing" Scenario.fresh
              = (Hang, w')
     /\ trace w' = [SendMessageW HWND_BROADCAST WM_SETTINGCHANGE "Environment"]
     /\ reg_path w' = Some "C:\Windows;C:\Windows\System32;C:\RuPing")
  /\ (exists w', remove_from_path (Scenario.with_hung_window Scenario.setup) "C:\RuPing"
                   Scenario.fresh = (Ret true, w')
     /\ trace w' = [SendMessageTimeoutW HWND_BROADCAST WM_SETTINGCHANGE "Environment"
                      SMTO_ABORTIFHUNG 3000;
                    Print "Removed C:\RuPing from system PATH"]).
Proof.
  split; eexists; (split; [vm_compute; reflexivity|]); repeat split; vm_compute; reflexivity.
Qed.

(** C1 at a failing input: a silent install to C:\RuPing succeeds; a silent
    uninstall given the same directory returns true, removes the directory
    from the PATH value, and leaves ruping-uninstaller.exe, a file the
    installer wrote, as the one entry of the directory, which stays. *)
Theorem roundtrip_by_path_leaves_uninstaller :
  install Scenario.setup (Some "C:\RuPing") false true Scenario.fresh
  = (Ret true, Scenario.installed)
  /\ "ruping-uninstaller.exe" ∈ installed_files
  /\ exists w', uninstall Scenario.remover (Some "C:\RuPing") true Scenario.installed
                = (Ret true, w')
       /\ reg_path w' = Some "C:\Windows;C:\Windows\System32"
       /\ fs w' !! "C:\RuPing"
          = Some {[ "ruping-uninstaller.exe" := File "MZ uninstaller" ]}.
Proof.
  split; [vm_compute; reflexivity|].
  split; [by_listing|].
  eexists. split; [vm_compute; reflexivity|].
  split; vm_compute; reflexivity.
Qed.

(** The same machine, uninstalled through the ledger: nothing is left. *)
Example roundtrip_by_ledger :
  exists w', uninstall Scenario.remover None true Scenario.installed = (Ret true, w')
    /\ reg_path w' = Some "C:\Windows;C:\Windows\System32"
    /\ fs w' !! "C:\RuPing" = None.
Proof.
  eexists. split; [vm_compute; reflexivity|]. split; vm_compute; reflexivity.
Qed.

(** * Further properties of the two programs *)

(** ** Substrings and segments *)

Lemma prefix_refl (s : string) : String.prefix s s = true.
Proof. induction s as [|c t IH]; simpl; [done|]. by destruct (ascii_dec c c). Qed.

Lemma prefix_app (s t : string) : String.prefix s (s +:+ t) = true.
Proof.
  induction s as [|c s IH]; simpl; [by destruct t|]. by destruct (ascii_dec c c).
Qed.

Lemma contains_prefix (n hay : string) : String.prefix n hay = true -> PyStr.contains n hay = true.
Proof. intros H. destruct hay; cbn [PyStr.contains]; rewrite H; done. Qed.

Lemma contains_app_r (n a b : string) :
  PyStr.contains n b = true -> PyStr.contains n (a +:+ b) = true.
Proof.
  intros H. induction a as [|c a IH]; simpl; [done|].
  rewrite IH. apply orb_true_r.
Qed.

Lemma contains_appended (n s : string) : PyStr.contains n (s +:+ ";" +:+ n) = true.
Proof.
  apply contains_app_r. apply (contains_app_r n ";" n).
  apply contains_prefix, prefix_refl.
Qed.

Section MoreSegments.
Variable sep : ascii.

Lemma split_head_prefix (s h : string) (r : list string) :
  PyStr.split sep s = h :: r -> String.prefix h s = true.
Proof.
  revert h r. induction s as [|c t IH]; intros h r; simpl.
  - intros Heq. injection Heq as <- <-. reflexivity.
  - destruct (Ascii.eqb c sep).
    + intros Heq. injection Heq as <- <-. reflexivity.
    + destruct (PyStr.split sep t) as [|h' r'] eqn:Ht;
        intros Heq; injection Heq as <- <-; simpl.
      * destruct (ascii_dec c c); [by destruct t|done].
      * destruct (ascii_dec c c); [|done]. by eapply IH.
Qed.

Lemma segment_contained (s seg : string) :
  seg ∈ PyStr.split sep s -> PyStr.contains seg s = true.
Proof.
  induction s as [|c t IH]; simpl.
  - intros Hin. apply list_elem_of_singleton in Hin as ->. done.
  - destruct (Ascii.eqb c sep).
    + intros Hin. apply elem_of_cons in Hin as [->|Hin]; [done|].
      rewrite IH by done. apply orb_true_r.
    + destruct (PyStr.split sep t) as [|h r] eqn:Ht.
      * intros Hin. apply list_elem_of_singleton in Hin as ->.
        simpl. destruct (ascii_dec c c); [|done].
        pose proof (split_not_nil sep t). done.
      * intros Hin. apply elem_of_cons in Hin as [->|Hin].
        -- simpl. destruct (ascii_dec c c); [|done].
           by rewrite (split_head_prefix t h r Ht).
        -- rewrite IH; [apply orb_true_r|]. by right.
Qed.

Lemma split_appended (s d : string) :
  free_of sep d ->
  PyStr.split sep (s +:+ String sep d) = PyStr.split sep s ++ [d].
Proof.
  intros Hd. induction s as [|c t IH]; simpl.
  - rewrite Ascii.eqb_refl. by rewrite split_free_id.
  - destruct (Ascii.eqb c sep); rewrite IH; [done|].
    pose proof (split_not_nil sep t).
    by destruct (PyStr.split sep t).
Qed.

End MoreSegments.

(** ** How add_to_path ends *)

Lemma add_to_path_closed env d w :
  reg_access env = false \/ reg_path w = None ->
  add_to_path env d w = (Ret false, emit (Print "Failed to add to PATH: ") w).
Proof.
  intros Hno. unfold add_to_path, try_except, bind, OpenKey, QueryValueEx.
  destruct (reg_access env); [|done].
  destruct Hno as [?| ->]; done.
Qed.

Lemma add_to_path_present env d w s :
  reg_access env = true -> reg_path w = Some s -> PyStr.contains d s = true ->
  add_to_path env d w = (Ret true, emit (Print (d +:+ " is already in system PATH")) w).
Proof.
  intros Hacc Hval Hin. unfold add_to_path, try_except, bind, OpenKey, QueryValueEx.
  rewrite Hacc, Hval, Hin. reflexivity.
Qed.

(** The world once the new value is written. *)
Lemma add_to_path_absent env d w s :
  reg_access env = true -> reg_path w = Some s -> PyStr.contains d s = false ->
  let written := set_reg_path (Some (s +:+ ";" +:+ d)) w in
  let sent := emit (SendMessageW HWND_BROADCAST WM_SETTINGCHANGE "Environment") written in
  add_to_path env d w
  = if user32_ok env then
      match windows env with
      | Responsive => (Ret true, emit (Print ("Added " +:+ d +:+ " to system PATH")) sent)
      | Unresponsive => (Hang, sent)
      end
    else (Ret false, emit (Print "Failed to add to PATH: ") written).
Proof.
  intros Hacc Hval Hin. unfold add_to_path, try_except, bind, OpenKey, QueryValueEx,
    SetValueEx, send_message.
  rewrite Hacc, Hval, Hin. cbn.
  destruct (user32_ok env); [destruct (windows env)|]; reflexivity.
Qed.

(** Whatever add_to_path did, it has nothing left to do. *)
Lemma add_to_path_settles env d w :
  settled env d (reg_path (add_to_path env d w).2).
Proof.
  destruct (reg_access env) eqn:Hacc; [|by left].
  destruct (reg_path w) as [s|] eqn:Hval.
  - right. right. destruct (PyStr.contains d s) eqn:Hin.
    + rewrite (add_to_path_present env d w s) by done. exists s. split; [exact Hval|exact Hin].
    + rewrite (add_to_path_absent env d w s) by done.
      exists (s +:+ ";" +:+ d). split; [|apply contains_appended].
      destruct (user32_ok env); [destruct (windows env)|]; reflexivity.
  - right. left. rewrite add_to_path_closed by (by right). done.
Qed.

Lemma add_to_path_when_settled env d w :
  settled env d (reg_path w) -> reg_path (add_to_path env d w).2 = reg_path w.
Proof.
  intros [Hacc|[Hnone|(s & Hval & Hin)]].
  - by rewrite add_to_path_closed by (by left).
  - by rewrite add_to_path_closed by (by right).
  - destruct (reg_access env) eqn:Hacc.
    + by rewrite (add_to_path_present env d w s).
    + by rewrite add_to_path_closed by (by left).
Qed.

(** X1: when add_to_path returns true, the files are untouched, the PATH
    value it leaves starts with the value it found (no entry was dropped,
    changed or moved) and contains the directory as a substring. *)
Theorem add_to_path_true_keeps_entries env d w w' :
  add_to_path env d w = (Ret true, w') ->
  exists s s', reg_path w = Some s /\ reg_path w' = Some s'
    /\ String.prefix s s' = true
    /\ PyStr.contains d s' = true
    /\ fs w' = fs w.
Proof.
  intros Hrun.
  destruct (reg_access env) eqn:Hacc;
    [|by rewrite add_to_path_closed in Hrun by (by left)].
  destruct (reg_path w) as [s|] eqn:Hval;
    [|by rewrite add_to_path_closed in Hrun by (by right)].
  exists s. destruct (PyStr.contains d s) eqn:Hin.
  - rewrite (add_to_path_present env d w s) in Hrun by done.
    injection Hrun as <-. exists s. split; [done|]. split; [done|].
    split; [apply prefix_refl|done].
  - rewrite (add_to_path_absent env d w s) in Hrun by done.
    exists (s +:+ ";" +:+ d).
    destruct (user32_ok env); [destruct (windows env)|]; try discriminate.
    injection Hrun as <-. split; [done|]. split; [done|].
    split; [apply prefix_app|]. split; [apply contains_appended|done].
Qed.

Lemma add_to_path_true_witness :
  exists s', reg_path (add_to_path Scenario.setup Scenario.root Scenario.fresh).2 = Some s'
    /\ PyStr.contains Scenario.root s' = true.
Proof.
  destruct (add_to_path_true_keeps_entries Scenario.setup Scenario.root Scenario.fresh
              (add_to_path Scenario.setup Scenario.root Scenario.fresh).2)
    as (s & s' & _ & Hval & _ & Hin & _).
  - vm_compute. reflexivity.
  - by exists s'.
Defined.

(** X2: a directory without a semicolon that is not a substring of the PATH
    value is appended by add_to_path as a segment of its own, and
    remove_from_path then stores the value that was there before the two
    calls. *)
Theorem path_round_trip env d w s :
  reg_access env = true ->
  user32_ok env = true ->
  windows env = Responsive ->
  reg_path w = Some s ->
  PyStr.contains d s = false ->
  free_of ";" d ->
  exists w1 w2,
    add_to_path env d w = (Ret true, w1)
    /\ reg_path w1 = Some (s +:+ ";" +:+ d)
    /\ d ∈ PyStr.split ";" (s +:+ ";" +:+ d)
    /\ remove_from_path env d w1 = (Ret true, w2)
    /\ reg_path w2 = Some s
    /\ fs w2 = fs w.
Proof.
  intros Hacc Huser Hwin Hval Hin Hfree.
  pose proof (add_to_path_absent env d w s Hacc Hval Hin) as Hadd.
  cbv zeta in Hadd. rewrite Huser, Hwin in Hadd.
  eexists. 
  destruct (remove_from_path_run env d
              (emit (Print ("Added " +:+ d +:+ " to system PATH"))
                 (emit (SendMessageW HWND_BROADCAST WM_SETTINGCHANGE "Environment")
                    (set_reg_path (Some (s +:+ ";" +:+ d)) w)))
              (s +:+ ";" +:+ d) Hacc eq_refl) as (w2 & Hrem & Hreg & Hfs).
  exists w2. split; [exact Hadd|]. split; [done|].
  assert (Hsplit : PyStr.split ";" (s +:+ ";" +:+ d) = PyStr.split ";" s ++ [d]).
  { by apply (split_appended ";"). }
  split; [rewrite Hsplit; apply elem_of_app; right; by left|].
  split; [done|]. split; [|done].
  rewrite Hreg. f_equal. unfold without. rewrite Hsplit, filter_app.
  rewrite (filter_cons_False _ d []) by (intros Hne; by apply Hne).
  rewrite filter_nil, app_nil_r.
  rewrite filter_all_id; [apply (join_split ";")|].
  apply Forall_forall. intros seg Hseg ->.
  apply (segment_contained ";") in Hseg. congruence.
Qed.

Lemma path_round_trip_witness :
  exists w1 w2,
    add_to_path Scenario.setup Scenario.root Scenario.fresh = (Ret true, w1)
    /\ remove_from_path Scenario.setup Scenario.root w1 = (Ret true, w2)
    /\ reg_path w2 = reg_path Scenario.fresh.
Proof.
  destruct (path_round_trip Scenario.setup Scenario.root Scenario.fresh
              "C:\Windows;C:\Windows\System32")
    as (w1 & w2 & Hadd & _ & _ & Hrem & Hreg & _).
  - reflexivity.
  - reflexivity.
  - reflexivity.
  - reflexivity.
  - vm_compute. reflexivity.
  - vm_compute. repeat split; discriminate.
  - exists w1, w2. split; [exact Hadd|]. split; [exact Hrem|exact Hreg].
Defined.

(** X3: when the key cannot be opened, or has no PATH value, add_to_path
    and remove_from_path both return false after one line of output, and
    leave the files and the PATH value as they were. *)
Theorem path_operations_closed_registry env d w :
  reg_access env = false \/ reg_path w = None ->
  add_to_path env d w = (Ret false, emit (Print "Failed to add to PATH: ") w)
  /\ remove_from_path env d w = (Ret false, emit (Print "Failed to remove from PATH: ") w)
  /\ untouched w (add_to_path env d w).2
  /\ untouched w (remove_from_path env d w).2.
Proof.
  intros Hno.
  assert (Hrem : remove_from_path env d w
                 = (Ret false, emit (Print "Failed to remove from PATH: ") w)).
  { unfold remove_from_path, try_except, bind, OpenKey, QueryValueEx.
    destruct (reg_access env); [|done]. destruct Hno as [?| ->]; done. }
  rewrite Hrem, (add_to_path_closed env d w Hno). done.
Qed.

Lemma path_operations_closed_witness :
  add_to_path Scenario.setup Scenario.root (set_reg_path None Scenario.fresh)
  = (Ret false, emit (Print "Failed to add to PATH: ") (set_reg_path None Scenario.fresh)).
Proof.
  refine (proj1 (path_operations_closed_registry Scenario.setup Scenario.root
                   (set_reg_path None Scenario.fresh) _)).
  right. reflexivity.
Defined.

(** X4: when the broadcast call itself fails, add_to_path has already
    written the new PATH value and reports failure, while remove_from_path
    prints a warning, reports success and has written its value too. *)
Theorem failed_broadcast_after_write env d w s :
  reg_access env = true ->
  user32_ok env = false ->
  reg_path w = Some s ->
  PyStr.contains d s = false ->
  (exists w', add_to_path env d w = (Ret false, w')
     /\ reg_path w' = Some (s +:+ ";" +:+ d)
     /\ trace w' = trace w ++ [Print "Failed to add to PATH: "])
  /\ (exists w', remove_from_path env d w = (Ret true, w')
     /\ reg_path w' = Some (without d s)
     /\ trace w' = trace w
          ++ [Print "Warning: Failed to broadcast environment change (non-fatal): ";
              Print ("Removed " +:+ d +:+ " from system PATH")]).
Proof.
  intros Hacc Huser Hval Hin. split.
  - eexists. split.
    + rewrite (add_to_path_absent env d w s Hacc Hval Hin). cbv zeta. by rewrite Huser.
    + done.
  - eexists. split.
    + unfold remove_from_path, try_except, bind, OpenKey, QueryValueEx, SetValueEx,
        send_message_timeout, print, ret.
      rewrite Hacc, Hval. cbn. rewrite Huser. cbn. reflexivity.
    + split; [done|]. cbn. by rewrite <- app_assoc.
Qed.

Lemma failed_broadcast_witness :
  exists w', add_to_path (Cases.no_user32 Scenario.setup) Scenario.root Scenario.fresh
             = (Ret false, w')
    /\ reg_path w' = Some ("C:\Windows;C:\Windows\System32" +:+ ";" +:+ Scenario.root).
Proof.
  destruct (failed_broadcast_after_write (Cases.no_user32 Scenario.setup) Scenario.root
              Scenario.fresh "C:\Windows;C:\Windows\System32")
    as [(w' & Hrun & Hreg & _) _].
  - reflexivity.
  - reflexivity.
  - reflexivity.
  - vm_compute. reflexivity.
  - exists w'. split; [exact Hrun|exact Hreg].
Defined.

(** ** Relations the file operations cannot break *)

Section Ignoring.
Context {R : World -> World -> Prop} `{!Frame R} `{!IgnoresFiles R}.

Lemma mkdir_p_ignored env d : preserves R (mkdir_p env d).
Proof.
  intros w. unfold mkdir_p. repeat case_match; simpl;
    solve [apply frame_refl | apply ignores_files].
Qed.

Lemma write_file_ignored p data : preserves R (write_file p data).
Proof.
  intros w. unfold write_file. repeat case_match; simpl;
    solve [apply frame_refl | apply ignores_files].
Qed.

Lemma copy2_ignored src dst : preserves R (copy2 src dst).
Proof.
  intros w. unfold copy2. repeat case_match; simpl;
    solve [apply frame_refl | apply ignores_files].
Qed.

Lemma unlink_ignored p : preserves R (unlink p).
Proof.
  intros w. unfold unlink. repeat case_match; simpl;
    solve [apply frame_refl | apply ignores_files].
Qed.

Lemma rmdir_ignored d : preserves R (rmdir d).
Proof.
  intros w. unfold rmdir. repeat case_match; simpl;
    solve [apply frame_refl | apply ignores_files].
Qed.

End Ignoring.

#[export] Hint Resolve mkdir_p_ignored write_file_ignored copy2_ignored unlink_ignored
  rmdir_ignored : frame.

#[export] Instance same_path_frame : Frame same_path.
Proof.
  split; unfold same_path.
  - done.
  - intros w1 w2 w3 H12 H23. by rewrite H23.
  - done.
  - done.
Qed.

#[export] Instance same_path_ignores : IgnoresFiles same_path.
Proof. intros w f. done. Qed.

#[export] Instance stays_settled_frame env d : Frame (stays_settled env d).
Proof.
  split; unfold stays_settled.
  - done.
  - intros w1 w2 w3 H12 H23 Hs. rewrite H23; [by apply H12|]. by rewrite H12.
  - done.
  - done.
Qed.

#[export] Instance stays_settled_ignores env d : IgnoresFiles (stays_settled env d).
Proof. intros w f Hs. done. Qed.

#[export] Instance confined_frame d : Frame (confined d).
Proof.
  split; unfold confined.
  - done.
  - intros w1 w2 w3 [Hr12 He12] [Hr23 He23]. split; [by rewrite Hr23|].
    intros p Hp. rewrite He23 by done. by apply He12.
  - done.
  - done.
Qed.

(** ** What install does outside its directory *)







Lemma files_to_extract_in_dir d : Forall (fun ft => ft.2.1 = d) (files_to_extract d).
Proof. unfold files_to_extract. simpl. by repeat constructor. Qed.

(** The relation between the worlds around a step that is known to have
    run, from what the step preserves. *)
Ltac related R H K :=
  match type of H with
  | ?m ?w = (_, ?w') =>
      assert (K : R w w');
      [ let P := fresh in
        assert (P : preserves R m) by frame;
        specialize (P w); rewrite H in P; exact P
      | ]
  end.

Lemma same_entry_same_file w w' p : entry w' p = entry w p -> same_file w w' p.
Proof. intros He data. by rewrite He. Qed.




(** The run of the witness: ruping.exe was extracted, the uninstaller is in
    no source, and ruping.exe is left where it was put. *)
Example failed_install_leaves_exe :
  install Scenario.setup (Some Scenario.root) false true Cases.half_bundle
  = (Ret false, (install Scenario.setup (Some Scenario.root) false true Cases.half_bundle).2)
  /\ entry (install Scenario.setup (Some Scenario.root) false true Cases.half_bundle).2
           (Scenario.root, "ruping.exe") = Some (File "MZ ruping")
  /\ last (trace (install Scenario.setup (Some Scenario.root) false true Cases.half_bundle).2)
     = Some (Print "ERROR: Failed to extract ruping-uninstaller.exe").
Proof. vm_compute. done. Qed.

(** ** The first steps of install *)

Lemma same_fs_same_entries w w' : fs w' = fs w -> forall p, entry w' p = entry w p.
Proof. intros Hfs p. unfold entry. by rewrite Hfs. Qed.

Lemma bundle_miss_same_entries env w w' name :
  (forall p, entry w' p = entry w p) -> bundle_miss env w name -> bundle_miss env w' name.
Proof. unfold bundle_miss. intros He. destruct (meipass env); [|done]. by rewrite He. Qed.

Lemma when_print_run silent line w :
  exists w', when (negb silent) (print line) w = (Ret tt, w')
    /\ fs w' = fs w /\ reg_path w' = reg_path w /\ stdin w' = stdin w.
Proof. destruct silent; cbn [negb when]; eexists; split; done. Qed.

(** The creation of the installation directory. *)
Lemma create_dir_run env d w :
  exists created w',
    try_except (mkdir_p env d;; ret true)
               (print "ERROR: Failed to create installation directory: ";; ret false) w
    = (Ret created, w')
    /\ (forall p, entry w' p = entry w p)
    /\ reg_path w' = reg_path w /\ stdin w' = stdin w.
Proof.
  unfold try_except, bind, mkdir_p, ret, print.
  destruct (fs w !! d) as [m|] eqn:Hd.
  - by exists true, w.
  - destruct (creatable env d).
    + eexists true, _. split; [done|]. split; [|done].
      intros p. rewrite entry_set_dir. case_decide as Hp; [|done].
      subst d. rewrite lookup_empty. by rewrite entry_no_dir.
    + by eexists false, _.
Qed.

Lemma embedded_exe_is_empty : EMBEDDED_FILES !! exe_name = Some "".
Proof. vm_compute. reflexivity. Qed.

(** X6: the embedded table has no content for ruping.exe and a name in the
    table is never searched locally, so ruping.exe can only come from a
    bundle: run elevated without a bundle, or from a bundle that lacks
    ruping.exe, install returns false whatever files lie next to the program,
    and it has deployed nothing: no regular file was created or changed (the
    installation directory itself may have been created), and the PATH value
    and the input are left alone. *)
Theorem install_needs_bundled_exe env install_path no_path silent w :
  is_admin env = true ->
  bundle_miss env w exe_name ->
  exists w', install env install_path no_path silent w = (Ret false, w')
    /\ (forall p, same_file w w' p)
    /\ reg_path w' = reg_path w
    /\ stdin w' = stdin w.
Proof.
  intros Hadmin Hmiss. unfold install.
  set (d := install_dir_of env install_path).
  rewrite (bind_ret_eq _ _ _ _ _ (require_admin_granted env _ w Hadmin)). cbv beta.
  destruct (banner_run silent
              ["RuPing Standalone Installer"; "==========================="; ""] w)
    as (w1 & H1 & Hfs1 & Hreg1 & Hin1).
  rewrite (bind_ret_eq _ _ _ _ _ H1). cbv beta.
  destruct (when_print_run silent ("Installing to: " +:+ d) w1)
    as (w2 & H2 & Hfs2 & Hreg2 & Hin2).
  rewrite (bind_ret_eq _ _ _ _ _ H2). cbv beta.
  destruct (create_dir_run env d w2) as (created & w3 & H3 & He3 & Hreg3 & Hin3).
  rewrite (bind_ret_eq _ _ _ _ _ H3). cbv beta.
  assert (He : forall p, entry w3 p = entry w p).
  { intros p. rewrite He3. rewrite (same_fs_same_entries w1 w2 Hfs2).
    by apply same_fs_same_entries. }
  assert (Hreg : reg_path w3 = reg_path w) by congruence.
  assert (Hin : stdin w3 = stdin w) by congruence.
  destruct created; cbn [negb].
  - assert (Hx : extract_embedded_file env exe_name (d, exe_name) w3 = (Ret false, w3)).
    { rewrite (extract_after_bundle_miss env exe_name (d, exe_name) w3)
        by (by apply (bundle_miss_same_entries env w)).
      by rewrite embedded_exe_is_empty. }
    assert (Hall : extract_all env silent (files_to_extract d) w3
                   = (Ret false, emit (Print ("ERROR: Failed to extract " +:+ exe_name)) w3)).
    { cbn [files_to_extract app extract_all].
      rewrite (bind_ret_eq _ _ _ _ _ Hx). reflexivity. }
    rewrite (bind_ret_eq _ _ _ _ _ Hall). cbv beta. cbn [negb].
    eexists. split; [reflexivity|]. split; [|done].
    intros p. apply same_entry_same_file. apply He.
  - exists w3. split; [done|]. split; [|done].
    intros p. apply same_entry_same_file. apply He.
Qed.

Lemma install_needs_bundled_exe_witness :
  exists w', install (Cases.as_script Scenario.setup) (Some Scenario.root) false true
               Cases.checkout = (Ret false, w')
    /\ reg_path w' = reg_path Cases.checkout.
Proof.
  destruct (install_needs_bundled_exe (Cases.as_script Scenario.setup) (Some Scenario.root)
              false true Cases.checkout) as (w' & Hrun & _ & Hreg & _).
  - reflexivity.
  - exact I.
  - exists w'. split; [exact Hrun|exact Hreg].
Defined.

(** ** install and the PATH value *)

Section InstallIgnoring.
Context {R : World -> World -> Prop} `{!Frame R} `{!IgnoresFiles R}.

Lemma copy_first_local_ignored env candidates target :
  preserves R (copy_first_local env candidates target).
Proof. induction candidates; simpl; frame. Qed.

Lemma extract_embedded_file_ignored env filename target :
  preserves R (extract_embedded_file env filename target).
Proof.
  pose proof (copy_first_local_ignored env (local_paths env filename) target).
  unfold extract_embedded_file. frame.
Qed.

Lemma extract_all_ignored env silent files : preserves R (extract_all env silent files).
Proof.
  pose proof extract_embedded_file_ignored.
  induction files as [|[f t] rest IH]; simpl; frame.
Qed.

Lemma create_start_menu_shortcut_ignored env d : preserves R (create_start_menu_shortcut env d).
Proof. unfold create_start_menu_shortcut. frame. Qed.

Lemma save_install_info_ignored env d : preserves R (save_install_info env d).
Proof. unfold save_install_info. frame. Qed.

End InstallIgnoring.

#[export] Hint Resolve extract_all_ignored create_start_menu_shortcut_ignored
  save_install_info_ignored : frame.

Lemma install_no_path_same_path env install_path silent :
  preserves same_path (install env install_path true silent).
Proof. unfold install. cbn [negb]. frame. Qed.

(** X7: with no_path set, install leaves the PATH value as it is, however
    the run ends. *)
Theorem install_no_path_keeps_path env install_path silent w :
  reg_path (install env install_path true silent w).2 = reg_path w.
Proof. apply install_no_path_same_path. Qed.

Lemma add_to_path_stays_settled env d : preserves (stays_settled env d) (add_to_path env d).
Proof. intros w Hs. by apply add_to_path_when_settled. Qed.

Lemma install_stays_settled env install_path no_path silent :
  preserves (stays_settled env (install_dir_of env install_path))
            (install env install_path no_path silent).
Proof.
  pose proof (add_to_path_stays_settled env (install_dir_of env install_path)).
  unfold install. frame.
Qed.

(** X8: after an install that returned true, running the same install
    again leaves the PATH value as the first run left it, however the
    second run ends: the directory is not appended a second time. *)
Theorem install_again_keeps_path env install_path no_path silent w0 w1 :
  install env install_path no_path silent w0 = (Ret true, w1) ->
  reg_path (install env install_path no_path silent w1).2 = reg_path w1.
Proof.
  intros Hrun. destruct no_path; [apply install_no_path_same_path|].
  apply install_stays_settled.
  set (d := install_dir_of env install_path).
  unfold install in Hrun. fold d in Hrun.
  apply bind_inv_ret in Hrun; destruct Hrun as ([] & w2 & _ & Hrun).
  apply bind_inv_ret in Hrun; destruct Hrun as ([] & w3 & _ & Hrun).
  apply bind_inv_ret in Hrun; destruct Hrun as ([] & w4 & _ & Hrun).
  apply bind_inv_ret in Hrun; destruct Hrun as (created & w5 & _ & Hrun).
  destruct created; [|done]. cbn [negb] in Hrun.
  apply bind_inv_ret in Hrun; destruct Hrun as (extracted & w6 & _ & Hrun).
  destruct extracted; [|done]. cbn [negb] in Hrun.
  apply bind_inv_ret in Hrun; destruct Hrun as ([] & w7 & Hadd & Hrun).
  apply bind_inv_ret in Hadd; destruct Hadd as (added & w8 & Hadd & Hret).
  injection Hret as ->.
  pose proof (add_to_path_settles env d w6) as Hs. rewrite Hadd in Hs.
  related same_path Hrun K. unfold same_path in K. by rewrite K.
Qed.

Lemma install_again_witness :
  reg_path (install Scenario.setup (Some Scenario.root) false true Scenario.installed).2
  = reg_path Scenario.installed.
Proof.
  refine (install_again_keeps_path Scenario.setup (Some Scenario.root) false true
            Scenario.fresh Scenario.installed _).
  vm_compute. reflexivity.
Defined.

(** ** The ledger install leaves *)

Lemma save_install_info_result env d w :
  let w' := (save_install_info env d w).2 in
  fs w' !! d <> None ->
  entry w' (d, install_info_file) <> Some SubDir ->
  entry w' (d, install_info_file) = Some (File (json_dump env (install_info d))).
Proof.
  unfold save_install_info, try_except, bind, write_file, print. cbn [fst snd].
  destruct (fs w !! d) as [m|] eqn:Hd; cbn.
  - destruct (m !! install_info_file) as [[old|]|] eqn:Hm; cbn.
    + intros _ _. unfold entry. cbn. rewrite lookup_insert_eq. cbn. apply lookup_insert_eq.
    + intros _ Hnot. exfalso. apply Hnot. unfold entry. cbn. rewrite Hd. cbn. exact Hm.
    + intros _ _. unfold entry. cbn. rewrite lookup_insert_eq. cbn. apply lookup_insert_eq.
  - intros Hthere. by rewrite Hd in Hthere.
Qed.

(** X9: after an install that returned true, install_info.json in the
    installation directory holds the serialized record of that directory,
    the version, the aliases and the six installed file names, unless a
    directory of that name is in the way. *)
Theorem install_leaves_ledger env install_path no_path silent w w1 :
  install env install_path no_path silent w = (Ret true, w1) ->
  entry w1 (install_dir_of env install_path, install_info_file) <> Some SubDir ->
  entry w1 (install_dir_of env install_path, install_info_file)
  = Some (File (json_dump env (install_info (install_dir_of env install_path)))).
Proof.
  intros Hrun Hnot.
  assert (Hdir : is_Some (fs w1 !! install_dir_of env install_path)).
  { apply (entry_dir_exists w1 (install_dir_of env install_path, exe_name)).
    eapply (install_true_deployed _ _ _ _ _ _ Hrun exe_name).
    unfold files_to_extract. apply list_elem_of_here. }
  set (d := install_dir_of env install_path) in *.
  unfold install in Hrun. fold d in Hrun.
  apply bind_inv_ret in Hrun; destruct Hrun as ([] & w2 & _ & Hrun).
  apply bind_inv_ret in Hrun; destruct Hrun as ([] & w3 & _ & Hrun).
  apply bind_inv_ret in Hrun; destruct Hrun as ([] & w4 & _ & Hrun).
  apply bind_inv_ret in Hrun; destruct Hrun as (created & w5 & _ & Hrun).
  destruct created; [|done]. cbn [negb] in Hrun.
  apply bind_inv_ret in Hrun; destruct Hrun as (extracted & w6 & _ & Hrun).
  destruct extracted; [|done]. cbn [negb] in Hrun.
  apply bind_inv_ret in Hrun; destruct Hrun as ([] & w7 & _ & Hrun).
  apply bind_inv_ret in Hrun; destruct Hrun as (? & w8 & _ & Hrun).
  apply bind_inv_ret in Hrun; destruct Hrun as ([] & w9 & Hsave & Hrun).
  apply bind_inv_ret in Hrun; destruct Hrun as ([] & w10 & Hprints & Hrun).
  injection Hrun as <-.
  match type of Hprints with
  | when (negb silent) (print_all ?lines) w9 = _ =>
      destruct (banner_run silent lines w9) as (w' & Hb & Hfs & _)
  end.
  rewrite Hb in Hprints. injection Hprints as <-.
  pose proof (save_install_info_result env d w8) as Hres. rewrite Hsave in Hres.
  cbn [snd] in Hres.
  rewrite (same_fs_same_entries w9 w' Hfs) in *.
  apply Hres; [|done]. rewrite <- Hfs. by destruct Hdir as [? ->].
Qed.

Lemma install_leaves_ledger_witness :
  entry Scenario.installed (Scenario.root, install_info_file)
  = Some (File (Scenario.render (install_info Scenario.root))).
Proof.
  refine (install_leaves_ledger Scenario.setup (Some Scenario.root) false true
            Scenario.fresh Scenario.installed _ _).
  - vm_compute. reflexivity.
  - vm_compute. discriminate.
Defined.

(** ** What uninstall can reach *)

#[export] Instance spares_frame allowed : Frame (spares allowed).
Proof.
  split; unfold spares.
  - done.
  - intros w1 w2 w3 H12 H23 p Hp. rewrite H23 by done. auto.
  - done.
  - done.
Qed.

#[export] Instance spares_files allowed : FilesOnly (spares allowed).
Proof. intros w v p. done. Qed.

Lemma unlink_spares (allowed : path -> Prop) p :
  allowed p -> preserves (spares allowed) (unlink p).
Proof.
  intros Hp w q Hq. unfold unlink. destruct (fs w !! p.1) as [m|] eqn:Hd; simpl; [|done].
  destruct (m !! p.2) as [[|]|] eqn:Hn; simpl; try done.
  rewrite entry_set_dir. case_decide as Hd'; [|done].
  rewrite (entry_in_dir w q m) by congruence.
  apply lookup_delete_ne. intros Heq. apply Hq.
  by replace q with p by (destruct p, q; simpl in *; congruence).
Qed.

Lemma rmdir_spares allowed d : preserves (spares allowed) (rmdir d).
Proof.
  intros w q Hq. unfold rmdir. destruct (fs w !! d) as [m|] eqn:Hd; simpl; [|done].
  case_decide as Hm; simpl; [|done].
  rewrite entry_delete_dir. case_decide as Hd'; [|done].
  subst. rewrite (entry_in_dir w q ∅) by done. by rewrite lookup_empty.
Qed.

#[export] Hint Resolve rmdir_spares : frame.

Lemma remove_shortcuts_spares (allowed : path -> Prop) menu names removed :
  (forall n, n ∈ names -> allowed (menu, n)) ->
  preserves (spares allowed) (remove_shortcuts menu names removed).
Proof.
  revert removed. induction names as [|n rest IH]; intros removed Hall; simpl; frame.
  all: first [ apply unlink_spares; apply Hall; by left
             | apply IH; intros x Hx; apply Hall; by right ].
Qed.

Lemma remove_start_menu_shortcut_spares env d info :
  preserves (spares (uninstall_reach env d info)) (remove_start_menu_shortcut env).
Proof.
  unfold remove_start_menu_shortcut.
  apply preserves_try_except; [|frame].
  unfold start_menu. destruct (PROGRAMDATA env) as [programdata|] eqn:Hpd;
    [|intros w; apply frame_refl].
  rewrite bind_ret_l. apply remove_shortcuts_spares.
  intros n Hn. right. by exists programdata.
Qed.

Lemma remove_files_spares (allowed : path -> Prop) silent d files k :
  (forall n, n ∈ listed_names files -> allowed (d, n)) ->
  preserves (spares allowed) (remove_files silent d files k).
Proof.
  revert k. induction files as [|f rest IH]; intros k Hall; [simpl; frame|].
  destruct f; cbn [remove_files]; try (by frame).
  cbn [listed_names] in Hall. frame.
  all: first [ apply unlink_spares; apply Hall; by left
             | apply IH; intros x Hx; apply Hall; by right ].
Qed.

Lemma remove_dir_if_empty_spares allowed silent d :
  preserves (spares allowed) (remove_dir_if_empty silent d).
Proof. unfold remove_dir_if_empty. frame. Qed.

Lemma uninstall_apply_spares env silent d info :
  preserves (spares (uninstall_reach env d info)) (uninstall_apply env silent d info).
Proof.
  pose proof (remove_dir_if_empty_spares (uninstall_reach env d info) silent d).
  unfold uninstall_apply.
  apply preserves_bind; [frame|intros _].
  apply preserves_bind; [apply remove_start_menu_shortcut_spares|intros _].
  destruct (py_iter (files_to_remove info)) as [files|] eqn:Hfiles;
    [|intros w; apply frame_refl].
  rewrite bind_ret_l.
  apply preserves_bind; [|intros n; frame].
  apply remove_files_spares. intros n Hn. left. split; [done|].
  unfold deletable. by rewrite Hfiles.
Qed.

(** X10: once uninstall has found the directory [d] and the ledger [info],
    whose file names are plain names, the only regular files it can delete
    or change, however the run ends, are those in [d] under a name of its
    deletion list and the two shortcut names in the start menu directory:
    every other regular file, in [d] or elsewhere, is as it was, and none
    has appeared. *)
Theorem uninstall_spares_the_rest env install_path silent w d info w1 :
  uninstall_prelude env install_path silent w = (Ret (Some (d, info)), w1) ->
  forallb plain_name (deletable info) = true ->
  forall p, ~ uninstall_reach env d info p ->
  same_file w (uninstall env install_path silent w).2 p.
Proof.
  intros Hpre _ p Hp. apply same_entry_same_file. revert p Hp.
  change (spares (uninstall_reach env d info) w (uninstall env install_path silent w).2).
  unfold uninstall. rewrite (bind_ret_eq _ _ _ _ _ Hpre). cbv beta iota.
  eapply frame_trans.
  - pose proof (uninstall_prelude_preserves (R:=spares (uninstall_reach env d info))
                  env install_path silent w) as H. rewrite Hpre in H. exact H.
  - pose proof (uninstall_apply_spares env silent d info).
    match goal with
    | |- spares _ _ (?m w1).2 =>
        assert (Hm : preserves (spares (uninstall_reach env d info)) m) by frame
    end.
    apply Hm.
Qed.

Lemma uninstall_spares_witness :
  same_file Scenario.installed
    (uninstall Scenario.remover None true Scenario.installed).2
    (Scenario.bundle, "ruping.exe").
Proof.
  refine (uninstall_spares_the_rest Scenario.remover None true Scenario.installed
            Scenario.root
            (Some [ ("install_path", JStr Scenario.root);
                    ("version", JStr "0.1.0");
                    ("aliases", JArr (map JStr aliases));
                    ("installed_files", JArr (map JStr installed_files)) ])
            (uninstall_prelude Scenario.remover None true Scenario.installed).2 _ _
            (Scenario.bundle, "ruping.exe") _).
  - vm_compute. reflexivity.
  - vm_compute. reflexivity.
  - intros [[Hd _]|(pd & Hpd & Hm & _)].
    + vm_compute in Hd. discriminate.
    + vm_compute in Hpd. injection Hpd as <-. vm_compute in Hm. discriminate.
Defined.

(** ** An uninstall that is driven by the ledger *)

Lemma find_installation_ledger env w text members p :
  entry w (current_dir env, install_info_file) = Some (File text) ->
  json_load env text = Some (JObj members) ->
  dict_get "install_path" members = Some (JStr p) ->
  find_installation env w = (Ret (Some (Path p), Some members), w).
Proof.
  intros Hfile Hload Hkey. unfold find_installation.
  unfold bind at 1. unfold path_exists at 1. rewrite Hfile.
  rewrite bool_decide_eq_true_2 by eauto.
  unfold bind at 1. unfold try_except, read_ledger.
  unfold bind at 1. unfold bind at 1. unfold read_file. rewrite Hfile, Hload, Hkey.
  reflexivity.
Qed.

Lemma uninstall_prelude_ledger env silent w text members p :
  is_admin env = true ->
  entry w (current_dir env, install_info_file) = Some (File text) ->
  json_load env text = Some (JObj members) ->
  dict_get "install_path" members = Some (JStr p) ->
  is_Some (fs w !! Path p) ->
  exists w1, uninstall_prelude env None silent w = (Ret (Some (Path p, Some members)), w1)
    /\ fs w1 = fs w /\ reg_path w1 = reg_path w /\ stdin w1 = stdin w.
Proof.
  intros Hadmin Hfile Hload Hkey Hdir.
  unfold uninstall_prelude.
  rewrite (bind_ret_eq _ _ _ _ _ (require_admin_granted env _ w Hadmin)). cbv beta.
  destruct (banner_run silent
              ["RuPing Standalone Uninstaller"; "============================="; ""] w)
    as (wb & Hb & Hfs & Hreg & Hin).
  rewrite (bind_ret_eq _ _ _ _ _ Hb). cbv beta.
  unfold locate_installation.
  assert (Hfile' : entry wb (current_dir env, install_info_file) = Some (File text)).
  { unfold entry. rewrite Hfs. exact Hfile. }
  rewrite (bind_ret_eq _ _ _ _ _
             (find_installation_ledger env wb text members p Hfile' Hload Hkey)).
  cbv beta iota.
  assert (Hd : dir_exists (Path p) wb = (Ret true, wb)).
  { unfold dir_exists. rewrite bool_decide_eq_true_2; [done|]. by rewrite Hfs. }
  rewrite (bind_ret_eq _ _ _ _ _ Hd). cbv beta. cbn [negb].
  by exists wb.
Qed.

Lemma confirm_uninstall_goes_on d silent w :
  silent = true \/ (exists answer rest, stdin w = answer :: rest /\ is_yes answer = true) ->
  exists w', confirm_uninstall d silent w = (Ret true, w')
    /\ fs w' = fs w /\ reg_path w' = reg_path w.
Proof.
  intros [->|(answer & rest & Hin & Hyes)].
  - by exists w.
  - destruct silent; [by exists w|].
    eexists. split; [by apply (confirm_uninstall_accepted d w answer rest)|done].
Qed.

Lemma remove_dir_if_empty_result silent d w :
  fs (remove_dir_if_empty silent d w).2 !! d <> Some ∅.
Proof.
  unfold remove_dir_if_empty, try_except, bind, any_iterdir, rmdir.
  destruct (fs w !! d) as [m|] eqn:Hd; cbn.
  - case_bool_decide as Hm; cbn.
    + rewrite Hd. rewrite decide_True by done. destruct silent; cbn;
        by rewrite lookup_delete_eq.
    + destruct silent; cbn; rewrite Hd; congruence.
  - by rewrite Hd.
Qed.

Lemma remove_start_menu_shortcut_same_path env :
  preserves same_path (remove_start_menu_shortcut env).
Proof.
  assert (Hloop : forall menu names removed,
             preserves same_path (remove_shortcuts menu names removed)).
  { intros menu names. induction names; intros removed; simpl; frame. }
  unfold remove_start_menu_shortcut.
  apply preserves_try_except; [|frame].
  apply preserves_bind; [frame|intros menu]. apply Hloop.
Qed.

Lemma remove_files_same_path silent d files k :
  preserves same_path (remove_files silent d files k).
Proof.
  revert k. induction files as [|f rest IH]; intros k; simpl; [frame|].
  destruct f; frame.
Qed.

Lemma remove_dir_if_empty_same_path silent d :
  preserves same_path (remove_dir_if_empty silent d).
Proof. unfold remove_dir_if_empty. frame. Qed.

(** With a list of names, the steps after the confirmation all return. *)
Lemma uninstall_apply_listed env silent d info names w :
  files_to_remove info = JArr (map JStr names) ->
  exists w', uninstall_apply env silent d info w = (Ret true, w')
    /\ (forall n, n ∈ names -> not_file w' (d, n))
    /\ fs w' !! d <> Some ∅
    /\ reg_path w' = reg_path (remove_from_path env d w).2.
Proof.
  intros Hlist. unfold uninstall_apply. rewrite Hlist. cbn [py_iter].
  destruct (remove_from_path_returns env d w) as (b1 & w1 & H1).
  rewrite (bind_ret_eq _ _ _ _ _ H1). cbv beta.
  destruct (remove_start_menu_shortcut_returns env w1) as (b2 & w2 & H2).
  rewrite (bind_ret_eq _ _ _ _ _ H2). cbv beta.
  rewrite bind_ret_l.
  destruct (remove_files_returns silent d names 0%nat w2) as (r & w3 & H3).
  rewrite (bind_ret_eq _ _ _ _ _ H3). cbv beta.
  destruct (remove_dir_if_empty_returns silent d w3) as ([] & w4 & H4).
  rewrite (bind_ret_eq _ _ _ _ _ H4). cbv beta.
  match goal with
  | |- context [when (negb silent) (print_all ?lines)] =>
      destruct (banner_run silent lines w4) as (w5 & H5 & Hfs5 & Hreg5 & _)
  end.
  rewrite (bind_ret_eq _ _ _ _ _ H5). cbv beta.
  exists w5. split; [done|]. split; [|split].
  - intros n Hn data. rewrite (same_fs_same_entries w4 w5 Hfs5).
    revert data. eapply shrinks_not_file.
    + pose proof (remove_dir_if_empty_shrinks silent d w3) as Hs4. rewrite H4 in Hs4.
      exact Hs4.
    + pose proof (remove_files_not_file silent d names 0%nat w2 n Hn) as Hnf.
      by rewrite H3 in Hnf.
  - rewrite Hfs5. pose proof (remove_dir_if_empty_result silent d w3) as Hr.
    by rewrite H4 in Hr.
  - rewrite H1. cbn [snd].
    pose proof (remove_start_menu_shortcut_same_path env w1) as K2. rewrite H2 in K2.
    pose proof (remove_files_same_path silent d (map JStr names) 0%nat w2) as K3.
    rewrite H3 in K3.
    pose proof (remove_dir_if_empty_same_path silent d w3) as K4. rewrite H4 in K4.
    unfold same_path in *. cbn [snd] in *. congruence.
Qed.

(** X11: run elevated from a directory whose install_info.json parses to
    an object with a string install_path naming an existing directory and a
    list of plain file names, by a program that is not an executable image
    inside that directory, a silent or confirmed uninstall returns true; no
    name of the list is a regular file of that directory afterwards; the
    directory is gone or not empty; and where the key opens, the PATH value
    is the old one without the segments equal to the directory. *)
Theorem ledger_driven_uninstall env silent w text members p names :
  is_admin env = true ->
  runs_elsewhere env (Path p) ->
  entry w (current_dir env, install_info_file) = Some (File text) ->
  json_load env text = Some (JObj members) ->
  dict_get "install_path" members = Some (JStr p) ->
  dict_get "installed_files" members = Some (JArr (map JStr names)) ->
  forallb plain_name names = true ->
  is_Some (fs w !! Path p) ->
  (silent = true \/ exists answer rest, stdin w = answer :: rest /\ is_yes answer = true) ->
  exists w', uninstall env None silent w = (Ret true, w')
    /\ (forall n, n ∈ names -> not_file w' (Path p, n))
    /\ fs w' !! Path p <> Some ∅
    /\ (reg_access env = true -> forall s, reg_path w = Some s ->
        reg_path w' = Some (without (Path p) s)).
Proof.
  intros Hadmin _ Hfile Hload Hkey Hlist _ Hdir Hgo.
  destruct (uninstall_prelude_ledger env silent w text members p Hadmin Hfile Hload Hkey Hdir)
    as (w1 & Hpre & Hfs1 & Hreg1 & Hin1).
  unfold uninstall. rewrite (bind_ret_eq _ _ _ _ _ Hpre). cbv beta iota.
  destruct (confirm_uninstall_goes_on (Path p) silent w1) as (w2 & Hc & Hfs2 & Hreg2).
  { destruct Hgo as [?|(answer & rest & Hin & Hyes)]; [by left|].
    right. exists answer, rest. by rewrite Hin1. }
  rewrite (bind_ret_eq _ _ _ _ _ Hc). cbv beta. cbn [negb].
  destruct (uninstall_apply_listed env silent (Path p) (Some members) names w2)
    as (w' & Hrun & Hgone & Hne & Hreg).
  { unfold files_to_remove. destruct members as [|m rest]; [done|]. by rewrite Hlist. }
  exists w'. split; [done|]. split; [done|]. split; [done|].
  intros Hacc s Hs.
  destruct (remove_from_path_run env (Path p) w2 s Hacc) as (w3 & Hrem & Hreg3 & _);
    [congruence|].
  rewrite Hreg, Hrem. exact Hreg3.
Qed.

Lemma ledger_driven_uninstall_witness :
  exists w', uninstall Cases.source_remover None true Cases.with_script = (Ret true, w')
    /\ forall n, n ∈ installed_files -> not_file w' (Scenario.root, n).
Proof.
  destruct (ledger_driven_uninstall Cases.source_remover true Cases.with_script
              (Scenario.render (install_info Scenario.root))
              [ ("install_path", JStr Scenario.root);
                ("version", JStr "0.1.0");
                ("aliases", JArr (map JStr aliases));
                ("installed_files", JArr (map JStr installed_files)) ]
              Scenario.root installed_files) as (w' & Hrun & Hgone & _).
  - reflexivity.
  - by left.
  - vm_compute. reflexivity.
  - vm_compute. reflexivity.
  - reflexivity.
  - reflexivity.
  - vm_compute. reflexivity.
  - by_listing.
  - by left.
  - exists w'. split; [exact Hrun|exact Hgone].
Defined.

(** ** A ledger with a file list that is no list *)

(** The shortcuts that are there are deleted, unless a directory has the
    name of one. *)
Lemma remove_shortcuts_gone menu names : forall removed w,
  (forall n, n ∈ names -> entry w (menu, n) <> Some SubDir) ->
  forall n, n ∈ names -> entry (remove_shortcuts menu names removed w).2 (menu, n) = None.
Proof.
  induction names as [|n0 rest IH]; intros removed w Hfiles n Hn.
  - by apply elem_of_nil in Hn.
  - assert (Hloop : forall removed' w0,
               (forall p, entry w0 p = None \/ entry w0 p = entry w p) ->
               entry w0 (menu, n0) = None ->
               entry (remove_shortcuts menu rest removed' w0).2 (menu, n) = None).
    { intros removed' w0 Hs0 Hn0.
      apply elem_of_cons in Hn as [->|Hn].
      - destruct (remove_shortcuts_shrinks menu rest removed' w0 (menu, n0)) as [->| ->];
          done.
      - apply IH; [|done]. intros n' Hn'.
        destruct (Hs0 (menu, n')) as [->| ->]; [done|]. apply Hfiles. by right. }
    cbn [remove_shortcuts]. unfold bind at 1. unfold path_exists at 1.
    destruct (entry w (menu, n0)) as [x|] eqn:He.
    + rewrite bool_decide_eq_true_2 by eauto.
      destruct (unlink_outcome (menu, n0) w) as [(w1 & Hu & Hnone)|[_ Hnf]].
      * rewrite (bind_ret_eq _ _ _ _ _ Hu). cbv beta.
        rewrite (bind_ret_eq _ _ w1 tt
                   (emit (Print ("Removed start menu shortcut: " +:+ n0)) w1))
          by reflexivity.
        cbv beta. apply Hloop; [|exact Hnone].
        intros q. pose proof (unlink_shrinks (menu, n0) w q) as Hs.
        by rewrite Hu in Hs.
      * exfalso. destruct x as [data|]; [by apply (Hnf data)|].
        apply (Hfiles n0); [by left|done].
    + rewrite bool_decide_eq_false_2 by (by intros [? ?]).
      apply Hloop; [by right|exact He].
Qed.

Lemma remove_start_menu_shortcut_gone env w programdata :
  PROGRAMDATA env = Some programdata ->
  (forall n, n ∈ shortcuts -> entry w (start_menu_of programdata, n) <> Some SubDir) ->
  forall n, n ∈ shortcuts ->
  entry (remove_start_menu_shortcut env w).2 (start_menu_of programdata, n) = None.
Proof.
  intros Hpd Hfiles n Hn.
  pose proof (remove_shortcuts_gone (start_menu_of programdata) shortcuts false w Hfiles n Hn)
    as Hgone.
  unfold remove_start_menu_shortcut, try_except, start_menu. rewrite Hpd.
  rewrite bind_ret_l.
  destruct (remove_shortcuts (start_menu_of programdata) shortcuts false w) as [[b| |c|] w'];
    exact Hgone.
Qed.

(** X12: when the ledger gives something that cannot be iterated for
    installed_files (null, a number, a boolean), a silent or confirmed
    uninstall ends in an exception after it has rewritten the PATH value and
    removed the shortcuts: where PROGRAMDATA is set and no directory has the
    name of a shortcut, neither RuPing.lnk nor RuPing.url is left in the
    start menu directory. Entries under other names than the shortcuts' are
    as they were, and main reports the failure and exits with code 1. *)
Theorem uniterable_file_list_raises env install_path silent w d info w1 :
  uninstall_prelude env install_path silent w = (Ret (Some (d, info)), w1) ->
  (silent = true \/ exists answer rest, stdin w1 = answer :: rest /\ is_yes answer = true) ->
  py_iter (files_to_remove info) = None ->
  exists w', uninstall env install_path silent w = (Raise, w')
    /\ (reg_access env = true -> forall s, reg_path w = Some s ->
        reg_path w' = Some (without d s))
    /\ (forall programdata,
          PROGRAMDATA env = Some programdata ->
          (forall n, n ∈ shortcuts ->
             entry w (start_menu_of programdata, n) <> Some SubDir) ->
          forall n, n ∈ shortcuts -> entry w' (start_menu_of programdata, n) = None)
    /\ keeps shortcuts w w'
    /\ uninstaller_main env install_path silent w
       = (Exit 1, emit (Print "ERROR: Uninstall failed: ") w').
Proof.
  intros Hpre Hgo Hiter.
  assert (K1 : keeps shortcuts w w1).
  { pose proof (uninstall_prelude_preserves (R:=keeps shortcuts) env install_path silent w)
      as K. by rewrite Hpre in K. }
  assert (U : untouched w w1).
  { pose proof (uninstall_prelude_preserves (R:=untouched) env install_path silent w)
      as U. by rewrite Hpre in U. }
  destruct (confirm_uninstall_goes_on d silent w1 Hgo) as (w2 & Hc & Hfs2 & Hreg2).
  destruct (remove_from_path_returns env d w2) as (b1 & w3 & H3).
  destruct (remove_start_menu_shortcut_returns env w3) as (b2 & w4 & H4).
  assert (Hrun : uninstall env install_path silent w = (Raise, w4)).
  { unfold uninstall. rewrite (bind_ret_eq _ _ _ _ _ Hpre). cbv beta iota.
    rewrite (bind_ret_eq _ _ _ _ _ Hc). cbv beta. cbn [negb].
    unfold uninstall_apply. rewrite Hiter.
    rewrite (bind_ret_eq _ _ _ _ _ H3). cbv beta.
    rewrite (bind_ret_eq _ _ _ _ _ H4). reflexivity. }
  exists w4. split; [exact Hrun|]. split; [|split; [|split]].
  - intros Hacc s Hs.
    pose proof (remove_start_menu_shortcut_same_path env w3) as K. rewrite H4 in K.
    unfold same_path in K. cbn [snd] in K. rewrite K.
    destruct U as [_ Ureg].
    destruct (remove_from_path_run env d w2 s Hacc) as (w3' & Hrem & Hreg3 & _);
      [congruence|].
    rewrite Hrem in H3. injection H3 as _ <-. exact Hreg3.
  - intros programdata Hpd Hfiles n Hn.
    assert (K3 : keeps [] w2 w3).
    { pose proof (remove_from_path_preserves (R:=keeps []) env d w2) as K.
      rewrite H3 in K. exact K. }
    assert (Hsame : forall q, entry w3 q = entry w q).
    { intros q. rewrite (K3 q) by apply not_elem_of_nil.
      rewrite (same_fs_same_entries w1 w2 Hfs2). apply same_fs_same_entries. apply U. }
    pose proof (remove_start_menu_shortcut_gone env w3 programdata Hpd) as Hgone.
    rewrite H4 in Hgone. apply Hgone; [|exact Hn].
    intros n' Hn'. rewrite Hsame. by apply Hfiles.
  - eapply frame_trans; [exact K1|].
    eapply frame_trans.
    + pose proof (confirm_uninstall_preserves (R:=keeps shortcuts) d silent w1) as K.
      rewrite Hc in K. exact K.
    + eapply frame_trans.
      * pose proof (remove_from_path_preserves (R:=keeps shortcuts) env d w2) as K.
        rewrite H3 in K. exact K.
      * pose proof (remove_start_menu_shortcut_keeps shortcuts env
                      (fun x Hx => Hx) w3) as K.
        rewrite H4 in K. exact K.
  - unfold uninstaller_main, try_except. unfold bind at 1. rewrite Hrun. reflexivity.
Qed.

Lemma uniterable_file_list_witness :
  exists w', uninstall (Cases.reading Cases.parse_odd Scenario.remover) None true Cases.odd
             = (Raise, w')
    /\ entry w' (Scenario.menu, "RuPing.url") = None
    /\ uninstaller_main (Cases.reading Cases.parse_odd Scenario.remover) None true Cases.odd
       = (Exit 1, emit (Print "ERROR: Uninstall failed: ") w').
Proof.
  destruct (uniterable_file_list_raises (Cases.reading Cases.parse_odd Scenario.remover)
              None true Cases.odd Scenario.root
              (Some [ ("install_path", JStr Scenario.root); ("installed_files", JNum 6) ])
              (uninstall_prelude (Cases.reading Cases.parse_odd Scenario.remover) None true
                 Cases.odd).2) as (w' & Hrun & _ & Hgone & _ & Hmain).
  - vm_compute. reflexivity.
  - by left.
  - reflexivity.
  - exists w'. split; [exact Hrun|]. split; [|exact Hmain].
    apply (Hgone "C:\ProgramData"); [reflexivity| |by_listing].
    intros n Hn.
    repeat (apply elem_of_cons in Hn as [->|Hn]; [vm_compute; discriminate|]).
    apply elem_of_nil in Hn. destruct Hn.
Defined.

(** ** Where the installation is looked for *)

Lemma probe_paths_first candidates w :
  exists r, probe_paths candidates w = (Ret r, w)
    /\ match r with
       | None => forall c, c ∈ candidates -> entry w (c, "ruping.exe") = None
       | Some d =>
           exists pre post, candidates = pre ++ d :: post
             /\ (forall c, c ∈ pre -> entry w (c, "ruping.exe") = None)
             /\ is_Some (entry w (d, "ruping.exe"))
       end.
Proof.
  induction candidates as [|c rest IH]; cbn [probe_paths].
  - exists None. split; [done|]. intros c Hc. by apply elem_of_nil in Hc.
  - unfold bind at 1. unfold dir_exists at 1.
    unfold bind at 1. unfold path_exists at 1.
    destruct (decide (is_Some (entry w (c, "ruping.exe")))) as [Hexe|Hno].
    + rewrite (bool_decide_eq_true_2 _ Hexe).
      rewrite bool_decide_eq_true_2 by (by apply (entry_dir_exists w (c, "ruping.exe"))).
      exists (Some c). split; [done|]. exists [], rest. split; [done|]. split; [|done].
      intros c' Hc'. by apply elem_of_nil in Hc'.
    + rewrite (bool_decide_eq_false_2 _ Hno). rewrite andb_false_r.
      assert (Hnone : entry w (c, "ruping.exe") = None).
      { destruct (entry w (c, "ruping.exe")); [|done]. exfalso. apply Hno. eauto. }
      destruct IH as (r & Hrun & Hr). exists r. split; [done|].
      destruct r as [d|].
      * destruct Hr as (pre & post & -> & Hpre & Hd).
        exists (c :: pre), post. split; [done|]. split; [|done].
        intros c' Hc'. apply elem_of_cons in Hc' as [->|Hc']; [done|by apply Hpre].
      * intros c' Hc'. apply elem_of_cons in Hc' as [->|Hc']; [done|by apply Hr].
Qed.

(** X13: without a ledger to go by, the search tries the program's own
    directory, then Program Files, the local application data and C:, each
    with the product name, in this order; it returns the first of them that
    holds ruping.exe, never with a ledger, and returns nothing only when
    none of them does. It changes nothing and prints nothing. *)
Theorem heuristics_return_first_hit env w :
  exists r, find_by_heuristics env w = (Ret (r, None), w)
    /\ match r with
       | None =>
           forall c, c ∈ current_dir env :: possible_paths env ->
                     entry w (c, "ruping.exe") = None
       | Some d =>
           exists pre post, current_dir env :: possible_paths env = pre ++ d :: post
             /\ (forall c, c ∈ pre -> entry w (c, "ruping.exe") = None)
             /\ is_Some (entry w (d, "ruping.exe"))
       end.
Proof.
  unfold find_by_heuristics. unfold bind at 1. unfold path_exists at 1.
  destruct (decide (is_Some (entry w (current_dir env, "ruping.exe")))) as [Hexe|Hno].
  - rewrite (bool_decide_eq_true_2 _ Hexe).
    exists (Some (current_dir env)). split; [done|].
    exists [], (possible_paths env). split; [done|]. split; [|done].
    intros c Hc. by apply elem_of_nil in Hc.
  - rewrite (bool_decide_eq_false_2 _ Hno).
    assert (Hnone : entry w (current_dir env, "ruping.exe") = None).
    { destruct (entry w (current_dir env, "ruping.exe")); [|done]. exfalso. apply Hno. eauto. }
    destruct (probe_paths_first (possible_paths env) w) as (r & Hrun & Hr).
    exists r. rewrite (bind_ret_eq _ _ _ _ _ Hrun). split; [done|].
    destruct r as [d|].
    + destruct Hr as (pre & post & Heq & Hpre & Hd).
      exists (current_dir env :: pre), post. rewrite Heq. split; [done|]. split; [|done].
      intros c Hc. apply elem_of_cons in Hc as [->|Hc]; [done|by apply Hpre].
    + intros c Hc. apply elem_of_cons in Hc as [->|Hc]; [done|by apply Hr].
Qed.




(** ** The shortcut *)

(** X15: where PROGRAMDATA is set and the start menu directory exists with
    neither RuPing.url nor RuPing.lnk in it, create_start_menu_shortcut
    returns true and writes RuPing.url pointing at ruping.exe in the
    installation directory (no .lnk is written), and
    remove_start_menu_shortcut then returns true and leaves the directories
    exactly as they were before the two calls. *)
Theorem shortcut_round_trip env d w programdata entries :
  PROGRAMDATA env = Some programdata ->
  fs w !! start_menu_of programdata = Some entries ->
  entries !! "RuPing.url" = None ->
  entries !! "RuPing.lnk" = None ->
  exists w1 w2,
    create_start_menu_shortcut env d w = (Ret true, w1)
    /\ fs w1 = <[start_menu_of programdata := <["RuPing.url" := File (url_content d)]> entries]>
                 (fs w)
    /\ remove_start_menu_shortcut env w1 = (Ret true, w2)
    /\ fs w2 = fs w
    /\ reg_path w2 = reg_path w.
Proof.
  intros Hpd Hmenu Hurl Hlnk.
  set (menu := start_menu_of programdata) in *.
  eexists. eexists.
  split.
  { unfold create_start_menu_shortcut, try_except, start_menu. rewrite Hpd.
    rewrite bind_ret_l. unfold bind at 1. unfold write_file. cbn [fst snd]. fold menu.
    rewrite Hmenu, Hurl. reflexivity. }
  split; [reflexivity|].
  split.
  { unfold remove_start_menu_shortcut, try_except, start_menu. rewrite Hpd.
    rewrite bind_ret_l. fold menu. cbn [shortcuts remove_shortcuts].
    unfold bind at 1. unfold path_exists at 1. unfold entry. cbn [fst snd fs emit set_fs].
    rewrite lookup_insert_eq. cbn.
    rewrite lookup_insert_ne by done. rewrite Hlnk.
    rewrite bool_decide_eq_false_2 by (by intros [? ?]).
    unfold bind at 1. unfold path_exists at 1. unfold entry. cbn [fst snd fs emit set_fs].
    rewrite lookup_insert_eq. cbn. rewrite lookup_insert_eq.
    rewrite bool_decide_eq_true_2 by eauto.
    unfold bind at 1. unfold unlink. cbn [fst snd fs emit set_fs].
    rewrite lookup_insert_eq. rewrite lookup_insert_eq.
    reflexivity. }
  split; [|reflexivity].
  cbn [fs emit set_fs].
  rewrite insert_insert_eq. rewrite delete_insert_id by done.
  by apply insert_id.
Qed.

Lemma shortcut_round_trip_witness :
  exists w1 w2,
    create_start_menu_shortcut Scenario.setup Scenario.root Scenario.fresh = (Ret true, w1)
    /\ remove_start_menu_shortcut Scenario.setup w1 = (Ret true, w2)
    /\ fs w2 = fs Scenario.fresh.
Proof.
  destruct (shortcut_round_trip Scenario.setup Scenario.root Scenario.fresh
              "C:\ProgramData" ∅) as (w1 & w2 & Hc & _ & Hr & Hfs & _).
  - reflexivity.
  - vm_compute. reflexivity.
  - reflexivity.
  - reflexivity.
  - exists w1, w2. split; [exact Hc|]. split; [exact Hr|exact Hfs].
Defined.

(** ** How the two programs end *)

Lemma ends_input prompt : ends (input prompt).
Proof.
  intros w. unfold input. destruct (stdin (emit (Prompt prompt) w));
    first [left; by eexists _, _|right; by eexists].
Qed.

Lemma ends_read_file p : ends (read_file p).
Proof.
  intros w. unfold read_file. repeat case_match;
    first [left; by eexists _, _|right; by eexists].
Qed.

Lemma ends_mkdir_p env d : ends (mkdir_p env d).
Proof.
  intros w. unfold mkdir_p. repeat case_match;
    first [left; by eexists _, _|right; by eexists].
Qed.

Lemma ends_write_file p data : ends (write_file p data).
Proof.
  intros w. unfold write_file. repeat case_match;
    first [left; by eexists _, _|right; by eexists].
Qed.

Lemma ends_copy2 src dst : ends (copy2 src dst).
Proof.
  intros w. unfold copy2. repeat case_match;
    first [left; by eexists _, _|right; by eexists].
Qed.

Lemma ends_send_message env h m l : windows env = Responsive -> ends (send_message env h m l).
Proof.
  intros Hwin w. unfold send_message. rewrite Hwin.
  case_match; first [left; by eexists _, _|right; by eexists].
Qed.

Lemma reads_returns {A} (m : M A) : reads m -> returns m.
Proof. intros Hm w. destruct (Hm w) as [a Ha]. exists a, w. by apply Ha. Qed.

#[export] Hint Resolve ends_input ends_read_file ends_mkdir_p ends_write_file ends_copy2
  : ending.

(** Splits a program along its binds, handlers and branches, without
    unfolding what it calls. *)
Ltac finishing_step :=
  match goal with
  | |- returns (bind _ _) => apply returns_bind; [|intros ?]
  | |- ends (bind _ _) => apply ends_bind; [|intros ?]
  | |- returns (try_except _ _) => apply returns_try_except
  | |- ends (try_except _ _) => apply ends_try_except
  | |- returns (when _ _) => apply returns_when
  | |- ends (when _ _) => apply returns_ends, returns_when
  | |- returns (if ?b then _ else _) => destruct b
  | |- ends (if ?b then _ else _) => destruct b
  | |- returns (match ?x with _ => _ end) => destruct x
  | |- ends (match ?x with _ => _ end) => destruct x
  | |- returns _ => solve [eauto with ending]
  | |- ends _ => solve [eauto with ending]
  end.
Ltac finishing := repeat finishing_step.

(** *** install *)

Lemma copy_first_local_returns env candidates target :
  returns (copy_first_local env candidates target).
Proof. induction candidates; simpl; finishing. Qed.

Lemma extract_embedded_file_returns env filename target :
  returns (extract_embedded_file env filename target).
Proof.
  pose proof (copy_first_local_returns env (local_paths env filename) target).
  unfold extract_embedded_file. cbv zeta. finishing.
Qed.

Lemma extract_all_returns env silent files : returns (extract_all env silent files).
Proof.
  pose proof extract_embedded_file_returns.
  induction files as [|[f t] rest IH]; simpl; finishing.
Qed.

Lemma add_to_path_returns env d :
  windows env = Responsive -> returns (add_to_path env d).
Proof.
  intros Hwin. pose proof (ends_send_message env HWND_BROADCAST WM_SETTINGCHANGE
                             "Environment" Hwin).
  unfold add_to_path. finishing.
Qed.

Lemma create_start_menu_shortcut_returns env d : returns (create_start_menu_shortcut env d).
Proof. unfold create_start_menu_shortcut. finishing. Qed.

Lemma save_install_info_returns env d : returns (save_install_info env d).
Proof. unfold save_install_info. finishing. Qed.

(** An elevated install returns, unless it waits for a window. *)
Lemma install_returns env install_path no_path silent :
  is_admin env = true ->
  no_path = true \/ windows env = Responsive ->
  returns (install env install_path no_path silent).
Proof.
  intros Hadmin Hpath.
  assert (Hgate : returns (require_admin env "installer")).
  { intros w. exists tt, w. by apply require_admin_granted. }
  pose proof (extract_all_returns env silent
                (files_to_extract (install_dir_of env install_path))).
  pose proof (create_start_menu_shortcut_returns env (install_dir_of env install_path)).
  pose proof (save_install_info_returns env (install_dir_of env install_path)).
  unfold install. destruct Hpath as [->|Hwin].
  - cbn [negb]. finishing.
  - pose proof (add_to_path_returns env (install_dir_of env install_path) Hwin).
    finishing.
Qed.

(** *** uninstall *)

Lemma find_installation_ends env : ends (find_installation env).
Proof.
  pose proof (reads_returns _ (reads_find_by_heuristics env)).
  unfold find_installation, read_ledger. finishing.
Qed.

Lemma locate_installation_ends env install_path silent :
  ends (locate_installation env install_path silent).
Proof.
  pose proof (find_installation_ends env).
  unfold locate_installation. finishing.
Qed.

Lemma confirm_uninstall_ends d silent : ends (confirm_uninstall d silent).
Proof. unfold confirm_uninstall. finishing. Qed.

Lemma remove_files_ends silent d files k : ends (remove_files silent d files k).
Proof.
  revert k. induction files as [|f rest IH]; intros k; simpl; [finishing|].
  destruct f; finishing.
Qed.

Lemma uninstall_apply_ends env silent d info : ends (uninstall_apply env silent d info).
Proof.
  pose proof (remove_from_path_returns env d).
  pose proof (remove_start_menu_shortcut_returns env).
  pose proof (remove_dir_if_empty_returns silent d).
  pose proof (remove_files_ends silent d).
  unfold uninstall_apply. finishing.
Qed.

(** An elevated uninstall returns or raises. *)
Lemma uninstall_ends env install_path silent :
  is_admin env = true -> ends (uninstall env install_path silent).
Proof.
  intros Hadmin.
  assert (Hgate : returns (require_admin env "uninstaller")).
  { intros w. exists tt, w. by apply require_admin_granted. }
  pose proof (locate_installation_ends env install_path silent).
  pose proof (confirm_uninstall_ends).
  pose proof (uninstall_apply_ends env silent).
  unfold uninstall, uninstall_prelude. finishing.
Qed.

(** *** main *)

(** The exit code of a main of the shape both programs have. *)
Lemma main_exit_code (run : M bool) (silent : bool) (failure : string) w :
  (run w).1 <> Hang ->
  (forall c w1, run w = (Exit c, w1) -> c = 1%Z) ->
  exists code w',
    @try_except unit
      (success <- run;;
       when (negb silent) (input (nl +:+ "Press Enter to exit...");; ret tt);;
       exit (if success then 0 else 1)%Z)
      (print failure;; exit 1%Z) w
    = (Exit code, w')
    /\ (code = 0%Z \/ code = 1%Z)
    /\ (code = 0%Z <->
        exists w1, run w = (Ret true, w1) /\ (silent = true \/ stdin w1 <> [])).
Proof.
  intros Hhang Hexit. unfold try_except. unfold bind at 1.
  destruct (run w) as [[b| |c|] w1] eqn:Hrun.
  - destruct silent; cbn [negb when].
    + rewrite bind_ret_l. unfold exit. eexists _, _. split; [done|].
      destruct b; (split; [auto|]); split; try done.
      * intros _. exists w1. auto.
      * by intros (w2 & [= <-] & _).
    + unfold bind at 1. unfold bind at 1. unfold input. cbn [stdin emit].
      destruct (stdin w1) as [|line rest] eqn:Hin; cbn.
      * eexists _, _. split; [done|]. split; [by right|]. split; [done|].
        intros (w2 & Heq & [?|Hne]); [done|]. exfalso. injection Heq as _ <-. by apply Hne.
      * eexists _, _. split; [done|].
        destruct b; (split; [auto|]); split; try done.
        -- intros _. exists w1. split; [done|]. right. by rewrite Hin.
        -- by intros (w2 & [= <-] & _).
  - eexists _, _. split; [done|]. split; [by right|]. split; [done|].
    by intros (w2 & ? & _).
  - rewrite (Hexit c w1 eq_refl). eexists _, _. split; [done|]. split; [by right|].
    split; [done|]. by intros (w2 & ? & _).
  - by exfalso.
Qed.

(** X16: main of the uninstaller always ends in an exit with code 0 or 1,
    never waiting for a window; the code is 0 exactly when uninstall returned
    true and, in a run that is not silent, a line could be read at the final
    prompt. *)
Theorem uninstaller_main_exit_code env install_path silent w :
  exists code w',
    uninstaller_main env install_path silent w = (Exit code, w')
    /\ (code = 0%Z \/ code = 1%Z)
    /\ (code = 0%Z <->
        exists w1, uninstall env install_path silent w = (Ret true, w1)
                   /\ (silent = true \/ stdin w1 <> [])).
Proof.
  apply main_exit_code.
  - destruct (is_admin env) eqn:Hadmin.
    + destruct (uninstall_ends env install_path silent Hadmin w)
        as [(b & w1 & ->)|(w1 & ->)]; done.
    + unfold uninstall, uninstall_prelude.
      rewrite (bind_exit_eq _ _ _ _ _
                 (bind_exit_eq _ _ _ _ _ (require_admin_denied env _ w Hadmin))).
      done.
  - intros c w1 Hrun. destruct (is_admin env) eqn:Hadmin.
    + destruct (uninstall_ends env install_path silent Hadmin w)
        as [(b & w2 & Heq)|(w2 & Heq)]; congruence.
    + unfold uninstall, uninstall_prelude in Hrun.
      rewrite (bind_exit_eq _ _ _ _ _
                 (bind_exit_eq _ _ _ _ _ (require_admin_denied env _ w Hadmin))) in Hrun.
      congruence.
Qed.

(** X17: when the PATH is not to be touched, or the windows answer,
    main of the installer ends in an exit with code 0 or 1; the code is 0
    exactly when install returned true and, in a run that is not silent, a
    line could be read at the final prompt: an installation that succeeded is
    reported as failed when the input is at its end. *)
Theorem installer_main_exit_code env install_path no_path silent w :
  no_path = true \/ windows env = Responsive ->
  exists code w',
    installer_main env install_path no_path silent w = (Exit code, w')
    /\ (code = 0%Z \/ code = 1%Z)
    /\ (code = 0%Z <->
        exists w1, install env install_path no_path silent w = (Ret true, w1)
                   /\ (silent = true \/ stdin w1 <> [])).
Proof.
  intros Hpath. apply main_exit_code.
  - destruct (is_admin env) eqn:Hadmin.
    + destruct (install_returns env install_path no_path silent Hadmin Hpath w)
        as (b & w1 & ->). done.
    + unfold install.
      rewrite (bind_exit_eq _ _ _ _ _ (require_admin_denied env _ w Hadmin)). done.
  - intros c w1 Hrun. destruct (is_admin env) eqn:Hadmin.
    + destruct (install_returns env install_path no_path silent Hadmin Hpath w)
        as (b & w2 & Heq). congruence.
    + unfold install in Hrun.
      rewrite (bind_exit_eq _ _ _ _ _ (require_admin_denied env _ w Hadmin)) in Hrun.
      congruence.
Qed.

Lemma installer_main_witness :
  exists w', installer_main Scenario.setup (Some Scenario.root) false false Scenario.fresh
             = (Exit 1, w').
Proof.
  destruct (installer_main_exit_code Scenario.setup (Some Scenario.root) false false
              Scenario.fresh) as (code & w' & Hrun & _ & Hcode).
  - right. reflexivity.
  - exists w'. rewrite Hrun. vm_compute in Hrun. by injection Hrun as <- _.
Defined.

(** ** An uninstall that is given the directory *)




(** ** No installation *)




(** ** A bundle entry that cannot be copied *)

(** X20: when the bundle has something under the name that cannot be
    copied to the target (it is a directory, or it is the target itself),
    extract_embedded_file returns false without turning to the embedded
    table or to the local candidates, whatever they hold: no regular file is
    created or changed (the directory of the target may have been
    created). *)
Theorem bundle_failure_is_final env name target w bundle_dir found :
  meipass env = Some bundle_dir ->
  entry w (Path bundle_dir, name) = Some found ->
  found = SubDir \/ (Path bundle_dir, name) = target ->
  exists w', extract_embedded_file env name target w = (Ret false, w')
    /\ forall p, same_file w w' p.
Proof.
  intros Hb Hfound Hbad. unfold extract_embedded_file. rewrite Hb.
  unfold bind at 1. unfold path_exists at 1. rewrite Hfound.
  rewrite bool_decide_eq_true_2 by eauto.
  unfold try_except. unfold bind at 1.
  assert (Hmk : (exists w1, mkdir_p env target.1 w = (Ret tt, w1)
                   /\ forall p, entry w1 p = entry w p)
                \/ mkdir_p env target.1 w = (Raise, w)).
  { unfold mkdir_p. destruct (fs w !! target.1) as [m|] eqn:Hd.
    - left. by exists w.
    - destruct (creatable env target.1); [|by right].
      left. eexists. split; [done|]. intros p. rewrite entry_set_dir.
      case_decide as Hp; [|done]. rewrite lookup_empty. symmetry.
      apply entry_no_dir. by rewrite Hp. }
  destruct Hmk as [(w1 & -> & Hsame)| ->]; [|by exists w].
  exists w1. split; [|intros p; by apply same_entry_same_file].
  unfold bind at 1. unfold copy2. rewrite Hsame, Hfound.
  destruct Hbad as [->| ->]; [done|].
  destruct found; [|done]. by rewrite decide_True.
Qed.

Lemma bundle_failure_witness :
  exists w', extract_embedded_file Scenario.setup "ruping.exe"
               (Scenario.bundle, "ruping.exe") Scenario.fresh = (Ret false, w').
Proof.
  destruct (bundle_failure_is_final Scenario.setup "ruping.exe"
              (Scenario.bundle, "ruping.exe") Scenario.fresh Scenario.bundle
              (File "MZ ruping")) as (w' & Hrun & _).
  - reflexivity.
  - vm_compute. reflexivity.
  - right. reflexivity.
  - by exists w'.
Defined.

(** ** Runs that do not ask *)

Lemma unasked_refl w : unasked w w.
Proof. by split. Qed.

Lemma unasked_trans w1 w2 w3 : unasked w1 w2 -> unasked w2 w3 -> unasked w1 w3.
Proof.
  intros [Hin12 Hp12] [Hin23 Hp23]. split; [congruence|]. intros text Ht. auto.
Qed.

Lemma unasked_same w w' : stdin w' = stdin w -> trace w' = trace w -> unasked w w'.
Proof. intros Hin Htr. split; [done|]. intros text. by rewrite Htr. Qed.

Lemma unasked_emit w e : (forall text, e <> Prompt text) -> unasked w (emit e w).
Proof.
  intros He. split; [done|]. intros text Ht. cbn in Ht.
  apply elem_of_app in Ht as [Ht|Ht]; [done|].
  apply list_elem_of_singleton in Ht. by destruct (He text).
Qed.

Lemma quiet_ret {A} (a : A) : preserves unasked (ret a).
Proof. intros w. apply unasked_refl. Qed.

Lemma quiet_raise {A} : preserves unasked (@raise A).
Proof. intros w. apply unasked_refl. Qed.

Lemma quiet_exit {A} code : preserves unasked (@exit A code).
Proof. intros w. apply unasked_refl. Qed.

Lemma quiet_bind {A B} (m : M A) (k : A -> M B) :
  preserves unasked m -> (forall a, preserves unasked (k a)) -> preserves unasked (bind m k).
Proof.
  intros Hm Hk w. unfold bind. specialize (Hm w).
  destruct (m w) as [[a| |c|] w1]; simpl in *; try done.
  eapply unasked_trans; [exact Hm|apply Hk].
Qed.

Lemma quiet_try_except {A} (m h : M A) :
  preserves unasked m -> preserves unasked h -> preserves unasked (try_except m h).
Proof.
  intros Hm Hh w. unfold try_except. specialize (Hm w).
  destruct (m w) as [[a| |c|] w1]; simpl in *; try done.
  eapply unasked_trans; [exact Hm|apply Hh].
Qed.

Lemma quiet_when b (m : M unit) : preserves unasked m -> preserves unasked (when b m).
Proof. intros Hm. destruct b; [done|apply quiet_ret]. Qed.

Lemma quiet_print line : preserves unasked (print line).
Proof. intros w. by apply unasked_emit. Qed.

Lemma quiet_print_all lines : preserves unasked (print_all lines).
Proof.
  induction lines; simpl; [apply quiet_ret|].
  apply quiet_bind; [apply quiet_print|done].
Qed.

(** A step that leaves the console alone. *)
Ltac quiet_step unfolding :=
  intros w; unfolding; repeat case_match; simpl;
  first [ apply unasked_refl | by apply unasked_same | by apply unasked_emit ].

Lemma quiet_dir_exists d : preserves unasked (dir_exists d).
Proof. quiet_step ltac:(unfold dir_exists). Qed.
Lemma quiet_path_exists p : preserves unasked (path_exists p).
Proof. quiet_step ltac:(unfold path_exists). Qed.
Lemma quiet_read_file p : preserves unasked (read_file p).
Proof. quiet_step ltac:(unfold read_file). Qed.
Lemma quiet_mkdir_p env d : preserves unasked (mkdir_p env d).
Proof. quiet_step ltac:(unfold mkdir_p). Qed.
Lemma quiet_write_file p data : preserves unasked (write_file p data).
Proof. quiet_step ltac:(unfold write_file). Qed.
Lemma quiet_copy2 src dst : preserves unasked (copy2 src dst).
Proof. quiet_step ltac:(unfold copy2). Qed.
Lemma quiet_unlink p : preserves unasked (unlink p).
Proof. quiet_step ltac:(unfold unlink). Qed.
Lemma quiet_any_iterdir d : preserves unasked (any_iterdir d).
Proof. quiet_step ltac:(unfold any_iterdir). Qed.
Lemma quiet_rmdir d : preserves unasked (rmdir d).
Proof. quiet_step ltac:(unfold rmdir). Qed.
Lemma quiet_OpenKey env : preserves unasked (OpenKey env).
Proof. quiet_step ltac:(unfold OpenKey). Qed.
Lemma quiet_QueryValueEx : preserves unasked QueryValueEx.
Proof. quiet_step ltac:(unfold QueryValueEx). Qed.
Lemma quiet_SetValueEx v : preserves unasked (SetValueEx v).
Proof. quiet_step ltac:(unfold SetValueEx). Qed.
Lemma quiet_send_message env h m l : preserves unasked (send_message env h m l).
Proof. quiet_step ltac:(unfold send_message). Qed.
Lemma quiet_send_message_timeout env h m l f t :
  preserves unasked (send_message_timeout env h m l f t).
Proof. quiet_step ltac:(unfold send_message_timeout). Qed.
Lemma quiet_start_menu env : preserves unasked (start_menu env).
Proof. quiet_step ltac:(unfold start_menu, ret, raise). Qed.

Lemma quiet_require_admin env who : preserves unasked (require_admin env who).
Proof.
  unfold require_admin. case_match; [|apply quiet_ret].
  repeat (apply quiet_bind; [apply quiet_print|intros _]).
  intros w. apply unasked_refl.
Qed.

Create HintDb quiet discriminated.
#[export] Hint Resolve quiet_ret quiet_raise quiet_exit quiet_print quiet_print_all
  quiet_dir_exists quiet_path_exists quiet_read_file quiet_mkdir_p quiet_write_file
  quiet_copy2 quiet_unlink quiet_any_iterdir quiet_rmdir quiet_OpenKey quiet_QueryValueEx
  quiet_SetValueEx quiet_send_message quiet_send_message_timeout quiet_start_menu
  quiet_require_admin : quiet.

Ltac quiet_split :=
  match goal with
  | |- preserves unasked (bind _ _) => apply quiet_bind; [|intros ?]
  | |- preserves unasked (try_except _ _) => apply quiet_try_except
  | |- preserves unasked (when _ _) => apply quiet_when
  | |- preserves unasked (if ?b then _ else _) => destruct b
  | |- preserves unasked (match ?x with _ => _ end) => destruct x
  | |- preserves unasked _ => solve [eauto with quiet]
  end.
Ltac quiet := repeat quiet_split.

Lemma quiet_copy_first_local env candidates target :
  preserves unasked (copy_first_local env candidates target).
Proof. induction candidates; simpl; quiet. Qed.

Lemma quiet_extract_embedded_file env filename target :
  preserves unasked (extract_embedded_file env filename target).
Proof.
  pose proof (quiet_copy_first_local env (local_paths env filename) target).
  unfold extract_embedded_file. cbv zeta. quiet.
Qed.

Lemma quiet_extract_all env silent files : preserves unasked (extract_all env silent files).
Proof.
  pose proof quiet_extract_embedded_file.
  induction files as [|[f t] rest IH]; simpl; quiet.
Qed.

Lemma quiet_install env install_path no_path silent :
  preserves unasked (install env install_path no_path silent).
Proof.
  pose proof (quiet_extract_all env silent
                (files_to_extract (install_dir_of env install_path))).
  unfold install, add_to_path, create_start_menu_shortcut, save_install_info. quiet.
Qed.

Lemma quiet_probe_paths candidates : preserves unasked (probe_paths candidates).
Proof. induction candidates; simpl; quiet. Qed.

Lemma quiet_find_installation env : preserves unasked (find_installation env).
Proof.
  pose proof (quiet_probe_paths (possible_paths env)).
  unfold find_installation, read_ledger, find_by_heuristics. quiet.
Qed.

Lemma quiet_remove_shortcuts menu names removed :
  preserves unasked (remove_shortcuts menu names removed).
Proof. revert removed. induction names; intros removed; simpl; quiet. Qed.

Lemma quiet_remove_files silent d files k : preserves unasked (remove_files silent d files k).
Proof.
  revert k. induction files as [|f rest IH]; intros k; simpl; [quiet|].
  destruct f; quiet.
Qed.

Lemma quiet_uninstall env install_path :
  preserves unasked (uninstall env install_path true).
Proof.
  pose proof (quiet_find_installation env).
  pose proof quiet_remove_shortcuts.
  pose proof (quiet_remove_files true).
  unfold uninstall, uninstall_prelude, locate_installation, confirm_uninstall,
    uninstall_apply, remove_from_path, remove_start_menu_shortcut, remove_dir_if_empty.
  cbn [negb]. quiet.
Qed.

(** X21: install never reads the input and never shows a prompt, silent
    or not; and with the silent flag neither does uninstall nor either main,
    however the run ends. *)
Theorem silent_runs_do_not_ask env install_path no_path silent w :
  unasked w (install env install_path no_path silent w).2
  /\ unasked w (uninstall env install_path true w).2
  /\ unasked w (installer_main env install_path no_path true w).2
  /\ unasked w (uninstaller_main env install_path true w).2.
Proof.
  pose proof (quiet_install env install_path no_path) as Hi.
  pose proof (quiet_uninstall env install_path) as Hu.
  split; [apply Hi|]. split; [apply Hu|]. split.
  - assert (H : preserves unasked (installer_main env install_path no_path true)).
    { unfold installer_main. cbn [negb when]. quiet. }
    apply H.
  - assert (H : preserves unasked (uninstaller_main env install_path true)).
    { unfold uninstaller_main. cbn [negb when]. quiet. }
    apply H.
Qed.

(** ** Installing and uninstalling again *)

#[export] Instance dir_confined_frame d : Frame (dir_confined d).
Proof.
  split; unfold dir_confined.
  - done.
  - intros w1 w2 w3 H12 H23 d' Hd. rewrite H23 by done. by apply H12.
  - done.
  - done.
Qed.

#[export] Instance dir_confined_files d : FilesOnly (dir_confined d).
Proof. intros w v d' Hd. done. Qed.

#[export] Instance keeps_tidy_frame d names : Frame (keeps_tidy d names).
Proof.
  split; unfold keeps_tidy.
  - done.
  - intros w1 w2 w3 H12 H23 Ht. by apply H23, H12.
  - intros w e Ht. exact Ht.
  - intros w l Ht. exact Ht.
Qed.

#[export] Instance keeps_tidy_files d names : FilesOnly (keeps_tidy d names).
Proof. intros w v Ht. exact Ht. Qed.

(** *** The extraction, for a relation that the writes to its targets keep *)

Section Into.
Context {R : World -> World -> Prop} `{!Frame R}.
Variable env : Env.
Variable ok : path -> Prop.
Hypothesis mkdir_ok : forall t, ok t -> preserves R (mkdir_p env t.1).
Hypothesis write_ok : forall t data, ok t -> preserves R (write_file t data).
Hypothesis copy_ok : forall src t, ok t -> preserves R (copy2 src t).

Lemma copy_first_local_into candidates target :
  ok target -> preserves R (copy_first_local env candidates target).
Proof.
  intros Ht. pose proof (mkdir_ok _ Ht).
  induction candidates as [|c rest IH]; simpl; frame.
Qed.

Lemma extract_embedded_file_into filename target :
  ok target -> preserves R (extract_embedded_file env filename target).
Proof.
  intros Ht. pose proof (mkdir_ok _ Ht).
  pose proof (copy_first_local_into (local_paths env filename) target Ht).
  unfold extract_embedded_file. frame.
Qed.

Lemma extract_all_into silent files :
  Forall (fun ft => ok ft.2) files -> preserves R (extract_all env silent files).
Proof.
  pose proof extract_embedded_file_into.
  induction 1 as [|[f t] rest Ht Hrest IH]; simpl; frame.
Qed.

End Into.

(** *** Other directories *)

Lemma mkdir_p_dir_confined env d : preserves (dir_confined d) (mkdir_p env d).
Proof.
  intros w. unfold mkdir_p. destruct (fs w !! d) eqn:Hd; simpl; [done|].
  destruct (creatable env d); simpl; [|done].
  intros d' Hd'. cbn. by rewrite lookup_insert_ne.
Qed.

Lemma write_file_dir_confined d p data :
  p.1 = d -> preserves (dir_confined d) (write_file p data).
Proof.
  intros <- w. unfold write_file. destruct (fs w !! p.1) as [m|]; simpl; [|done].
  destruct (m !! p.2) as [[|]|]; simpl; try done.
  all: intros d' Hd'; cbn; by rewrite lookup_insert_ne.
Qed.

Lemma copy2_dir_confined d src dst :
  dst.1 = d -> preserves (dir_confined d) (copy2 src dst).
Proof.
  intros <- w. unfold copy2. destruct (entry w src) as [[data|]|]; simpl; try done.
  case_decide as Hsame; simpl; [done|].
  destruct (fs w !! dst.1) as [m|]; simpl; [|done].
  destruct (m !! dst.2) as [[|]|]; simpl; try done.
  all: intros d' Hd'; cbn; by rewrite lookup_insert_ne.
Qed.

Lemma extract_all_dir_confined env silent d :
  preserves (dir_confined d) (extract_all env silent (files_to_extract d)).
Proof.
  apply (extract_all_into env (fun t => t.1 = d)).
  - intros t <-. apply mkdir_p_dir_confined.
  - intros t data Ht. by apply write_file_dir_confined.
  - intros src t Ht. by apply copy2_dir_confined.
  - apply files_to_extract_in_dir.
Qed.

Lemma save_install_info_dir_confined env d :
  preserves (dir_confined d) (save_install_info env d).
Proof.
  pose proof (write_file_dir_confined d (d, install_info_file)
                (json_dump env (install_info d)) eq_refl).
  unfold save_install_info. frame.
Qed.

(** *** A directory with nothing but the installed files *)

Lemma mkdir_p_tidy env d names d' : preserves (keeps_tidy d names) (mkdir_p env d').
Proof.
  intros w. unfold mkdir_p. destruct (fs w !! d') eqn:Hd; simpl; [by intros ?|].
  destruct (creatable env d'); simpl; [|by intros ?].
  intros Ht n x. rewrite entry_set_dir. cbn [fst snd].
  case_decide as Heq; [by rewrite lookup_empty|apply Ht].
Qed.

Lemma write_file_tidy d names p data :
  (p.1 = d -> p.2 ∈ names) -> preserves (keeps_tidy d names) (write_file p data).
Proof.
  intros Hp w. unfold write_file. destruct (fs w !! p.1) as [m|] eqn:Hm; simpl;
    [|by intros ?].
  assert (Hgoal : keeps_tidy d names w
                    (set_fs (<[p.1 := <[p.2 := File data]> m]> (fs w)) w)).
  { intros Ht n x. rewrite entry_set_dir. cbn [fst snd].
    case_decide as Heq; [|apply Ht].
    destruct (decide (n = p.2)) as [->|Hn].
    - rewrite lookup_insert_eq. intros Hx. injection Hx as <-.
      split; [by apply Hp|by exists data].
    - rewrite lookup_insert_ne by done. intros Hx. apply Ht.
      rewrite (entry_in_dir w (d, n) m); [done|]. cbn [fst]. by rewrite Heq. }
  destruct (m !! p.2) as [[|]|]; simpl; first [exact Hgoal | by intros ?].
Qed.

Lemma copy2_tidy d names src dst :
  (dst.1 = d -> dst.2 ∈ names) -> preserves (keeps_tidy d names) (copy2 src dst).
Proof.
  intros Hp w. unfold copy2.
  destruct (entry w src) as [[data|]|]; simpl; try (by intros ?).
  case_decide as Hsame; simpl; [by intros ?|].
  destruct (fs w !! dst.1) as [m|] eqn:Hm; simpl; [|by intros ?].
  pose proof (write_file_tidy d names dst data Hp w) as Hw.
  unfold write_file in Hw. rewrite Hm in Hw.
  destruct (m !! dst.2) as [[|]|]; simpl in *; first [exact Hw | by intros ?].
Qed.

Lemma files_to_extract_listed d :
  Forall (fun ft : string * path => ft.2.1 = d -> ft.2.2 ∈ installed_files)
         (files_to_extract d).
Proof.
  unfold files_to_extract. simpl. repeat constructor; intros _; cbn [fst snd]; by_listing.
Qed.

Lemma extract_all_tidy env silent d :
  preserves (keeps_tidy d installed_files) (extract_all env silent (files_to_extract d)).
Proof.
  apply (extract_all_into env (fun t => t.1 = d -> t.2 ∈ installed_files)).
  - intros t _. apply mkdir_p_tidy.
  - intros t data Ht. by apply write_file_tidy.
  - intros src t Ht. by apply copy2_tidy.
  - apply files_to_extract_listed.
Qed.

Lemma save_install_info_tidy env d :
  preserves (keeps_tidy d installed_files) (save_install_info env d).
Proof.
  assert (Hw : preserves (keeps_tidy d installed_files)
                 (write_file (d, install_info_file) (json_dump env (install_info d)))).
  { apply write_file_tidy. intros _. cbn [snd]. by_listing. }
  unfold save_install_info. frame.
Qed.

(** The shortcut is written somewhere else. *)
Lemma create_start_menu_shortcut_tidy env d names :
  (forall programdata, PROGRAMDATA env = Some programdata -> start_menu_of programdata <> d) ->
  preserves (keeps_tidy d names) (create_start_menu_shortcut env d).
Proof.
  intros Hne. unfold create_start_menu_shortcut, start_menu.
  destruct (PROGRAMDATA env) as [programdata|] eqn:Hpd.
  - rewrite bind_ret_l.
    assert (Hw : preserves (keeps_tidy d names)
                   (write_file (start_menu_of programdata, "RuPing.url") (url_content d))).
    { apply write_file_tidy. cbn [fst]. intros Heq. by apply Hne in Heq. }
    frame.
  - apply preserves_try_except; [|frame]. intros w. apply frame_refl.
Qed.

(** *** What the steps of the uninstaller leave, exactly *)

Lemma remove_shortcut_run env w programdata entries content :
  PROGRAMDATA env = Some programdata ->
  fs w !! start_menu_of programdata = Some (<["RuPing.url" := File content]> entries) ->
  entries !! "RuPing.url" = None ->
  entries !! "RuPing.lnk" = None ->
  exists w', remove_start_menu_shortcut env w = (Ret true, w')
    /\ fs w' = <[start_menu_of programdata := entries]> (fs w)
    /\ reg_path w' = reg_path w.
Proof.
  intros Hpd Hmenu Hurl Hlnk.
  set (menu := start_menu_of programdata) in *.
  eexists. split.
  { unfold remove_start_menu_shortcut, try_except, start_menu. rewrite Hpd.
    rewrite bind_ret_l. fold menu. cbn [shortcuts remove_shortcuts].
    unfold bind at 1. unfold path_exists at 1. unfold entry. cbn [fst snd].
    rewrite Hmenu. cbn.
    rewrite lookup_insert_ne by done. rewrite Hlnk.
    rewrite bool_decide_eq_false_2 by (by intros [? ?]).
    unfold bind at 1. unfold path_exists at 1. unfold entry. cbn [fst snd].
    rewrite Hmenu. cbn. rewrite lookup_insert_eq.
    rewrite bool_decide_eq_true_2 by eauto.
    unfold bind at 1. unfold unlink. cbn [fst snd].
    rewrite Hmenu. rewrite lookup_insert_eq.
    reflexivity. }
  split; [|reflexivity].
  cbn [fs emit set_fs]. by rewrite delete_insert_id.
Qed.

Lemma delete_all_lookup names (entries : gmap string node) k :
  delete_all names entries !! k = if decide (k ∈ names) then None else entries !! k.
Proof.
  revert entries. induction names as [|n rest IH]; intros entries.
  - rewrite decide_False by apply not_elem_of_nil. done.
  - change (delete_all (n :: rest) entries) with (delete_all rest (delete n entries)).
    rewrite IH. destruct (decide (k ∈ rest)) as [Hin|Hout].
    + rewrite decide_True; [done|by right].
    + destruct (decide (k = n)) as [->|Hkn].
      * rewrite decide_True by left. apply lookup_delete_eq.
      * rewrite decide_False; [by apply lookup_delete_ne|].
        intros Hin. apply elem_of_cons in Hin as [?|?]; done.
Qed.

Lemma delete_all_listed names (entries : gmap string node) :
  (forall n x, entries !! n = Some x -> n ∈ names) -> delete_all names entries = ∅.
Proof.
  intros Hdom. apply map_eq. intros k. rewrite delete_all_lookup, lookup_empty.
  case_decide as Hk; [done|].
  destruct (entries !! k) as [x|] eqn:Hx; [|done].
  exfalso. apply Hk. by eapply Hdom.
Qed.

(** The deletion loop over names, in a directory of regular files. *)
Lemma remove_files_run silent d names : forall k w (entries : gmap string node),
  fs w !! d = Some entries ->
  (forall n x, entries !! n = Some x -> exists data, x = File data) ->
  exists k' w', remove_files silent d (map JStr names) k w = (Ret k', w')
    /\ fs w' = <[d := delete_all names entries]> (fs w)
    /\ reg_path w' = reg_path w.
Proof.
  induction names as [|n rest IH]; intros k w entries Hd Hfiles.
  - exists k, w. split; [done|]. split; [|done]. cbn. by rewrite insert_id.
  - cbn [map remove_files].
    unfold bind at 1. unfold path_exists at 1.
    rewrite (entry_in_dir w (d, n) entries Hd). cbn [snd].
    destruct (entries !! n) as [x|] eqn:Hn.
    + destruct (Hfiles n x Hn) as [data ->].
      rewrite bool_decide_eq_true_2 by eauto.
      assert (Htry : exists w2,
                 try_except
                   (unlink (d, n);; when (negb silent) (print ("Removed: " +:+ n));; ret true)
                   (print ("Warning: Failed to remove " +:+ n +:+ ": ");; ret false) w
                 = (Ret true, w2)
                 /\ fs w2 = <[d := delete n entries]> (fs w)
                 /\ reg_path w2 = reg_path w).
      { unfold try_except, bind, unlink. cbn [fst snd]. rewrite Hd, Hn.
        destruct silent; cbn; eexists; done. }
      destruct Htry as (w2 & Htry & Hfs2 & Hreg2).
      rewrite (bind_ret_eq _ _ _ _ _ Htry). cbv beta iota.
      destruct (IH (S k) w2 (delete n entries)) as (k' & w' & Hrun & Hfs & Hreg).
      { rewrite Hfs2. apply lookup_insert_eq. }
      { intros m x Hm. apply lookup_delete_Some in Hm as [_ Hm]. by eapply Hfiles. }
      exists k', w'. split; [exact Hrun|]. split; [|congruence].
      rewrite Hfs, Hfs2. by rewrite insert_insert_eq.
    + rewrite bool_decide_eq_false_2 by (by intros [? ?]).
      destruct (IH k w entries Hd Hfiles) as (k' & w' & Hrun & Hfs & Hreg).
      exists k', w'. split; [exact Hrun|]. split; [|done].
      change (delete_all (n :: rest) entries) with (delete_all rest (delete n entries)).
      by rewrite delete_id.
Qed.

Lemma remove_dir_run silent d w :
  fs w !! d = Some ∅ ->
  exists w', remove_dir_if_empty silent d w = (Ret tt, w')
    /\ fs w' = delete d (fs w)
    /\ reg_path w' = reg_path w.
Proof.
  intros Hd. unfold remove_dir_if_empty, try_except, bind, any_iterdir, rmdir.
  rewrite Hd. rewrite bool_decide_eq_true_2 by done. cbn [negb]. rewrite Hd.
  rewrite decide_True by done. destruct silent; cbn; eexists; done.
Qed.

(** The steps after the confirmation, when the directory holds listed
    regular files only and the one shortcut. *)
Lemma uninstall_apply_clears env silent d info names w programdata menu_entries content
    (entries : gmap string node) s :
  reg_access env = true ->
  reg_path w = Some s ->
  PROGRAMDATA env = Some programdata ->
  start_menu_of programdata <> d ->
  fs w !! start_menu_of programdata = Some (<["RuPing.url" := File content]> menu_entries) ->
  menu_entries !! "RuPing.url" = None ->
  menu_entries !! "RuPing.lnk" = None ->
  fs w !! d = Some entries ->
  (forall n x, entries !! n = Some x -> n ∈ names /\ exists data, x = File data) ->
  files_to_remove info = JArr (map JStr names) ->
  exists w', uninstall_apply env silent d info w = (Ret true, w')
    /\ fs w' = delete d (<[start_menu_of programdata := menu_entries]> (fs w))
    /\ reg_path w' = Some (without d s).
Proof.
  intros Hacc Hval Hpd Hne Hmenu Hurl Hlnk Hd Htidy Hlist.
  set (menu := start_menu_of programdata) in *.
  unfold uninstall_apply. rewrite Hlist. cbn [py_iter].
  destruct (remove_from_path_run env d w s Hacc Hval) as (w1 & H1 & Hreg1 & Hfs1).
  rewrite (bind_ret_eq _ _ _ _ _ H1). cbv beta.
  destruct (remove_shortcut_run env w1 programdata menu_entries content Hpd)
    as (w2 & H2 & Hfs2 & Hreg2); [by rewrite Hfs1|done|done|].
  fold menu in Hfs2.
  rewrite (bind_ret_eq _ _ _ _ _ H2). cbv beta.
  rewrite bind_ret_l.
  destruct (remove_files_run silent d names 0%nat w2 entries) as (k & w3 & H3 & Hfs3 & Hreg3).
  { rewrite Hfs2, Hfs1. by rewrite lookup_insert_ne. }
  { intros n x Hn. by apply (Htidy n x). }
  rewrite (bind_ret_eq _ _ _ _ _ H3). cbv beta.
  rewrite delete_all_listed in Hfs3 by (intros n x Hn; by apply (Htidy n x)).
  destruct (remove_dir_run silent d w3) as (w4 & H4 & Hfs4 & Hreg4).
  { rewrite Hfs3. apply lookup_insert_eq. }
  rewrite (bind_ret_eq _ _ _ _ _ H4). cbv beta.
  match goal with
  | |- context [when (negb silent) (print_all ?lines)] =>
      destruct (banner_run silent lines w4) as (w5 & H5 & Hfs5 & Hreg5 & _)
  end.
  rewrite (bind_ret_eq _ _ _ _ _ H5). cbv beta.
  exists w5. split; [done|]. split; [|congruence].
  rewrite Hfs5, Hfs4, Hfs3, Hfs2, Hfs1. by rewrite delete_insert_eq.
Qed.

(** *** What a successful install has made of a fresh directory *)

Lemma without_absent d s : PyStr.contains d s = false -> without d s = s.
Proof.
  intros Hin. apply without_unrelated. intros seg Hseg ->.
  apply (segment_contained ";") in Hseg. congruence.
Qed.

Lemma without_appended d s :
  PyStr.contains d s = false -> free_of ";" d -> without d (s +:+ ";" +:+ d) = s.
Proof.
  intros Hin Hfree. unfold without.
  assert (Hsplit : PyStr.split ";" (s +:+ ";" +:+ d) = PyStr.split ";" s ++ [d])
    by (by apply (split_appended ";")).
  rewrite Hsplit, filter_app.
  rewrite (filter_cons_False _ d []) by (intros Hne; by apply Hne).
  rewrite filter_nil, app_nil_r.
  apply (without_absent d s Hin).
Qed.

Lemma create_shortcut_run env d w programdata entries :
  PROGRAMDATA env = Some programdata ->
  fs w !! start_menu_of programdata = Some entries ->
  entries !! "RuPing.url" = None ->
  exists w', create_start_menu_shortcut env d w = (Ret true, w')
    /\ fs w' = <[start_menu_of programdata := <["RuPing.url" := File (url_content d)]> entries]>
                 (fs w).
Proof.
  intros Hpd Hmenu Hurl. eexists. split.
  { unfold create_start_menu_shortcut, try_except, start_menu. rewrite Hpd.
    rewrite bind_ret_l. unfold bind at 1. unfold write_file. cbn [fst snd].
    rewrite Hmenu, Hurl. reflexivity. }
  reflexivity.
Qed.

Lemma install_dir_not_empty env install_path :
  Path (install_dir_of env install_path) = install_dir_of env install_path.
Proof.
  assert (Hpath : forall p, Path (Path p) = Path p).
  { intros p. unfold Path. destruct (decide (p = "")) as [->|Hp]; [done|].
    by rewrite decide_False. }
  assert (Hdefault : Path (default_install_path env) = default_install_path env).
  { unfold default_install_path, path_join.
    assert (Hne : forall a b, a <> "" -> Path (a +:+ b) = a +:+ b).
    { intros a b Ha. unfold Path. rewrite decide_False; [done|]. by destruct a. }
    case_decide as Hdot; [done|].
    destruct (PyStr.endswith _ "\" || PyStr.endswith _ ":"); apply Hne; tauto. }
  unfold install_dir_of. destruct install_path as [p|]; [|done].
  case_decide; [done|apply Hpath].
Qed.

Lemma install_true_shape env install_path no_path silent w0 w1 programdata menu_entries s :
  let d := install_dir_of env install_path in
  let menu := start_menu_of programdata in
  install env install_path no_path silent w0 = (Ret true, w1) ->
  fs w0 !! d = None ->
  reg_path w0 = Some s ->
  PyStr.contains d s = false ->
  PROGRAMDATA env = Some programdata ->
  fs w0 !! menu = Some menu_entries ->
  menu_entries !! "RuPing.url" = None ->
  (forall d', d' <> d -> d' <> menu -> fs w1 !! d' = fs w0 !! d')
  /\ fs w1 !! menu = Some (<["RuPing.url" := File (url_content d)]> menu_entries)
  /\ tidy d installed_files w1
  /\ entry w1 (d, install_info_file) = Some (File (json_dump env (install_info d)))
  /\ (reg_path w1 = Some s \/ reg_path w1 = Some (s +:+ ";" +:+ d)).
Proof.
  intros d menu Hrun Hfresh Hval Hin Hpd Hmenu Hurl.
  assert (Hne : menu <> d) by congruence.
  assert (Hdir : is_Some (fs w1 !! d)).
  { apply (entry_dir_exists w1 (d, exe_name)).
    eapply (install_true_deployed _ _ _ _ _ _ Hrun exe_name).
    unfold files_to_extract. apply list_elem_of_here. }
  assert (Htidy1 : tidy d installed_files w1).
  { assert (P : preserves (keeps_tidy d installed_files)
                  (install env install_path no_path silent)).
    { pose proof (mkdir_p_tidy env d installed_files).
      pose proof (extract_all_tidy env silent d).
      pose proof (save_install_info_tidy env d).
      assert (preserves (keeps_tidy d installed_files) (create_start_menu_shortcut env d)).
      { apply create_start_menu_shortcut_tidy. intros pd Hpd'.
        rewrite Hpd in Hpd'. injection Hpd' as <-. exact Hne. }
      unfold install. fold d. frame. }
    specialize (P w0). rewrite Hrun in P. apply P.
    intros n x. rewrite (entry_no_dir w0 (d, n)) by done. done. }
  pose proof (mkdir_p_dir_confined env d) as Pmk.
  pose proof (extract_all_dir_confined env silent d) as Pex.
  pose proof (save_install_info_dir_confined env d) as Psave.
  unfold install in Hrun. fold d in Hrun.
  apply bind_inv_ret in Hrun; destruct Hrun as ([] & w2 & H1 & Hrun).
  apply bind_inv_ret in Hrun; destruct Hrun as ([] & w3 & H2 & Hrun).
  apply bind_inv_ret in Hrun; destruct Hrun as ([] & w4 & H3 & Hrun).
  apply bind_inv_ret in Hrun; destruct Hrun as (created & w5 & H4 & Hrun).
  destruct created; [|done]. cbn [negb] in Hrun.
  apply bind_inv_ret in Hrun; destruct Hrun as (extracted & w6 & H5 & Hrun).
  destruct extracted; [|done]. cbn [negb] in Hrun.
  apply bind_inv_ret in Hrun; destruct Hrun as ([] & w7 & H6 & Hrun).
  apply bind_inv_ret in Hrun; destruct Hrun as (linked & w8 & H7 & Hrun).
  apply bind_inv_ret in Hrun; destruct Hrun as ([] & w9 & H8 & Hrun).
  apply bind_inv_ret in Hrun; destruct Hrun as ([] & w10 & H9 & Hrun).
  injection Hrun as <-.
  (* the directories up to the shortcut *)
  related (dir_confined d) H1 K1. related (dir_confined d) H2 K2.
  related (dir_confined d) H3 K3. related (dir_confined d) H4 K4.
  related (dir_confined d) H5 K5. related (dir_confined d) H6 K6.
  assert (K : dir_confined d w0 w7).
  { eapply frame_trans; [exact K1|]. eapply frame_trans; [exact K2|].
    eapply frame_trans; [exact K3|]. eapply frame_trans; [exact K4|].
    eapply frame_trans; [exact K5|exact K6]. }
  (* the shortcut *)
  destruct (create_shortcut_run env d w7 programdata menu_entries Hpd) as (w8' & H7' & Hfs8);
    [exact (eq_trans (K menu Hne) Hmenu)|done|].
  fold menu in Hfs8.
  rewrite H7' in H7. injection H7 as <- <-.
  (* the ledger and the closing lines *)
  related (dir_confined d) H8 K8. related (dir_confined d) H9 K9.
  assert (K' : dir_confined d w8' w10) by (eapply frame_trans; [exact K8|exact K9]).
  (* the PATH value *)
  related same_path H1 S1. related same_path H2 S2. related same_path H3 S3.
  related same_path H4 S4. related same_path H5 S5.
  related same_path H7' S7. related same_path H8 S8. related same_path H9 S9.
  unfold same_path in *.
  assert (Hval6 : reg_path w6 = Some s) by congruence.
  assert (Hval7 : reg_path w7 = Some s \/ reg_path w7 = Some (s +:+ ";" +:+ d)).
  { destruct no_path; cbn [negb] in H6.
    - injection H6 as <-. by left.
    - apply bind_inv_ret in H6; destruct H6 as (added & w7' & Hadd & Hret).
      injection Hret as <-.
      destruct (reg_access env) eqn:Hacc.
      + pose proof (add_to_path_absent env d w6 s Hacc Hval6 Hin) as Habs.
        cbv zeta in Habs. rewrite Hadd in Habs.
        destruct (user32_ok env); [destruct (windows env)|];
          try discriminate; injection Habs as _ ->; by right.
      + rewrite add_to_path_closed in Hadd by (by left). injection Hadd as _ <-. by left. }
  split; [|split; [|split; [|split]]].
  - intros d' Hd Hm. rewrite (K' d' Hd), Hfs8. rewrite lookup_insert_ne by done.
    by apply K.
  - rewrite (K' menu Hne), Hfs8. apply lookup_insert_eq.
  - exact Htidy1.
  - match type of H9 with
    | when (negb silent) (print_all ?lines) w9 = _ =>
        destruct (banner_run silent lines w9) as (w' & Hb & Hfs & _)
    end.
    rewrite Hb in H9. injection H9 as <-.
    pose proof (save_install_info_result env d w8') as Hres. rewrite H8 in Hres.
    cbn [snd] in Hres.
    rewrite (same_fs_same_entries w9 w' Hfs) in *.
    apply Hres.
    + rewrite <- Hfs. by destruct Hdir as [? ->].
    + intros Hsub. rewrite <- (same_fs_same_entries w9 w' Hfs) in Hsub.
      apply Htidy1 in Hsub; destruct Hsub as [_ [data Hsub]]. discriminate.
  - destruct Hval7 as [Hv|Hv]; [left|right]; congruence.
Qed.

(** X22: outside the installation directory, install followed by the
    uninstaller undoes itself. Let install return true for a directory that
    was not there, on a machine whose PATH value does not contain the
    directory as a substring, whose start menu has no RuPing shortcut, and
    with a directory name free of semicolons. When the uninstaller is then
    run elevated from the installation directory, silently or confirmed,
    with the registry key open and a JSON reader that reads the installer's
    record back, it returns true, the PATH value is what it was before the
    install, and so is every regular file outside the installation
    directory, the start menu included. What is left inside the directory is
    not stated: Windows does not let the running uninstaller delete its own
    image. *)
Theorem install_then_uninstall_restores
    env remover install_path no_path silent quiet w0 w1 programdata menu_entries s :
  let d := install_dir_of env install_path in
  install env install_path no_path silent w0 = (Ret true, w1) ->
  fs w0 !! d = None ->
  reg_path w0 = Some s ->
  PyStr.contains d s = false ->
  free_of ";" d ->
  PROGRAMDATA env = Some programdata ->
  PROGRAMDATA remover = Some programdata ->
  fs w0 !! start_menu_of programdata = Some menu_entries ->
  menu_entries !! "RuPing.url" = None ->
  menu_entries !! "RuPing.lnk" = None ->
  is_admin remover = true ->
  reg_access remover = true ->
  current_dir remover = d ->
  json_load remover (json_dump env (install_info d)) = Some (install_info d) ->
  (quiet = true \/ exists answer rest, stdin w1 = answer :: rest /\ is_yes answer = true) ->
  exists w2, uninstall remover None quiet w1 = (Ret true, w2)
    /\ reg_path w2 = reg_path w0
    /\ forall p, p.1 <> d -> same_file w0 w2 p.
Proof.
  intros d Hrun Hfresh Hval Hin Hfree Hpd Hpd' Hmenu Hurl Hlnk Hadmin Hacc Hhere Hload Hgo.
  destruct (install_true_shape env install_path no_path silent w0 w1 programdata
              menu_entries s Hrun Hfresh Hval Hin Hpd Hmenu Hurl)
    as (Hdirs & Hmenu1 & Htidy & Hledger & Hval1).
  fold d in Hdirs, Hmenu1, Htidy, Hledger, Hval1.
  set (menu := start_menu_of programdata) in *.
  assert (Hne : menu <> d) by congruence.
  assert (Hd : Path d = d) by apply install_dir_not_empty.
  destruct (fs w1 !! d) as [entries|] eqn:Hd1.
  2:{ rewrite (entry_no_dir w1 (d, install_info_file)) in Hledger by done. done. }
  destruct (uninstall_prelude_ledger remover quiet w1
              (json_dump env (install_info d))
              [ ("install_path", JStr d);
                ("version", JStr "0.1.0");
                ("aliases", JArr (map JStr aliases));
                ("installed_files", JArr (map JStr installed_files)) ] d Hadmin)
    as (w1' & Hpre & Hfs1 & Hreg1 & Hin1).
  { by rewrite Hhere. }
  { exact Hload. }
  { reflexivity. }
  { rewrite Hd, Hd1. eauto. }
  rewrite Hd in Hpre.
  unfold uninstall. rewrite (bind_ret_eq _ _ _ _ _ Hpre). cbv beta iota.
  destruct (confirm_uninstall_goes_on d quiet w1') as (w1'' & Hc & Hfs2 & Hreg2).
  { destruct Hgo as [?|(answer & rest & Hstdin & Hyes)]; [by left|].
    right. exists answer, rest. by rewrite Hin1. }
  rewrite (bind_ret_eq _ _ _ _ _ Hc). cbv beta. cbn [negb].
  assert (Hs : exists s', reg_path w1'' = Some s' /\ without d s' = s).
  { destruct Hval1 as [Hv|Hv].
    - exists s. split; [congruence|by apply without_absent].
    - exists (s +:+ ";" +:+ d). split; [congruence|by apply without_appended]. }
  destruct Hs as (s' & Hval2 & Hback).
  destruct (uninstall_apply_clears remover quiet d
              (Some [ ("install_path", JStr d);
                      ("version", JStr "0.1.0");
                      ("aliases", JArr (map JStr aliases));
                      ("installed_files", JArr (map JStr installed_files)) ])
              installed_files w1'' programdata menu_entries (url_content d) entries s'
              Hacc Hval2 Hpd')
    as (w2 & Happly & Hfs & Hreg).
  { exact Hne. }
  { by rewrite Hfs2, Hfs1. }
  { exact Hurl. }
  { exact Hlnk. }
  { by rewrite Hfs2, Hfs1. }
  { intros n x Hn. apply Htidy. by rewrite (entry_in_dir w1 (d, n) entries Hd1). }
  { reflexivity. }
  exists w2. split; [exact Happly|]. split; [congruence|].
  intros q _. apply same_entry_same_file. apply same_fs_same_entries.
  rewrite Hfs, Hfs2, Hfs1. apply map_eq. intros k.
  destruct (decide (k = d)) as [->|Hk].
  - rewrite lookup_delete_eq. by rewrite Hfresh.
  - rewrite lookup_delete_ne by done.
    destruct (decide (k = menu)) as [->|Hm].
    + rewrite lookup_insert_eq. by rewrite Hmenu.
    + rewrite lookup_insert_ne by done. by apply Hdirs.
Qed.

Lemma install_then_uninstall_witness :
  exists w2, uninstall Scenario.remover None true Scenario.installed = (Ret true, w2)
    /\ reg_path w2 = reg_path Scenario.fresh
    /\ forall p, p.1 <> install_dir_of Scenario.setup (Some Scenario.root) ->
         same_file Scenario.fresh w2 p.
Proof.
  refine (install_then_uninstall_restores Scenario.setup Scenario.remover
            (Some Scenario.root) false true true Scenario.fresh Scenario.installed
            "C:\ProgramData" ∅ "C:\Windows;C:\Windows\System32"
            _ _ _ _ _ _ _ _ _ _ _ _ _ _ _).
  - vm_compute. reflexivity.
  - vm_compute. reflexivity.
  - reflexivity.
  - vm_compute. reflexivity.
  - vm_compute. by_listing.
  - reflexivity.
  - reflexivity.
  - vm_compute. reflexivity.
  - reflexivity.
  - reflexivity.
  - reflexivity.
  - reflexivity.
  - reflexivity.
  - vm_compute. reflexivity.
  - by left.
Defined.

(** ** The resources of the build *)

Lemma first_existing_none candidates w :
  Forall (fun c => entry w c = None) candidates ->
  Build.first_existing candidates w = (Ret None, w).
Proof.
  induction 1 as [|c rest Hc Hrest IH]; [done|].
  cbn [Build.first_existing]. unfold bind at 1. unfold path_exists. rewrite Hc.
  rewrite bool_decide_eq_false_2 by (by intros [? ?]). exact IH.
Qed.

Lemma first_existing_first pre c post w :
  Forall (fun c => entry w c = None) pre ->
  is_Some (entry w c) ->
  Build.first_existing (pre ++ c :: post) w = (Ret (Some c), w).
Proof.
  intros Hpre Hc. induction Hpre as [|c0 rest Hc0 Hrest IH]; cbn [app Build.first_existing].
  - unfold bind at 1. unfold path_exists. by rewrite bool_decide_eq_true_2.
  - unfold bind at 1. unfold path_exists. rewrite Hc0.
    rewrite bool_decide_eq_false_2 by (by intros [? ?]). exact IH.
Qed.

(** X23: prepare_installer_resources takes the first of its three
    candidates that exists, the parent's release directory before the
    installer's own: when that candidate is a regular file other than
    ruping.exe in the current directory, the function returns true, ruping.exe
    in the current directory has the candidate's contents, whatever was there
    before, and no other entry has changed. *)
Theorem prepare_copies_first_found l pre src post data m w :
  Build.possible_paths l = pre ++ src :: post ->
  Forall (fun c => entry w c = None) pre ->
  entry w src = Some (File data) ->
  src <> (Build.here l, "ruping.exe") ->
  fs w !! Build.here l = Some m ->
  m !! "ruping.exe" <> Some SubDir ->
  exists w', Build.prepare_installer_resources l w = (Ret true, w')
    /\ entry w' (Build.here l, "ruping.exe") = Some (File data)
    /\ (forall p, p <> (Build.here l, "ruping.exe") -> entry w' p = entry w p)
    /\ reg_path w' = reg_path w.
Proof.
  intros Hlist Hpre Hsrc Hne Hhere Hfree.
  unfold Build.prepare_installer_resources. rewrite Hlist.
  rewrite (bind_ret_eq _ _ _ _ _ (first_existing_first pre src post w Hpre
                                    (ex_intro _ _ Hsrc))).
  cbv beta iota.
  rewrite (bind_ret_eq _ _ w tt (emit (Print ("Found ruping.exe at: "
                                               +:+ path_join src.1 src.2)) w))
    by reflexivity.
  cbv beta.
  unfold bind at 1. unfold copy2. rewrite entry_emit, Hsrc.
  rewrite decide_False by done. cbn [fst snd fs emit]. rewrite Hhere.
  eexists. split.
  { destruct (m !! "ruping.exe") as [[old|]|]; [reflexivity|done|reflexivity]. }
  split; [|split; [|reflexivity]].
  - unfold entry. cbn. rewrite lookup_insert_eq. cbn. apply lookup_insert_eq.
  - intros p Hp. unfold entry. cbn.
    destruct (decide (p.1 = Build.here l)) as [Hd|Hd].
    + rewrite Hd, lookup_insert_eq, Hhere. cbn. apply lookup_insert_ne.
      intros Hn. apply Hp. destruct p. cbn in *. congruence.
    + by rewrite lookup_insert_ne.
Qed.

Lemma prepare_copies_first_found_witness :
  exists w', Build.prepare_installer_resources Cases.tree Cases.built = (Ret true, w')
    /\ entry w' ("C:\src\installer", "ruping.exe") = Some (File "MZ ruping").
Proof.
  destruct (prepare_copies_first_found Cases.tree []
              ("C:\src\target\release", "ruping.exe")
              [ ("C:\src\installer\target\release", "ruping.exe");
                ("C:\src\installer", "ruping.exe") ]
              "MZ ruping" {[ "ruping.exe" := File "MZ stale" ]} Cases.built)
    as (w' & Hrun & Hcopy & _).
  - reflexivity.
  - constructor.
  - vm_compute. reflexivity.
  - discriminate.
  - vm_compute. reflexivity.
  - vm_compute. discriminate.
  - exists w'. split; [exact Hrun|exact Hcopy].
Defined.

(** X24: with ruping.exe in neither release directory,
    prepare_installer_resources never returns true and changes no directory:
    it returns false when the current directory has no ruping.exe either, and
    when it has one, the copy of that file onto itself ends the function in an
    exception, so that a ruping.exe left next to the script is never used. *)
Theorem prepare_needs_release_build l w :
  entry w (Build.parent_release l, "ruping.exe") = None ->
  entry w (Build.own_release l, "ruping.exe") = None ->
  exists w',
    Build.prepare_installer_resources l w
    = (if bool_decide (is_Some (entry w (Build.here l, "ruping.exe"))) then Raise
       else Ret false, w')
    /\ fs w' = fs w
    /\ reg_path w' = reg_path w.
Proof.
  intros Hparent Hown. unfold Build.prepare_installer_resources.
  case_bool_decide as Hhere.
  - rewrite (bind_ret_eq _ _ _ _ _
               (first_existing_first
                  [ (Build.parent_release l, "ruping.exe"); (Build.own_release l, "ruping.exe") ]
                  (Build.here l, "ruping.exe") [] w
                  ltac:(by repeat constructor) Hhere)).
    cbv beta iota.
    rewrite (bind_ret_eq _ _ w tt
               (emit (Print ("Found ruping.exe at: "
                             +:+ path_join (Build.here l, "ruping.exe").1
                                           (Build.here l, "ruping.exe").2)) w))
      by reflexivity.
    cbv beta.
    exists (emit (Print ("Found ruping.exe at: "
                         +:+ path_join (Build.here l, "ruping.exe").1
                                       (Build.here l, "ruping.exe").2)) w).
    split; [|split; reflexivity].
    unfold bind at 1. unfold copy2. rewrite entry_emit.
    destruct (entry w (Build.here l, "ruping.exe")) as [[data|]|]; [|reflexivity..].
    by rewrite decide_True.
  - rewrite (bind_ret_eq _ _ _ _ _
               (first_existing_none (Build.possible_paths l) w
                  ltac:(repeat constructor; try done;
                        destruct (entry w (Build.here l, "ruping.exe")) eqn:He;
                        [exfalso; apply Hhere; eauto|done]))).
    cbv beta iota. eexists. split; [reflexivity|split; reflexivity].
Qed.

Lemma prepare_needs_release_build_witness :
  exists w', Build.prepare_installer_resources Cases.tree Cases.unbuilt = (Raise, w')
    /\ fs w' = fs Cases.unbuilt.
Proof.
  destruct (prepare_needs_release_build Cases.tree Cases.unbuilt) as (w' & Hrun & Hfs & _).
  - vm_compute. reflexivity.
  - vm_compute. reflexivity.
  - exists w'. split; [exact Hrun|exact Hfs].
Defined.

